(** * VR-Editor icon pipeline: [assets/icons/convert_to_dds.py]

    A shallow embedding of the three-stage icon pipeline
    (SVG -> PNG -> DDS -> mod folder) and the properties of it that the
    specification states.

    The script only touches the outside world: it creates directories,
    lists them, tests paths for existence, launches two external programs
    and copies files.  The embedding therefore threads an explicit
    [World] (a filesystem tree, the text printed so far and the log of
    [subprocess.run] calls) through a small state-and-exception monad, and
    takes the behaviour of the external programs as a parameter [exec]:
    any function from the call number, the command line and the
    filesystem to a result and a new filesystem.

    What the filesystem model has: directories with their entries in
    listing order, regular files with bytes, mode and modification time,
    and the failures of [Path.mkdir] and [shutil.copy2] that the shape of
    the tree decides (a file where a directory is needed, a directory
    where a file is needed, a missing parent, a file copied onto itself).
    What it leaves out: permissions, links, devices, a full disk, and the
    case-insensitive names of Windows; paths and patterns are POSIX's.
    [print] never fails, and nothing interrupts the process from outside.

    The second script of the directory, [recolor_highlights.py], is
    embedded in the same world: its listing with the [glob] module, its
    two [str.replace] calls, and its reading and writing of text files,
    with the text layer of [open] (decoding and encoding) as a
    parameter. *)

From Stdlib Require Import List String Ascii ZArith Lia Bool Arith.
From Stdlib Require Import DecimalString.
Import ListNotations.

Open Scope string_scope.
Open Scope list_scope.

Infix "+:+" := String.append (at level 60, right associativity).

(** ** Paths ([pathlib.PurePath]) *)

(** A resolved absolute path is the list of its components below the root. *)
Definition path := list string.

Definition path_eqb (p q : path) : bool :=
  if list_eq_dec string_dec p q then true else false.

(** [p / c] *)
Definition child (p : path) (c : string) : path := p ++ [c].

(** [PurePath.name]: the final component, [""] for the root. *)
Definition name (p : path) : string := last p "".

(** [str(p)] in the POSIX flavour. *)
Definition str (p : path) : string :=
  match p with
  | [] => "/"
  | _ => fold_right (fun c acc => "/" +:+ c +:+ acc) "" p
  end.

(** [s.rfind('.')], counting positions from [i]. *)
Fixpoint rfind_dot (s : string) (i : nat) : option nat :=
  match s with
  | EmptyString => None
  | String c s' =>
      match rfind_dot s' (S i) with
      | Some j => Some j
      | None => if Ascii.eqb c "." then Some i else None
      end
  end.

(** [PurePath.stem] (pathlib of Python 3.8 to 3.12):
<<
    i = name.rfind('.')
    if 0 < i < len(name) - 1: return name[:i]
    else: return name
>> *)
Definition stem (nm : string) : string :=
  match rfind_dot nm 0 with
  | Some i =>
      if Nat.ltb 0 i && Nat.ltb i (String.length nm - 1)
      then substring 0 i nm else nm
  | None => nm
  end.

(** [fnmatch] for the patterns pathlib's [glob] receives: [*] matches any
    run of characters, [?] one character, anything else itself.  Names
    that start with a dot are not special for pathlib. *)
Fixpoint fnmatch (pat : string) : string -> bool :=
  match pat with
  | EmptyString =>
      fun nm => match nm with EmptyString => true | String _ _ => false end
  | String c pat' =>
      if Ascii.eqb c "*" then
        fix star (nm : string) : bool :=
          fnmatch pat' nm
          || match nm with
             | EmptyString => false
             | String _ nm' => star nm'
             end
      else if Ascii.eqb c "?" then
        fun nm =>
          match nm with
          | EmptyString => false
          | String _ nm' => fnmatch pat' nm'
          end
      else
        fun nm =>
          match nm with
          | EmptyString => false
          | String d nm' => Ascii.eqb c d && fnmatch pat' nm'
          end
  end.

(** [_SCRIPT_DIR.parents[i]]: [None] stands for [IndexError]. *)
Definition parents (p : path) (i : nat) : option path :=
  if Nat.ltb i (List.length p) then Some (firstn (List.length p - S i) p)
  else None.

(** ** The filesystem *)

(** A regular file: its bytes and the metadata [shutil.copystat] carries
    over (permission bits and modification time). *)
Record file := mkfile { content : list Byte.byte; st_mode : N; st_mtime : Z }.

(** A directory keeps its entries in the order [os.scandir] reports them. *)
#[warnings="-register-all"]
Inductive node :=
| File (f : file)
| Dir (entries : list (string * node)).

Fixpoint entry (c : string) (es : list (string * node)) : option node :=
  match es with
  | [] => None
  | (c', n) :: es' => if String.eqb c c' then Some n else entry c es'
  end.

(** Replace the entry named [c], or add it at the end. *)
Fixpoint set_entry (c : string) (n : node) (es : list (string * node))
  : list (string * node) :=
  match es with
  | [] => [(c, n)]
  | (c', n') :: es' =>
      if String.eqb c c' then (c, n) :: es' else (c', n') :: set_entry c n es'
  end.

Fixpoint lookup (p : path) (n : node) : option node :=
  match p with
  | [] => Some n
  | c :: p' =>
      match n with
      | File _ => None
      | Dir es =>
          match entry c es with
          | Some n' => lookup p' n'
          | None => None
          end
      end
  end.

(** [Path.exists()] and [Path.is_dir()] *)
Definition path_exists (p : path) (root : node) : bool :=
  match lookup p root with Some _ => true | None => false end.

Definition is_dir (p : path) (root : node) : bool :=
  match lookup p root with Some (Dir _) => true | _ => false end.

(** The exceptions the script can meet; every one is a subclass of
    [Exception]. *)
Inductive exn :=
| FileNotFoundError
| FileExistsError
| NotADirectoryError
| IsADirectoryError
| SameFileError
| IndexError
| OtherException (text : string).

Definition str_exn (e : exn) : string :=
  match e with
  | FileNotFoundError => "[Errno 2] No such file or directory"
  | FileExistsError => "[Errno 17] File exists"
  | NotADirectoryError => "[Errno 20] Not a directory"
  | IsADirectoryError => "[Errno 21] Is a directory"
  | SameFileError => "are the same file"
  | IndexError => "3"
  | OtherException text => text
  end.

(** [Path.mkdir(parents=True, exist_ok=True)]: missing directories along
    the path are created; a regular file in the way raises
    [NotADirectoryError] (an ancestor) or [FileExistsError] (the path
    itself). *)
Fixpoint mkdir_p (p : path) (n : node) : exn + node :=
  match n, p with
  | File _, [] => inl FileExistsError
  | File _, _ :: _ => inl NotADirectoryError
  | Dir _, [] => inr n
  | Dir es, c :: p' =>
      match mkdir_p p' (match entry c es with
                        | Some n' => n'
                        | None => Dir []
                        end) with
      | inl e => inl e
      | inr n' => inr (Dir (set_entry c n' es))
      end
  end.

(** [open(p, 'wb')], writing the bytes and then the metadata of [f]. *)
Fixpoint write_file (p : path) (f : file) (n : node) : exn + node :=
  match n, p with
  | File _, [] => inr (File f)
  | File _, _ :: _ => inl NotADirectoryError
  | Dir _, [] => inl IsADirectoryError
  | Dir es, c :: p' =>
      match entry c es with
      | Some n' =>
          match write_file p' f n' with
          | inl e => inl e
          | inr n'' => inr (Dir (set_entry c n'' es))
          end
      | None =>
          match p' with
          | [] => inr (Dir (set_entry c (File f) es))
          | _ :: _ => inl FileNotFoundError
          end
      end
  end.

(** [shutil.copy2(src, dst)]: a [dst] that is a directory receives the
    file under the source's name; copying a file onto itself raises
    [SameFileError]; then [copyfile] and [copystat]. *)
Definition copy2 (src dst : path) (root : node) : exn + node :=
  let dst := if is_dir dst root then child dst (name src) else dst in
  if path_eqb src dst && path_exists src root then inl SameFileError
  else
    match lookup src root with
    | None => inl FileNotFoundError
    | Some (Dir _) => inl IsADirectoryError
    | Some (File f) => write_file dst f root
    end.

(** The names [os.scandir] yields for a directory, in its order; nothing
    when [d] is not a directory. *)
Definition scandir (d : path) (root : node) : list string :=
  match lookup d root with
  | Some (Dir es) => map fst es
  | _ => []
  end.

(** [d.glob(pat)] for a pattern of one component. *)
Definition glob_in (d : path) (pat : string) (root : node) : list path :=
  map (child d) (filter (fnmatch pat) (scandir d root)).

(** ** The world and the monad of the script *)

(** What [subprocess.run(argv, capture_output=True, text=True)] gives: a
    [CompletedProcess] (of which the script reads [returncode] and
    [stderr]) or an exception raised while launching. *)
Inductive run_result :=
| Completed (returncode : Z) (stderr : string)
| Raised (e : exn).

(** One [subprocess.run] call: the command line and what came back. *)
Record call := mkcall { argv : list string; result : run_result }.

Record World := mkWorld {
  fs : node;              (* the filesystem *)
  stdout : list string;   (* the lines printed, oldest first *)
  calls : list call       (* the subprocess calls made, oldest first *)
}.

Inductive outcome (A : Type) :=
| Return (a : A)
| Raise (e : exn).
Arguments Return {A} a.
Arguments Raise {A} e.

(** A statement runs in a world and either returns or raises; the world
    it leaves behind is kept in both cases. *)
Definition M (A : Type) : Type := World -> outcome A * World.

Definition ret {A} (a : A) : M A := fun w => (Return a, w).

Definition bind {A B} (m : M A) (k : A -> M B) : M B :=
  fun w =>
    match m w with
    | (Return a, w') => k a w'
    | (Raise e, w') => (Raise e, w')
    end.

Declare Scope py_scope.
Delimit Scope py_scope with py.
Notation "x <- m ;; k" := (bind m (fun x => k))
  (at level 100, m at next level, right associativity) : py_scope.
Notation "m ;; k" := (bind m (fun _ => k))
  (at level 100, right associativity) : py_scope.
Open Scope py_scope.

Definition print (line : string) : M unit :=
  fun w => (Return tt,
            {| fs := fs w; stdout := stdout w ++ [line]; calls := calls w |}).

Definition mkdir (p : path) : M unit :=
  fun w =>
    match mkdir_p p (fs w) with
    | inl e => (Raise e, w)
    | inr root =>
        (Return tt, {| fs := root; stdout := stdout w; calls := calls w |})
    end.

Definition exists_ (p : path) : M bool :=
  fun w => (Return (path_exists p (fs w)), w).

Definition glob (d : path) (pat : string) : M (list path) :=
  fun w => (Return (glob_in d pat (fs w)), w).

Definition shutil_copy2 (src dst : path) : M unit :=
  fun w =>
    match copy2 src dst (fs w) with
    | inl e => (Raise e, w)
    | inr root =>
        (Return tt, {| fs := root; stdout := stdout w; calls := calls w |})
    end.

(** [str(n)] for a count. *)
Definition str_nat (n : nat) : string := NilEmpty.string_of_uint (Nat.to_uint n).

(** [c * n] for a one-character string. *)
Fixpoint repeat_char (c : ascii) (n : nat) : string :=
  match n with
  | O => EmptyString
  | S n' => String c (repeat_char c n')
  end.

Definition newline : string := String (ascii_of_nat 10) EmptyString.

(** The two command lines. *)
Definition magick_exe : string :=
  "C:\Program Files\ImageMagick-7.1.2-Q16\magick.exe".

Definition magick_argv (svg_path png_path : path) : list string :=
  [magick_exe; "-background"; "none"; str svg_path; str png_path].

Definition texconv_argv (dds_dir png_path : path) : list string :=
  ["texconv"; "-f"; "BC7_UNORM"; "-y"; "-o"; str dds_dir; str png_path].

(** ** The three stages and the orchestrator *)

(** How a [for] loop with a [return] inside ends: it runs off the end of
    its list, or it leaves the function.  Both carry the locals
    [converted] and [skipped] as they are at that point. *)
Inductive loop_exit :=
| Fallthrough (converted skipped : nat)
| Returned (converted skipped : nat).

(** The value of [converted] the function returns in both cases. *)
Definition exit_value (x : loop_exit) : nat :=
  match x with
  | Fallthrough converted _ => converted
  | Returned converted _ => converted
  end.

Section Pipeline.

(** The behaviour of the external programs: what the [k]-th
    [subprocess.run] of the process does with a command line in a
    filesystem, and the filesystem it leaves. *)
Variable exec : nat -> list string -> node -> run_result * node.

Definition subprocess_run (args : list string) : M run_result :=
  fun w =>
    let '(r, root) := exec (List.length (calls w)) args (fs w) in
    (Return r,
     {| fs := root; stdout := stdout w;
        calls := calls w ++ [mkcall args r] |}).

(** The body of [for svg_path in svg_files] in [convert_svgs_to_pngs]. *)
Fixpoint svg_loop (png_dir : path) (svg_files : list path)
         (converted skipped : nat) : M loop_exit :=
  match svg_files with
  | [] => ret (Fallthrough converted skipped)
  | svg_path :: rest =>
      let png_name := stem (name svg_path) +:+ ".png" in
      let png_path := child png_dir png_name in
      e <- exists_ png_path ;;
      if e : bool then svg_loop png_dir rest converted (S skipped)
      else
        r <- subprocess_run (magick_argv svg_path png_path) ;;
        match r with
        | Completed rc err =>
            if Z.eqb rc 0 then
              print ("  [OK] " +:+ name svg_path +:+ " -> " +:+ png_name) ;;
              svg_loop png_dir rest (S converted) skipped
            else
              print ("  [ERR] " +:+ name svg_path
                     +:+ " - ImageMagick error: " +:+ err) ;;
              svg_loop png_dir rest converted skipped
        | Raised FileNotFoundError =>
            print "  [ERR] magick not found in PATH!" ;;
            print "    Download from: https://imagemagick.org/script/download.php" ;;
            ret (Returned converted skipped)
        | Raised e =>
            print ("  [ERR] " +:+ name svg_path +:+ " - Error: " +:+ str_exn e) ;;
            svg_loop png_dir rest converted skipped
        end
  end.

(** What follows the loop: a [return] inside the loop has already left
    the function; otherwise the summary line and [return converted]. *)
Definition svg_epilogue (x : loop_exit) : M nat :=
  match x with
  | Returned converted _ => ret converted
  | Fallthrough converted skipped =>
      (if Nat.ltb 0 skipped
       then print ("  Skipped " +:+ str_nat skipped
                   +:+ " SVGs (PNGs already exist)")
       else ret tt) ;;
      ret converted
  end.

Definition convert_svgs_to_pngs (svg_dir png_dir : path) : M nat :=
  mkdir svg_dir ;;
  mkdir png_dir ;;
  svg_files <- glob svg_dir "*.svg" ;;
  match svg_files with
  | [] => print "No SVG files found" ;; ret 0
  | _ :: _ =>
      x <- svg_loop png_dir svg_files 0 0 ;;
      svg_epilogue x
  end.

(** The body of [for png_path in png_files] in [convert_pngs_to_dds];
    it has no [skipped] local, the second counter stays 0. *)
Fixpoint png_loop (dds_dir : path) (png_files : list path)
         (converted : nat) : M loop_exit :=
  match png_files with
  | [] => ret (Fallthrough converted 0)
  | png_path :: rest =>
      let dds_name := stem (name png_path) +:+ ".dds" in
      r <- subprocess_run (texconv_argv dds_dir png_path) ;;
      match r with
      | Completed rc err =>
          if Z.eqb rc 0 then
            print ("  [OK] " +:+ name png_path +:+ " -> " +:+ dds_name) ;;
            png_loop dds_dir rest (S converted)
          else
            print ("  [ERR] " +:+ name png_path
                   +:+ " - texconv error: " +:+ err) ;;
            png_loop dds_dir rest converted
      | Raised FileNotFoundError =>
          print "  [ERR] texconv not found in PATH!" ;;
          print "    Download from: https://github.com/Microsoft/DirectXTex/releases" ;;
          ret (Returned converted 0)
      | Raised e =>
          print ("  [ERR] " +:+ name png_path +:+ " - Error: " +:+ str_exn e) ;;
          png_loop dds_dir rest converted
      end
  end.

Definition convert_pngs_to_dds (png_dir dds_dir : path) : M nat :=
  mkdir dds_dir ;;
  png_files <- glob png_dir "*.png" ;;
  match png_files with
  | [] => print ("No PNG files found in " +:+ str png_dir) ;; ret 0
  | _ :: _ =>
      print ("Converting " +:+ str_nat (List.length png_files)
             +:+ " PNG files to DDS...") ;;
      x <- png_loop dds_dir png_files 0 ;;
      ret (exit_value x)
  end.

(** The body of [for dds_path in dds_dir.glob("*.dds")]. *)
Fixpoint copy_loop (mod_dir : path) (dds_files : list path) (copied : nat)
  : M nat :=
  match dds_files with
  | [] => ret copied
  | dds_path :: rest =>
      let dest := child mod_dir (name dds_path) in
      shutil_copy2 dds_path dest ;;
      print ("  [OK] " +:+ name dds_path +:+ " (DDS)") ;;
      copy_loop mod_dir rest (S copied)
  end.

Definition copy_to_mod_folder (png_dir dds_dir mod_dir : path) : M nat :=
  mkdir mod_dir ;;
  print (newline +:+ "Copying files to mod folder: " +:+ str mod_dir) ;;
  dds_files <- glob dds_dir "*.dds" ;;
  copy_loop mod_dir dds_files 0.

(** [MOD_TEXTURES_DIR], computed when the module is loaded. *)
Definition MOD_TEXTURES_DIR (script_dir : path) : option path :=
  match parents script_dir 3 with
  | Some project_root =>
      Some (project_root
            ++ ["papyrus"; "mods"; "VR Editor"; "textures"; "VREditor"])
  | None => None
  end.

Definition main (script_dir mod_textures_dir : path) : M unit :=
  let svg_dir := child script_dir "svg" in
  let png_dir := child script_dir "pngs" in
  let dds_dir := child script_dir "dds" in
  print (repeat_char "=" 60) ;;
  print "Icon DDS Converter & Deployer" ;;
  print (repeat_char "=" 60) ;;
  print (newline +:+ "[1/3] SVG -> PNG conversion") ;;
  print (repeat_char "-" 40) ;;
  svg_count <- convert_svgs_to_pngs svg_dir png_dir ;;
  print (newline +:+ "[2/3] PNG -> DDS conversion") ;;
  print (repeat_char "-" 40) ;;
  dds_count <- convert_pngs_to_dds png_dir dds_dir ;;
  print (newline +:+ "[3/3] Deploy to mod folder") ;;
  print (repeat_char "-" 40) ;;
  copy_count <- copy_to_mod_folder png_dir dds_dir mod_textures_dir ;;
  print (newline +:+ repeat_char "=" 60) ;;
  print ("Done! Converted " +:+ str_nat svg_count +:+ " SVGs, "
         +:+ str_nat dds_count +:+ " DDS files, copied "
         +:+ str_nat copy_count +:+ " total files.") ;;
  print (repeat_char "=" 60).

(** Running the file as a script: the module-level assignments, then
    [main()]. *)
Definition run_script (script_dir : path) : M unit :=
  match MOD_TEXTURES_DIR script_dir with
  | None => fun w => (Raise IndexError, w)
  | Some mod_textures_dir => main script_dir mod_textures_dir
  end.

End Pipeline.


(** ** A sample installation

    The script lives in [/repo/skse/vreditor/assets/icons]; the external
    programs are played by [sim_exec], which writes a small file where the
    real program would write its output. *)
Module Sample.

Definition script_dir : path := ["repo"; "skse"; "vreditor"; "assets"; "icons"].
Definition svg_dir : path := child script_dir "svg".
Definition png_dir : path := child script_dir "pngs".
Definition dds_dir : path := child script_dir "dds".
Definition mod_dir : path :=
  ["repo"; "papyrus"; "mods"; "VR Editor"; "textures"; "VREditor"].

Definition bytes_of (s : string) : list Byte.byte := list_byte_of_string s.

Definition svg_a : file := mkfile (bytes_of "<svg>a</svg>") 420 100.
Definition svg_b : file := mkfile (bytes_of "<svg>b</svg>") 420 101.
Definition png_a : file := mkfile (bytes_of "PNG a") 420 90.
Definition png_b : file := mkfile (bytes_of "PNG b") 420 91.
Definition dds_a : file := mkfile (bytes_of "DDS a") 420 95.
Definition dds_old : file := mkfile (bytes_of "DDS stale") 384 50.
Definition notes : file := mkfile (bytes_of "todo") 420 60.

(** The tree with [entries] in the icons directory. *)
Definition install (entries : list (string * node)) : node :=
  Dir [("repo",
        Dir [("skse",
              Dir [("vreditor",
                    Dir [("assets", Dir [("icons", Dir entries)])])])])].

Definition world (entries : list (string * node)) : World :=
  mkWorld (install entries) [] [].

(** Split a POSIX path string into its components. *)
Fixpoint split_path (s : string) (cur : string) : path :=
  match s with
  | EmptyString => match cur with EmptyString => [] | _ => [cur] end
  | String c s' =>
      if Ascii.eqb c "/" then
        match cur with
        | EmptyString => split_path s' ""
        | _ => cur :: split_path s' ""
        end
      else split_path s' (cur +:+ String c EmptyString)
  end.

(** A program that is not installed. *)
Definition missing_exec (k : nat) (args : list string) (root : node)
  : run_result * node := (Raised FileNotFoundError, root).

(** Programs that work: [magick] writes its last argument, [texconv]
    writes [<stem>.dds] into the directory after [-o]. *)
Definition sim_exec (k : nat) (args : list string) (root : node)
  : run_result * node :=
  match args with
  | [_; "-background"; "none"; src; dst] =>
      match write_file (split_path dst "") (mkfile (bytes_of ("PNG of " +:+ src)) 420 200) root with
      | inr root' => (Completed 0 "", root')
      | inl e => (Completed 1 (str_exn e), root)
      end
  | ["texconv"; "-f"; "BC7_UNORM"; "-y"; "-o"; out; src] =>
      match write_file (child (split_path out "") (stem (name (split_path src "")) +:+ ".dds"))
                       (mkfile (bytes_of ("DDS of " +:+ src)) 420 300) root with
      | inr root' => (Completed 0 "", root')
      | inl e => (Completed 1 (str_exn e), root)
      end
  | _ => (Completed 2 "usage", root)
  end.


(** The repository with [entries] in the icons directory and [deployed]
    in the mod's texture folder. *)
Definition install_with (entries deployed : list (string * node)) : node :=
  Dir [("repo",
        Dir [("skse",
              Dir [("vreditor",
                    Dir [("assets", Dir [("icons", Dir entries)])])]);
             ("papyrus",
              Dir [("mods",
                    Dir [("VR Editor",
                          Dir [("textures",
                                Dir [("VREditor", Dir deployed)])])])])])].

(** Two sources, one of them rasterized already. *)
Definition icons_fresh : list (string * node) :=
  [("svg", Dir [("a.svg", File svg_a); ("b.svg", File svg_b)]);
   ("pngs", Dir [("a.png", File png_a)])].

(** Two rasters, nothing compressed yet. *)
Definition icons_rasters : list (string * node) :=
  [("pngs", Dir [("a.png", File png_a); ("b.png", File png_b)])].

(** One compressed texture and a text file beside it. *)
Definition icons_compressed : list (string * node) :=
  [("dds", Dir [("a.dds", File dds_a); ("notes.txt", File notes)])].

(** Two rasters, one of them compressed before. *)
Definition icons_recompress : list (string * node) :=
  [("pngs", Dir [("a.png", File png_a); ("b.png", File png_b)]);
   ("dds", Dir [("a.dds", File dds_old)])].

(** A raster directory beside the compressed outputs. *)
Definition icons_both : list (string * node) :=
  [("pngs", Dir [("a.png", File png_a)]);
   ("dds", Dir [("a.dds", File dds_a); ("notes.txt", File notes)])].



(** A texture, then a directory named like one, then another texture. *)
Definition icons_mixed : list (string * node) :=
  [("dds", Dir [("a.dds", File dds_a); ("odd.dds", Dir []);
                ("b.dds", File dds_old)])].

(** Programs the system refuses to start the first time they are asked
    for, and that work from then on. *)
Definition denied_exec (k : nat) (args : list string) (root : node)
  : run_result * node :=
  match k with
  | 0 => (Raised (OtherException "[WinError 5] Access is denied"), root)
  | _ => sim_exec k args root
  end.

(** Programs that exit with an error the first time they are asked for,
    and that work from then on. *)
Definition flaky_exec (k : nat) (args : list string) (root : node)
  : run_result * node :=
  match k with
  | 0 => (Completed 1 "no decode delegate", root)
  | _ => sim_exec k args root
  end.

(** Two sources, nothing rasterized yet and no raster directory. *)
Definition icons_vectors : list (string * node) :=
  [("svg", Dir [("a.svg", File svg_a); ("b.svg", File svg_b)])].

Definition a_svg : path := child svg_dir "a.svg".
Definition b_svg : path := child svg_dir "b.svg".
Definition a_png : path := child png_dir "a.png".
Definition b_png : path := child png_dir "b.png".

End Sample.

(** * The recolouring script: [assets/icons/recolor_highlights.py] *)

(** ** Text

    A text is kept as the string of the code units of its UTF-8 form.
    The colours the script looks for and writes are ASCII, and an ASCII
    code unit never lies inside the code units of another character:
    finding and replacing them in code units is finding and replacing
    them in characters. *)

(** [s.startswith(p)] *)
Fixpoint startswith (p s : string) : bool :=
  match p, s with
  | EmptyString, _ => true
  | String _ _, EmptyString => false
  | String a p', String b s' => Ascii.eqb a b && startswith p' s'
  end.

(** [p in s] *)
Fixpoint contains (p s : string) : bool :=
  startswith p s
  || match s with
     | EmptyString => false
     | String _ s' => contains p s'
     end.

(** [s.replace(old, new)] for a non-empty [old]: the occurrences of
    [old] are found from the left and do not overlap.  Where [old]
    starts, [new] is put out and the rest of the occurrence is passed
    over; [skip] counts the characters of it that are still to pass. *)
Fixpoint replace_from (old new : string) (skip : nat) (s : string) : string :=
  match s with
  | EmptyString => EmptyString
  | String c s' =>
      match skip with
      | S k => replace_from old new k s'
      | O =>
          if startswith old s
          then new +:+ replace_from old new (String.length old - 1) s'
          else String c (replace_from old new 0 s')
      end
  end.

(** [s.replace("", new)]: [new] before every character and at the end. *)
Fixpoint interleave (new s : string) : string :=
  match s with
  | EmptyString => new
  | String c s' => new +:+ String c (interleave new s')
  end.

Definition str_replace (old new s : string) : string :=
  match old with
  | EmptyString => interleave new s
  | String _ _ => replace_from old new 0 s
  end.

(** The two assignments to [content] in the loop. *)
Definition recolor_text (content : string) : string :=
  str_replace "#c87a9d" "#da619b" (str_replace "#3d3a5c" "#2e2b54" content).

(** ** Files and listings *)

(** [glob.has_magic] *)
Fixpoint has_magic (s : string) : bool :=
  match s with
  | EmptyString => false
  | String c s' =>
      Ascii.eqb c "*" || Ascii.eqb c "?" || Ascii.eqb c "[" || has_magic s'
  end.

(** [glob._ishidden] *)
Definition ishidden (nm : string) : bool :=
  match nm with
  | String c _ => Ascii.eqb c "."
  | EmptyString => false
  end.

(** [glob._glob1(d, pat)]: the names of [d], in the order of
    [os.scandir], that match; a name that starts with a dot only when the
    pattern does.  Nothing when [d] is no directory. *)
Definition glob1 (d : path) (pat : string) (root : node) : list string :=
  filter (fnmatch pat)
         (if ishidden pat then scandir d root
          else filter (fun nm => negb (ishidden nm)) (scandir d root)).

(** Opening [p] for reading: the file that is there. *)
Fixpoint read_file (p : path) (n : node) : exn + file :=
  match n, p with
  | File f, [] => inr f
  | File _, _ :: _ => inl NotADirectoryError
  | Dir _, [] => inl IsADirectoryError
  | Dir es, c :: p' =>
      match entry c es with
      | Some n' => read_file p' n'
      | None => inl FileNotFoundError
      end
  end.

(** [glob.glob(os.path.join(d, pat))], for a directory [d] whose path has
    no wildcard character and a pattern [pat] that has one. *)
Definition glob_glob (d : path) (pat : string) : M (list path) :=
  fun w => (Return (map (child d) (glob1 d pat (fs w))), w).

Section Recolor.

(** The text layer of [open(..., encoding='utf-8')]: what [read()] makes
    of the bytes of a file (the text, or the [UnicodeDecodeError] it
    raises) and the bytes [write()] stores for a text. *)
Variable decode : list Byte.byte -> exn + string.
Variable encode : string -> list Byte.byte.

(** The time at which the [k]-th file of a run is written, and the
    permission bits a newly created file gets. *)
Variable clock : nat -> Z.
Variable new_mode : N.

(** [with open(f, 'r', encoding='utf-8') as file: content = file.read()] *)
Definition read_text (f : path) : M string :=
  fun w =>
    match read_file f (fs w) with
    | inl e => (Raise e, w)
    | inr fl =>
        match decode (content fl) with
        | inl e => (Raise e, w)
        | inr text => (Return text, w)
        end
    end.

(** [with open(f, 'w', encoding='utf-8') as file: file.write(text)]: an
    existing file keeps its permission bits. *)
Definition write_text (f : path) (text : string) (k : nat) : M unit :=
  fun w =>
    let mode := match read_file f (fs w) with
                | inr fl => st_mode fl
                | inl _ => new_mode
                end in
    match write_file f (mkfile (encode text) mode (clock k)) (fs w) with
    | inl e => (Raise e, w)
    | inr root =>
        (Return tt, {| fs := root; stdout := stdout w; calls := calls w |})
    end.

(** The body of [for f in files], in its [k]-th turn. *)
Fixpoint recolor_loop (files : list path) (k : nat) : M unit :=
  match files with
  | [] => ret tt
  | f :: rest =>
      content <- read_text f ;;
      write_text f (recolor_text content) k ;;
      print ("  Updated: " +:+ name f) ;;
      recolor_loop rest (S k)
  end.

(** The script, run from the directory [base] it lies in. *)
Definition recolor_highlights (base : path) : M unit :=
  here <- glob_glob base "*_highlight.svg" ;;
  below <- glob_glob (child base "svg") "*_highlight.svg" ;;
  let files := here ++ below in
  print ("Found " +:+ str_nat (List.length files) +:+ " highlight files") ;;
  recolor_loop files 0 ;;
  print "Done!".

End Recolor.

(** ** Sample highlight icons *)
Module Highlights.

Definition base : path := Sample.script_dir.

Definition invalid : exn :=
  OtherException "'utf-8' codec can't decode byte 0xff in position 0: invalid start byte".

(** A codec for texts of ASCII characters; the byte [0xff], which no
    UTF-8 text has, is refused. *)
Definition decode (b : list Byte.byte) : exn + string :=
  if existsb (Byte.eqb Byte.xff) b then inl invalid
  else inr (string_of_list_byte b).

Definition encode (text : string) : list Byte.byte := list_byte_of_string text.

Definition clock (k : nat) : Z := 1000 + Z.of_nat k.

Definition run : M unit := recolor_highlights decode encode clock 420 base.

Definition bell : file :=
  mkfile (encode "<path fill='#3d3a5c' stroke='#c87a9d'/>") 384 10.
Definition star : file :=
  mkfile (encode "<g fill='#c87a9d'><rect fill='#3D3A5C'/></g>") 420 11.
Definition plain : file := mkfile (encode "<g fill='#3d3a5c'/>") 420 12.
Definition torn : file := mkfile [Byte.xff; Byte.x3c] 420 13.

(** One highlight icon beside the script and one in [svg], with a hidden
    file and an icon that is no highlight. *)
Definition icons : list (string * node) :=
  [("bell_highlight.svg", File bell);
   (".old_highlight.svg", File plain);
   ("svg", Dir [("star_highlight.svg", File star);
                ("star.svg", File plain)])].

(** A highlight icon that is no UTF-8 text between two that are. *)
Definition icons_torn : list (string * node) :=
  [("bell_highlight.svg", File bell);
   ("torn_highlight.svg", File torn);
   ("zzz_highlight.svg", File plain)].

End Highlights.


(** ** Notions the properties are stated with *)

(** [q] is [p] or one of its ancestors. *)
Fixpoint is_prefix (q p : path) : bool :=
  match q, p with
  | [], _ => true
  | c :: q', d :: p' => String.eqb c d && is_prefix q' p'
  | _ :: _, [] => false
  end.

(** The world a statement leaves behind. *)
Definition world_after {A} (m : M A) (w : World) : World := snd (m w).

(** The subprocess calls that ended with exit status 0. *)
Definition succeeded (c : call) : bool :=
  match result c with
  | Completed rc _ => Z.eqb rc 0
  | Raised _ => false
  end.

(** The calls whose program could not be launched. *)
Definition launch_failed (c : call) : bool :=
  match result c with
  | Raised FileNotFoundError => true
  | _ => false
  end.

(** The raster path stage 1 derives from a vector source. *)
Definition png_of (png_dir svg_path : path) : path :=
  child png_dir (stem (name svg_path) +:+ ".png").

(** The filesystem is ready for the deployment loop: the destination is
    another directory than the source of the copies, every listed entry is
    a regular file, and no directory sits where a copy goes. *)
Definition deployable (dds_dir mod_dir : path) (root : node) : Prop :=
  mod_dir <> dds_dir /\
  Forall (fun p =>
            (exists f, lookup p root = Some (File f)) /\
            is_dir (child mod_dir (name p)) root = false)
         (glob_in dds_dir "*.dds" root).

(** The world once a line is printed, and once a subprocess call has
    come back with [r], leaving the filesystem [root]. *)
Definition printed (w : World) (line : string) : World :=
  mkWorld (fs w) (stdout w ++ [line]) (calls w).

Definition called (w : World) (args : list string) (r : run_result)
           (root : node) : World :=
  mkWorld root (stdout w) (calls w ++ [mkcall args r]).

(** Stage 1, started in [w], has worked through the sources [pre] of its
    listing [pre ++ s :: post], has converted [c] and skipped [k] of them,
    and comes to [s], which has no raster, in the world [w3]. *)
Definition stage1_reaches (exec : nat -> list string -> node -> run_result * node)
           (svg_dir png_dir : path) (w : World)
           (pre : list path) (s : path) (post : list path)
           (c k : nat) (w3 : World) : Prop :=
  exists r1 r2,
    mkdir_p svg_dir (fs w) = inr r1 /\
    mkdir_p png_dir r1 = inr r2 /\
    glob_in svg_dir "*.svg" r2 = pre ++ s :: post /\
    svg_loop exec png_dir pre 0 0 (mkWorld r2 (stdout w) (calls w))
    = (Return (Fallthrough c k), w3) /\
    path_exists (png_of png_dir s) (fs w3) = false.

(** Stage 2, started in [w], has worked through the rasters [pre] of its
    listing [pre ++ p :: post], has converted [c] of them, and comes to
    [p] in the world [w3]. *)
Definition stage2_reaches (exec : nat -> list string -> node -> run_result * node)
           (png_dir dds_dir : path) (w : World)
           (pre : list path) (p : path) (post : list path)
           (c : nat) (w3 : World) : Prop :=
  exists r,
    mkdir_p dds_dir (fs w) = inr r /\
    glob_in png_dir "*.png" r = pre ++ p :: post /\
    png_loop exec dds_dir pre 0
             (printed (mkWorld r (stdout w) (calls w))
                      ("Converting "
                       +:+ str_nat (List.length (pre ++ p :: post))
                       +:+ " PNG files to DDS..."))
    = (Return (Fallthrough c 0), w3).

(** The program, run with the command line [args], leaves whatever is at
    [q] as it is. *)
Definition leaves_alone (exec : nat -> list string -> node -> run_result * node)
           (args : list string) (q : path) : Prop :=
  forall k root, lookup q (snd (exec k args root)) = lookup q root.

(** What is asked of the rasterizing program on the sources [srcs]: a
    call that exits with status 0 has written its output file, and no
    call removes the raster of a source of [srcs]. *)
Definition writes_output (exec : nat -> list string -> node -> run_result * node)
           (png_dir : path) (srcs : list path) : Prop :=
  forall s k root rc err root',
    In s srcs ->
    exec k (magick_argv s (png_of png_dir s)) root = (Completed rc err, root') ->
    rc = 0%Z ->
    path_exists (png_of png_dir s) root' = true.

Definition keeps_rasters (exec : nat -> list string -> node -> run_result * node)
           (png_dir : path) (srcs : list path) : Prop :=
  forall s s' k root,
    In s srcs -> In s' srcs ->
    path_exists (png_of png_dir s') root = true ->
    path_exists (png_of png_dir s')
                (snd (exec k (magick_argv s (png_of png_dir s)) root)) = true.

(** The program, run with the command line [args], removes no
    directory. *)
Definition keeps_directories
           (exec : nat -> list string -> node -> run_result * node)
           (args : list string) : Prop :=
  forall k root q,
    is_dir q root = true -> is_dir q (snd (exec k args root)) = true.

(** Two worlds with the same filesystem and the same call log: they may
    differ in what has been printed. *)
Definition io_eq (w w' : World) : Prop :=
  fs w = fs w' /\ calls w = calls w'.

(** A statement that never looks at what has been printed. *)
Definition oblivious {A} (m : M A) : Prop :=
  forall w w', io_eq w w' ->
               fst (m w) = fst (m w') /\ io_eq (snd (m w)) (snd (m w')).

(** Neither path is the other or above it. *)
Definition unrelated (p q : path) : Prop :=
  is_prefix p q = false /\ is_prefix q p = false.

(** The tree with [n'] in the place of whatever is at [p]; the tree itself
    when nothing is at [p]. *)
Fixpoint graft (p : path) (n' : node) (root : node) : node :=
  match p with
  | [] => n'
  | c :: p' =>
      match root with
      | File f => File f
      | Dir es =>
          match entry c es with
          | Some m => Dir (set_entry c (graft p' n' m) es)
          | None => Dir es
          end
      end
  end.

(** The world with [n'] in the place of whatever is at [p]. *)
Definition with_graft (p : path) (n' : node) (w : World) : World :=
  mkWorld (graft p n' (fs w)) (stdout w) (calls w).

(** A statement that does the same whatever is at [p], and leaves it
    there. *)
Definition blind_to (p : path) {A} (m : M A) : Prop :=
  forall n' w,
    m (with_graft p n' w) = (fst (m w), with_graft p n' (snd (m w))).

(** The files the recolouring script lists: the highlight icons beside
    it, then those in its [svg] directory. *)
Definition highlight_files (base : path) (root : node) : list path :=
  map (child base) (glob1 base "*_highlight.svg" root)
  ++ map (child (child base "svg"))
         (glob1 (child base "svg") "*_highlight.svg" root).

(** The line the script prints for a file it has rewritten. *)
Definition updated_line (f : path) : string := "  Updated: " +:+ name f.

(** [f] is a file the script can read as text. *)
Definition readable (decode : list Byte.byte -> exn + string)
           (root : node) (f : path) : Prop :=
  exists fl text,
    lookup f root = Some (File fl) /\ decode (content fl) = inr text.


(** What the recolouring loop leaves alone, however it ends: the call log, every
    directory listing, the permission bits of every file, and every file
    that is not among [files]. *)
Definition rewrites_only (files : list path) (w w' : World) : Prop :=
  calls w' = calls w /\
  (forall d, scandir d (fs w') = scandir d (fs w)) /\
  (forall q g, lookup q (fs w) = Some (File g) ->
               exists g', lookup q (fs w') = Some (File g') /\
                          st_mode g' = st_mode g /\
                          (~ In q files -> g' = g)).

(** No character of [s] is a [#]. *)
Fixpoint hashfree (s : string) : bool :=
  match s with
  | EmptyString => true
  | String c s' => negb (Ascii.eqb c "#") && hashfree s'
  end.

(** * Properties *)

(** ** Paths and names *)

Lemma name_child (d : path) (c : string) : name (child d c) = c.
Proof.
  unfold name, child. induction d as [|x d IH]; simpl; [reflexivity|].
  destruct (d ++ [c]) eqn:E; [destruct d; discriminate | exact IH].
Qed.

Lemma child_inj (d : path) (c c' : string) : child d c = child d c' -> c = c'.
Proof.
  unfold child. intros H. apply app_inv_head in H. now inversion H.
Qed.

Lemma path_eqb_eq (p q : path) : path_eqb p q = true <-> p = q.
Proof.
  unfold path_eqb. destruct (list_eq_dec string_dec p q); split; congruence.
Qed.

Lemma is_prefix_refl (p : path) : is_prefix p p = true.
Proof.
  induction p as [|c p IH]; simpl; [reflexivity|].
  now rewrite String.eqb_refl.
Qed.

Lemma is_prefix_app (q r : path) : is_prefix q (q ++ r) = true.
Proof.
  induction q as [|c q IH]; simpl; [reflexivity|].
  now rewrite String.eqb_refl.
Qed.

Lemma is_prefix_spec (q p : path) :
  is_prefix q p = true <-> exists r, p = q ++ r.
Proof.
  split.
  - revert p. induction q as [|c q IH]; intros p H.
    + now exists p.
    + destruct p as [|d p]; simpl in H; [discriminate|].
      apply andb_true_iff in H. destruct H as [Hc Hq].
      apply String.eqb_eq in Hc. subst d.
      destruct (IH _ Hq) as [r ->]. now exists r.
  - intros [r ->]. apply is_prefix_app.
Qed.

(** Two children of one directory are never in each other's way. *)
Lemma is_prefix_child_child (d d' : path) (c c' : string) :
  is_prefix (child d c) (child d' c') = true ->
  List.length d = List.length d' -> child d c = child d' c'.
Proof.
  intros H L. apply is_prefix_spec in H. destruct H as [r Hr].
  assert (Hl : List.length (child d' c') = List.length (child d c ++ r))
    by now rewrite Hr.
  unfold child in Hl. rewrite !length_app in Hl. simpl in Hl.
  destruct r; simpl in Hl; [|lia]. now rewrite app_nil_r in Hr.
Qed.

Lemma append_inv_head (s a b : string) : s +:+ a = s +:+ b -> a = b.
Proof.
  induction s as [|ch s IH]; simpl; intros H; [exact H|].
  inversion H. now apply IH.
Qed.

Lemma append_empty_r (s : string) : s +:+ "" = s.
Proof. induction s as [|ch s IH]; simpl; [reflexivity|now rewrite IH]. Qed.

(** The strings of two entries of one directory differ when their names
    do: a program handed one is not handed the other. *)
Lemma str_child_inj (d : path) (c c' : string) :
  str (child d c) = str (child d c') -> c = c'.
Proof.
  unfold str, child.
  assert (E : forall x,
             match d ++ [x] with
             | [] => "/"
             | _ :: _ =>
                 fold_right (fun c acc => "/" +:+ c +:+ acc) "" (d ++ [x])
             end
             = fold_right (fun c acc => "/" +:+ c +:+ acc) ("/" +:+ x) d).
  { intros x. destruct (d ++ [x]) eqn:E0; [destruct d; discriminate|].
    rewrite <- E0, fold_right_app. simpl. now rewrite append_empty_r. }
  rewrite !E. clear E. induction d as [|x d IH]; simpl; intros H.
  - now inversion H.
  - inversion H as [H']. now apply append_inv_head, IH in H'.
Qed.

Lemma NoDup_map_on {A B} (f : A -> B) (l : list A) :
  (forall x y, In x l -> In y l -> f x = f y -> x = y) ->
  NoDup l -> NoDup (map f l).
Proof.
  induction l as [|a l IH]; intros Hinj Hnd; simpl; [constructor|].
  inversion Hnd as [|? ? Hnotin Hnd']; subst. constructor.
  - intros Hin. apply in_map_iff in Hin. destruct Hin as [y [Hy Hyin]].
    apply Hnotin. rewrite (Hinj a y); simpl; auto.
  - apply IH; [|exact Hnd']. intros x y Hx Hy. apply Hinj; simpl; auto.
Qed.

Lemma NoDup_app_disjoint {A} (l l' : list A) (x : A) :
  NoDup (l ++ l') -> In x l -> In x l' -> False.
Proof.
  induction l as [|a l IH]; simpl; intros Hnd Hl Hl'; [contradiction|].
  inversion Hnd as [|? ? Hnotin Hnd']; subst.
  destruct Hl as [->|Hl]; [|now apply IH].
  apply Hnotin, in_or_app. now right.
Qed.

Lemma is_prefix_child q : forall d c,
  is_prefix q (child d c) = true -> q = child d c \/ is_prefix q d = true.
Proof.
  unfold child. induction q as [|a q IH]; intros d c H; [now right|].
  destruct d as [|b d]; simpl in H; apply andb_true_iff in H;
    destruct H as [Hab Hq]; apply String.eqb_eq in Hab; subst.
  - destruct q; [now left|discriminate].
  - destruct (IH _ _ Hq) as [->|Hp].
    + now left.
    + right. simpl. now rewrite String.eqb_refl.
Qed.

(** *** Patterns *)

(** A character that is no wildcard matches itself. *)
Lemma fnmatch_char c pat nm :
  Ascii.eqb c "*" = false -> Ascii.eqb c "?" = false ->
  fnmatch (String c pat) nm
  = match nm with
    | EmptyString => false
    | String d nm' => Ascii.eqb c d && fnmatch pat nm'
    end.
Proof. intros H1 H2. cbn [fnmatch]. rewrite H1, H2. reflexivity. Qed.

Ltac literal_match H nm :=
  do 4 (rewrite fnmatch_char in H by reflexivity;
        destruct nm as [|? nm]; [discriminate|];
        apply andb_true_iff in H;
        let Hc := fresh "Hc" in
        destruct H as [Hc H]; apply Ascii.eqb_eq in Hc; subst);
  destruct nm; [reflexivity|discriminate].

(** A pattern without wildcard matches itself only. *)
Lemma fnmatch_literal_dds nm : fnmatch ".dds" nm = true -> nm = ".dds".
Proof. intros H. literal_match H nm. Qed.

Lemma fnmatch_literal_png nm : fnmatch ".png" nm = true -> nm = ".png".
Proof. intros H. literal_match H nm. Qed.

Lemma fnmatch_star_step (lit : string) (nm : string) :
  fnmatch (String "*" lit) nm
  = fnmatch lit nm
    || match nm with
       | EmptyString => false
       | String _ nm' => fnmatch (String "*" lit) nm'
       end.
Proof. destruct nm; reflexivity. Qed.

(** No name is both a [*.dds] and a [*.png]. *)
Lemma dds_name_is_not_png nm :
  fnmatch "*.dds" nm = true -> fnmatch "*.png" nm = false.
Proof.
  induction nm as [|ch nm IH]; intros H; [discriminate|].
  rewrite fnmatch_star_step in H. rewrite fnmatch_star_step.
  apply orb_true_iff in H. apply orb_false_iff. destruct H as [H|H].
  - apply fnmatch_literal_dds in H. inversion H; subst. split; reflexivity.
  - split; [|now apply IH].
    destruct (fnmatch ".png" (String ch nm)) eqn:E; [|reflexivity].
    apply fnmatch_literal_png in E. inversion E; subst. discriminate.
Qed.

(** ** Directory entries *)

Lemma entry_set_entry_eq c n es : entry c (set_entry c n es) = Some n.
Proof.
  induction es as [|[c' n'] es IH]; simpl.
  - now rewrite String.eqb_refl.
  - destruct (String.eqb c c') eqn:E; simpl.
    + now rewrite String.eqb_refl.
    + now rewrite E.
Qed.

Lemma entry_set_entry_ne c c' n es :
  c <> c' -> entry c' (set_entry c n es) = entry c' es.
Proof.
  intros Hne. induction es as [|[d m] es IH]; simpl.
  - destruct (String.eqb c' c) eqn:E; [|reflexivity].
    apply String.eqb_eq in E. congruence.
  - destruct (String.eqb c d) eqn:E; simpl.
    + apply String.eqb_eq in E. subst d.
      destruct (String.eqb c' c) eqn:E'; [|reflexivity].
      apply String.eqb_eq in E'. congruence.
    + now rewrite IH.
Qed.

Lemma set_entry_same c n es : entry c es = Some n -> set_entry c n es = es.
Proof.
  induction es as [|[d m] es IH]; simpl; [discriminate|].
  destruct (String.eqb c d) eqn:E.
  - apply String.eqb_eq in E. subst d. intros H. now inversion H.
  - intros H. now rewrite IH.
Qed.

(** ** The filesystem operations *)

Lemma lookup_app (p q : path) (n : node) :
  lookup (p ++ q) n
  = match lookup p n with Some m => lookup q m | None => None end.
Proof.
  revert n. induction p as [|c p IH]; intros n; simpl; [reflexivity|].
  destruct n as [f|es]; [reflexivity|].
  destruct (entry c es); [apply IH | reflexivity].
Qed.

(** Nothing lies below a regular file. *)
Lemma lookup_below_file q r n f :
  lookup q n = Some (File f) -> r <> [] -> lookup (q ++ r) n = None.
Proof.
  intros H Hr. rewrite lookup_app, H. destruct r; [congruence|reflexivity].
Qed.

(** A regular file is not above an existing directory. *)
Lemma file_not_above_dir q d n f :
  lookup q n = Some (File f) -> is_dir d n = true -> is_prefix q d = false.
Proof.
  intros Hq Hd. destruct (is_prefix q d) eqn:E; [|reflexivity].
  apply is_prefix_spec in E. destruct E as [r ->]. unfold is_dir in Hd.
  destruct r as [|x r].
  - rewrite app_nil_r, Hq in Hd. discriminate.
  - rewrite (lookup_below_file _ (x :: r) _ _ Hq) in Hd; discriminate.
Qed.

Lemma scandir_empty_dir p : scandir p (Dir []) = [].
Proof. destruct p; reflexivity. Qed.

(** [mkdir] leaves a directory at its path. *)
Lemma mkdir_p_is_dir p : forall n n',
  mkdir_p p n = inr n' -> is_dir p n' = true.
Proof.
  induction p as [|c p IH]; intros n n' H; destruct n as [f|es];
    simpl in H; try discriminate.
  - now inversion H.
  - destruct (mkdir_p p _) as [e|n1] eqn:E; [discriminate|].
    inversion H; subst n'. unfold is_dir. simpl.
    rewrite entry_set_entry_eq. apply (IH _ _ E).
Qed.

(** [mkdir] touches nothing off its path. *)
Lemma mkdir_p_frame p : forall n n' q,
  mkdir_p p n = inr n' -> is_prefix q p = false -> lookup q n' = lookup q n.
Proof.
  induction p as [|c p IH]; intros n n' q H Hq; destruct n as [f|es];
    simpl in H; try discriminate.
  - now inversion H.
  - destruct (mkdir_p p _) as [e|n1] eqn:E; [discriminate|].
    inversion H; subst n'. destruct q as [|d q]; [discriminate|].
    simpl in Hq. simpl.
    destruct (String.eqb d c) eqn:Edc.
    + apply String.eqb_eq in Edc. subst d. simpl in Hq.
      rewrite entry_set_entry_eq. rewrite (IH _ _ _ E Hq).
      destruct (entry c es) as [m|]; [reflexivity|].
      destruct q; [discriminate|reflexivity].
    + apply String.eqb_neq in Edc.
      rewrite entry_set_entry_ne by congruence. reflexivity.
Qed.

(** [mkdir] keeps what is there: files as they are, directories as
    directories. *)
Lemma mkdir_p_keeps p : forall n n' q m,
  mkdir_p p n = inr n' -> lookup q n = Some m ->
  match m with
  | File f => lookup q n' = Some (File f)
  | Dir _ => is_dir q n' = true
  end.
Proof.
  induction p as [|c p IH]; intros n n' q m H Hq; destruct n as [f|es];
    simpl in H; try discriminate.
  - inversion H; subst n'. unfold is_dir. rewrite Hq. now destruct m.
  - destruct (mkdir_p p _) as [e|n1] eqn:E; [discriminate|].
    inversion H; subst n'. destruct q as [|d q].
    + simpl in Hq. inversion Hq. reflexivity.
    + simpl in Hq. unfold is_dir. simpl.
      destruct (String.eqb d c) eqn:Edc.
      * apply String.eqb_eq in Edc. subst d.
        rewrite entry_set_entry_eq.
        destruct (entry c es) as [m0|]; [|discriminate].
        apply (IH _ _ _ _ E Hq).
      * apply String.eqb_neq in Edc.
        rewrite entry_set_entry_ne by congruence.
        destruct (entry d es) as [m0|]; [|discriminate].
        rewrite Hq. now destruct m.
Qed.

Lemma mkdir_p_file p n n' q f :
  mkdir_p p n = inr n' -> lookup q n = Some (File f) ->
  lookup q n' = Some (File f).
Proof. intros H Hq. apply (mkdir_p_keeps _ _ _ _ _ H Hq). Qed.

Lemma mkdir_p_exists p n n' q :
  mkdir_p p n = inr n' -> path_exists q n = true -> path_exists q n' = true.
Proof.
  unfold path_exists. intros H Hq.
  destruct (lookup q n) as [m|] eqn:E; [|discriminate].
  pose proof (mkdir_p_keeps _ _ _ _ _ H E) as K. destruct m.
  - now rewrite K.
  - unfold is_dir in K. destruct (lookup q n'); [reflexivity|discriminate].
Qed.

Lemma mkdir_p_dir_stays p n n' q :
  mkdir_p p n = inr n' -> is_dir q n = true -> is_dir q n' = true.
Proof.
  unfold is_dir at 1. intros H Hq.
  destruct (lookup q n) as [[f|es]|] eqn:E; try discriminate.
  apply (mkdir_p_keeps _ _ _ _ _ H E).
Qed.

(** On an existing directory [mkdir] changes nothing. *)
Lemma mkdir_p_id p : forall n, is_dir p n = true -> mkdir_p p n = inr n.
Proof.
  unfold is_dir. induction p as [|c p IH]; intros n H; destruct n as [f|es];
    simpl in *; try discriminate; [reflexivity|].
  destruct (entry c es) as [m|] eqn:E; [|discriminate].
  rewrite (IH _ H). now rewrite (set_entry_same _ _ _ E).
Qed.

(** The directory [mkdir] makes or finds lists what it listed before. *)
Lemma mkdir_p_scandir p : forall n n',
  mkdir_p p n = inr n' -> scandir p n' = scandir p n.
Proof.
  induction p as [|c p IH]; intros n n' H; destruct n as [f|es];
    simpl in H; try discriminate.
  - now inversion H.
  - destruct (mkdir_p p _) as [e|n1] eqn:E; [discriminate|].
    inversion H; subst n'. unfold scandir. simpl.
    rewrite entry_set_entry_eq. pose proof (IH _ _ E) as K.
    unfold scandir in K. rewrite K.
    destruct (entry c es); [reflexivity|].
    fold (scandir p (Dir [])). apply scandir_empty_dir.
Qed.

(** A written file is there afterwards. *)
Lemma write_file_lookup p f : forall n n',
  write_file p f n = inr n' -> lookup p n' = Some (File f).
Proof.
  induction p as [|c p IH]; intros n n' H; destruct n as [g|es];
    simpl in H; try discriminate.
  - now inversion H.
  - destruct (entry c es) as [m|] eqn:E.
    + destruct (write_file p f m) as [e|m'] eqn:W; [discriminate|].
      inversion H; subst n'. simpl. rewrite entry_set_entry_eq.
      apply (IH _ _ W).
    + destruct p; [|discriminate]. inversion H; subst n'. simpl.
      now rewrite entry_set_entry_eq.
Qed.

(** Writing a file touches nothing off its path. *)
Lemma write_file_frame p f : forall n n' q,
  write_file p f n = inr n' -> is_prefix q p = false ->
  lookup q n' = lookup q n.
Proof.
  induction p as [|c p IH]; intros n n' q H Hq; destruct n as [g|es];
    simpl in H; try discriminate.
  - inversion H; subst n'. destruct q; [discriminate|reflexivity].
  - destruct q as [|d q]; [discriminate|]. simpl in Hq. simpl.
    destruct (String.eqb d c) eqn:Edc.
    + apply String.eqb_eq in Edc. subst d. simpl in Hq.
      destruct (entry c es) as [m|] eqn:E.
      * destruct (write_file p f m) as [e|m'] eqn:W; [discriminate|].
        inversion H; subst n'. rewrite entry_set_entry_eq.
        apply (IH _ _ _ W Hq).
      * destruct p; [|discriminate]. inversion H; subst n'.
        rewrite entry_set_entry_eq.
        destruct q; [discriminate|reflexivity].
    + apply String.eqb_neq in Edc.
      assert (K : forall m, entry d (set_entry c m es) = entry d es)
        by (intros; apply entry_set_entry_ne; congruence).
      destruct (entry c es) as [m|] eqn:E.
      * destruct (write_file p f m) as [e|m'] eqn:W; [discriminate|].
        inversion H; subst n'. now rewrite K.
      * destruct p; [|discriminate]. inversion H; subst n'. now rewrite K.
Qed.

(** Writing a file keeps every directory a directory. *)
Lemma write_file_dir_stays p f : forall n n' q,
  write_file p f n = inr n' -> is_dir q n = true -> is_dir q n' = true.
Proof.
  unfold is_dir.
  induction p as [|c p IH]; intros n n' q H Hq; destruct n as [g|es];
    simpl in H; try discriminate.
  - destruct q; simpl in Hq; discriminate.
  - destruct q as [|d q].
    + destruct (entry c es) as [m|].
      * destruct (write_file p f m); [discriminate|]. now inversion H.
      * destruct p; [|discriminate]. now inversion H.
    + simpl in Hq. simpl.
      destruct (String.eqb d c) eqn:Edc.
      * apply String.eqb_eq in Edc. subst d.
        destruct (entry c es) as [m|] eqn:E; [|discriminate].
        destruct (write_file p f m) as [e|m'] eqn:W; [discriminate|].
        inversion H; subst n'. rewrite entry_set_entry_eq.
        apply (IH _ _ _ W Hq).
      * apply String.eqb_neq in Edc.
        assert (K : forall m, entry d (set_entry c m es) = entry d es)
          by (intros; apply entry_set_entry_ne; congruence).
        destruct (entry c es) as [m|] eqn:E.
        -- destruct (write_file p f m) as [e|m'] eqn:W; [discriminate|].
           inversion H; subst n'. now rewrite K.
        -- destruct p; [|discriminate]. inversion H; subst n'. now rewrite K.
Qed.

(** A file can be written into a directory unless a directory has its
    name. *)
Lemma write_file_ok d c f : forall n,
  is_dir d n = true -> is_dir (child d c) n = false ->
  exists n', write_file (child d c) f n = inr n'.
Proof.
  unfold is_dir, child.
  induction d as [|x d IH]; intros n Hd Hc; destruct n as [g|es];
    simpl in *; try discriminate.
  - destruct (entry c es) as [[g|es']|] eqn:E; simpl; eauto; discriminate.
  - destruct (entry x es) as [m|] eqn:E; [|discriminate].
    destruct (IH _ Hd Hc) as [m' W]. rewrite W. eauto.
Qed.

(** ** Replacing a subtree *)

Lemma set_entry_twice c a b es :
  set_entry c a (set_entry c b es) = set_entry c a es.
Proof.
  induction es as [|[d m] es IH]; simpl.
  - now rewrite String.eqb_refl.
  - destruct (String.eqb c d) eqn:E; simpl.
    + now rewrite String.eqb_refl.
    + now rewrite E, IH.
Qed.

Lemma set_entry_swap c c' a b es m :
  c <> c' -> entry c' es = Some m ->
  set_entry c a (set_entry c' b es) = set_entry c' b (set_entry c a es).
Proof.
  intros Hne. induction es as [|[d x] es IH]; intros H; [discriminate|].
  assert (Ecc : String.eqb c c' = false) by now apply String.eqb_neq.
  cbn [set_entry entry] in *.
  destruct (String.eqb c' d) eqn:E'.
  - apply String.eqb_eq in E'. subst d. rewrite Ecc.
    cbn [set_entry]. now rewrite Ecc, String.eqb_refl.
  - destruct (String.eqb c d) eqn:E; cbn [set_entry]; rewrite E, ?E'.
    + apply String.eqb_eq in E. subst d.
      assert (Ec'c : String.eqb c' c = false) by exact E'.
      now rewrite Ec'c.
    + now rewrite IH.
Qed.

Lemma graft_absent p n' : forall root,
  lookup p root = None -> graft p n' root = root.
Proof.
  induction p as [|c p IH]; intros root H; [discriminate|].
  destruct root as [f|es]; simpl in *; [reflexivity|].
  destruct (entry c es) as [m|] eqn:E; [|reflexivity].
  rewrite (IH _ H). now rewrite (set_entry_same _ _ _ E).
Qed.

Lemma unrelated_cons_same c p q :
  unrelated (c :: p) (c :: q) -> unrelated p q.
Proof. unfold unrelated. simpl. now rewrite String.eqb_refl. Qed.

Lemma unrelated_child p d c : unrelated p d -> unrelated p (child d c).
Proof.
  intros [H1 H2]. split.
  - destruct (is_prefix p (child d c)) eqn:E; [|reflexivity].
    apply is_prefix_child in E. destruct E as [->|E]; [|congruence].
    unfold child in H2. now rewrite is_prefix_app in H2.
  - destruct (is_prefix (child d c) p) eqn:E; [|reflexivity].
    apply is_prefix_spec in E. destruct E as [r ->].
    unfold child in H2. rewrite <- app_assoc in H2.
    now rewrite is_prefix_app in H2.
Qed.

(** Off the replaced subtree, and off what lies above it, nothing
    changes. *)
Lemma lookup_graft p n' : forall q root,
  unrelated p q -> lookup q (graft p n' root) = lookup q root.
Proof.
  induction p as [|c p IH]; intros q root Hu.
  - destruct Hu as [Hu _]. discriminate.
  - destruct q as [|d q]; [destruct Hu as [_ Hu]; discriminate|].
    destruct root as [f|es]; [reflexivity|]. simpl.
    destruct (entry c es) as [m|] eqn:E; [|reflexivity]. simpl.
    destruct (String.eqb d c) eqn:Edc.
    + apply String.eqb_eq in Edc. subst d.
      rewrite entry_set_entry_eq, E. apply IH.
      now apply unrelated_cons_same with (c := c).
    + apply String.eqb_neq in Edc.
      rewrite entry_set_entry_ne by congruence. reflexivity.
Qed.

Lemma mkdir_p_graft p n' : forall d root,
  unrelated p d ->
  mkdir_p d (graft p n' root)
  = match mkdir_p d root with
    | inl e => inl e
    | inr r => inr (graft p n' r)
    end.
Proof.
  induction p as [|c p IH]; intros d root Hu.
  - destruct Hu as [Hu _]. discriminate.
  - destruct d as [|x d]; [destruct Hu as [_ Hu]; discriminate|].
    destruct root as [f|es]; [reflexivity|].
    cbn [graft]. destruct (entry c es) as [m|] eqn:E.
    + cbn [mkdir_p]. destruct (String.eqb x c) eqn:Exc.
      * apply String.eqb_eq in Exc. subst x.
        apply unrelated_cons_same in Hu.
        rewrite entry_set_entry_eq, E, (IH _ _ Hu).
        destruct (mkdir_p d m) as [e|r]; [reflexivity|].
        cbn [graft]. rewrite entry_set_entry_eq.
        now rewrite !set_entry_twice.
      * apply String.eqb_neq in Exc.
        rewrite (entry_set_entry_ne c x) by congruence.
        destruct (mkdir_p d _) as [e|r]; [reflexivity|].
        cbn [graft]. rewrite (entry_set_entry_ne x c) by congruence.
        rewrite E. f_equal. f_equal.
        now apply set_entry_swap with (m := m).
    + destruct (mkdir_p (x :: d) (Dir es)) as [e|r] eqn:M; [reflexivity|].
      assert (Hno : lookup (c :: p) r = None).
      { rewrite (mkdir_p_frame _ _ _ _ M) by apply Hu. simpl. now rewrite E. }
      f_equal. symmetry. exact (graft_absent (c :: p) n' r Hno).
Qed.

Lemma write_file_graft p n' f : forall q root,
  unrelated p q ->
  write_file q f (graft p n' root)
  = match write_file q f root with
    | inl e => inl e
    | inr r => inr (graft p n' r)
    end.
Proof.
  induction p as [|c p IH]; intros q root Hu.
  - destruct Hu as [Hu _]. discriminate.
  - destruct q as [|x q]; [destruct Hu as [_ Hu]; discriminate|].
    destruct root as [g|es]; [reflexivity|].
    cbn [graft]. destruct (entry c es) as [m|] eqn:E.
    + cbn [write_file]. destruct (String.eqb x c) eqn:Exc.
      * apply String.eqb_eq in Exc. subst x.
        apply unrelated_cons_same in Hu.
        rewrite entry_set_entry_eq, E, (IH _ _ Hu).
        destruct (write_file q f m) as [e|r]; [reflexivity|].
        cbn [graft]. rewrite entry_set_entry_eq.
        now rewrite !set_entry_twice.
      * apply String.eqb_neq in Exc.
        rewrite (entry_set_entry_ne c x) by congruence.
        destruct (entry x es) as [m0|] eqn:Ex.
        -- destruct (write_file q f m0) as [e|r]; [reflexivity|].
           cbn [graft]. rewrite (entry_set_entry_ne x c) by congruence.
           rewrite E. f_equal. f_equal.
           now apply set_entry_swap with (m := m).
        -- destruct q; [|reflexivity].
           cbn [graft]. rewrite (entry_set_entry_ne x c) by congruence.
           rewrite E. f_equal. f_equal.
           now apply set_entry_swap with (m := m).
    + destruct (write_file (x :: q) f (Dir es)) as [e|r] eqn:W; [reflexivity|].
      assert (Hno : lookup (c :: p) r = None).
      { rewrite (write_file_frame _ _ _ _ _ W) by apply Hu.
        simpl. now rewrite E. }
      f_equal. symmetry. exact (graft_absent (c :: p) n' r Hno).
Qed.

(** ** Running statements *)

Lemma bind_return {A B} (m : M A) (k : A -> M B) w a w' :
  m w = (Return a, w') -> bind m k w = k a w'.
Proof. unfold bind. now intros ->. Qed.

Lemma mkdir_ok p w root :
  mkdir_p p (fs w) = inr root ->
  mkdir p w = (Return tt, mkWorld root (stdout w) (calls w)).
Proof. unfold mkdir. now intros ->. Qed.

Section Stages.

Variable exec : nat -> list string -> node -> run_result * node.

(** *** Empty input *)

Lemma stage2_on_empty_listing png_dir dds_dir w root :
  mkdir_p dds_dir (fs w) = inr root ->
  glob_in png_dir "*.png" root = [] ->
  convert_pngs_to_dds exec png_dir dds_dir w
  = (Return 0,
     mkWorld root
             (stdout w ++ ["No PNG files found in " +:+ str png_dir])
             (calls w)).
Proof.
  intros Hm Hg. unfold convert_pngs_to_dds.
  rewrite (bind_return _ _ _ _ _ (mkdir_ok _ _ _ Hm)).
  unfold bind, glob. cbn [fs stdout calls]. rewrite Hg. reflexivity.
Qed.

Lemma stage1_on_empty_listing svg_dir png_dir w r1 r2 :
  mkdir_p svg_dir (fs w) = inr r1 ->
  mkdir_p png_dir r1 = inr r2 ->
  glob_in svg_dir "*.svg" r2 = [] ->
  convert_svgs_to_pngs exec svg_dir png_dir w
  = (Return 0, mkWorld r2 (stdout w ++ ["No SVG files found"]) (calls w)).
Proof.
  intros H1 H2 Hg. unfold convert_svgs_to_pngs.
  rewrite (bind_return _ _ _ _ _ (mkdir_ok _ _ _ H1)).
  rewrite (bind_return _ _ _ _ _
             (mkdir_ok png_dir (mkWorld r1 (stdout w) (calls w)) r2 H2)).
  unfold bind, glob. cbn [fs stdout calls]. rewrite Hg. reflexivity.
Qed.

Lemma glob_in_not_dir d pat root :
  is_dir d root = false -> glob_in d pat root = [].
Proof.
  unfold glob_in, scandir, is_dir.
  destruct (lookup d root) as [[f|es]|]; [reflexivity|discriminate|reflexivity].
Qed.

(** C8. If the source directory has no vector file when stage 1 lists it,
    stage 1 prints "No SVG files found" and returns 0: no program is
    run, the filesystem is the one the two [mkdir] calls left, and the
    raster directory lists what it listed before the stage (the source
    directory not lying inside it).  Likewise, if the raster directory
    has no raster file when stage 2 lists it, stage 2 prints "No PNG
    files found in <that directory>" and returns 0.  Neither case
    raises.  (Both stages create directories first; the statements are
    about the runs in which that works.  What a stage lists is what its
    input directory held before the stage, unless a directory the stage
    creates lies inside it.) *)
Theorem empty_input_returns_zero (svg_dir png_dir dds_dir : path) (w : World) :
  (forall r1 r2,
      mkdir_p svg_dir (fs w) = inr r1 ->
      mkdir_p png_dir r1 = inr r2 ->
      glob_in svg_dir "*.svg" r2 = [] ->
      convert_svgs_to_pngs exec svg_dir png_dir w
      = (Return 0,
         mkWorld r2 (stdout w ++ ["No SVG files found"]) (calls w))
      /\ (is_prefix png_dir svg_dir = false ->
          scandir png_dir r2 = scandir png_dir (fs w)))
  /\
  (forall r,
      mkdir_p dds_dir (fs w) = inr r ->
      glob_in png_dir "*.png" r = [] ->
      convert_pngs_to_dds exec png_dir dds_dir w
      = (Return 0,
         mkWorld r (stdout w ++ ["No PNG files found in " +:+ str png_dir])
                 (calls w)))
  /\
  (forall r1 r2,
      mkdir_p svg_dir (fs w) = inr r1 ->
      mkdir_p png_dir r1 = inr r2 ->
      is_prefix svg_dir png_dir = false ->
      glob_in svg_dir "*.svg" r2 = glob_in svg_dir "*.svg" (fs w))
  /\
  (forall r,
      mkdir_p dds_dir (fs w) = inr r ->
      is_prefix png_dir dds_dir = false ->
      glob_in png_dir "*.png" r = glob_in png_dir "*.png" (fs w)).
Proof.
  split; [|split; [|split]].
  - intros r1 r2 H1 H2 Hg. split.
    + now apply stage1_on_empty_listing with (r1 := r1).
    + intros Hp. rewrite (mkdir_p_scandir _ _ _ H2).
      unfold scandir. now rewrite (mkdir_p_frame _ _ _ _ H1 Hp).
  - intros r Hm Hg. now apply stage2_on_empty_listing.
  - intros r1 r2 H1 H2 Hp. unfold glob_in.
    rewrite <- (mkdir_p_scandir _ _ _ H1). unfold scandir.
    now rewrite (mkdir_p_frame _ _ _ _ H2 Hp).
  - intros r Hm Hp. unfold glob_in, scandir.
    now rewrite (mkdir_p_frame _ _ _ _ Hm Hp).
Qed.

(** *** One turn of the loops *)

Lemma svg_loop_skip png_dir s rest c k w :
  path_exists (png_of png_dir s) (fs w) = true ->
  svg_loop exec png_dir (s :: rest) c k w
  = svg_loop exec png_dir rest c (S k) w.
Proof.
  intros H. cbn [svg_loop]. unfold bind at 1, exists_.
  fold (png_of png_dir s). now rewrite H.
Qed.

Lemma svg_loop_call png_dir s rest c k w r root :
  path_exists (png_of png_dir s) (fs w) = false ->
  exec (List.length (calls w)) (magick_argv s (png_of png_dir s)) (fs w)
  = (r, root) ->
  svg_loop exec png_dir (s :: rest) c k w
  = match r with
    | Completed rc err =>
        if Z.eqb rc 0 then
          svg_loop exec png_dir rest (S c) k
            (printed (called w (magick_argv s (png_of png_dir s)) r root)
                     ("  [OK] " +:+ name s +:+ " -> "
                      +:+ stem (name s) +:+ ".png"))
        else
          svg_loop exec png_dir rest c k
            (printed (called w (magick_argv s (png_of png_dir s)) r root)
                     ("  [ERR] " +:+ name s
                      +:+ " - ImageMagick error: " +:+ err))
    | Raised FileNotFoundError =>
        (Return (Returned c k),
         printed
           (printed (called w (magick_argv s (png_of png_dir s)) r root)
                    "  [ERR] magick not found in PATH!")
           "    Download from: https://imagemagick.org/script/download.php")
    | Raised e =>
        svg_loop exec png_dir rest c k
          (printed (called w (magick_argv s (png_of png_dir s)) r root)
                   ("  [ERR] " +:+ name s +:+ " - Error: " +:+ str_exn e))
    end.
Proof.
  intros H E. cbn [svg_loop]. unfold bind at 1, exists_.
  fold (png_of png_dir s). rewrite H.
  unfold bind at 1, subprocess_run. rewrite E.
  destruct r as [rc err|e].
  - destruct (Z.eqb rc 0); reflexivity.
  - destruct e; reflexivity.
Qed.

Lemma png_loop_call dds_dir p rest c w r root :
  exec (List.length (calls w)) (texconv_argv dds_dir p) (fs w) = (r, root) ->
  png_loop exec dds_dir (p :: rest) c w
  = match r with
    | Completed rc err =>
        if Z.eqb rc 0 then
          png_loop exec dds_dir rest (S c)
            (printed (called w (texconv_argv dds_dir p) r root)
                     ("  [OK] " +:+ name p +:+ " -> "
                      +:+ stem (name p) +:+ ".dds"))
        else
          png_loop exec dds_dir rest c
            (printed (called w (texconv_argv dds_dir p) r root)
                     ("  [ERR] " +:+ name p
                      +:+ " - texconv error: " +:+ err))
    | Raised FileNotFoundError =>
        (Return (Returned c 0),
         printed
           (printed (called w (texconv_argv dds_dir p) r root)
                    "  [ERR] texconv not found in PATH!")
           "    Download from: https://github.com/Microsoft/DirectXTex/releases")
    | Raised e =>
        png_loop exec dds_dir rest c
          (printed (called w (texconv_argv dds_dir p) r root)
                   ("  [ERR] " +:+ name p +:+ " - Error: " +:+ str_exn e))
    end.
Proof.
  intros E. cbn [png_loop]. unfold bind at 1, subprocess_run. rewrite E.
  destruct r as [rc err|e].
  - destruct (Z.eqb rc 0); reflexivity.
  - destruct e; reflexivity.
Qed.

(** *** A loop over a list in two parts *)

Lemma svg_loop_app png_dir pre post : forall c k w,
  svg_loop exec png_dir (pre ++ post) c k w
  = match svg_loop exec png_dir pre c k w with
    | (Return (Fallthrough c' k'), w') => svg_loop exec png_dir post c' k' w'
    | (Return (Returned c' k'), w') => (Return (Returned c' k'), w')
    | (Raise e, w') => (Raise e, w')
    end.
Proof.
  induction pre as [|s pre IH]; intros c k w; [reflexivity|].
  rewrite <- app_comm_cons.
  destruct (path_exists (png_of png_dir s) (fs w)) eqn:Ex.
  - rewrite !svg_loop_skip by exact Ex. apply IH.
  - destruct (exec (List.length (calls w))
                   (magick_argv s (png_of png_dir s)) (fs w))
      as [r root] eqn:E.
    rewrite !(svg_loop_call _ _ _ _ _ _ _ _ Ex E).
    destruct r as [rc err|e].
    + destruct (Z.eqb rc 0); apply IH.
    + destruct e; try apply IH. reflexivity.
Qed.

Lemma png_loop_app dds_dir pre post : forall c w,
  png_loop exec dds_dir (pre ++ post) c w
  = match png_loop exec dds_dir pre c w with
    | (Return (Fallthrough c' _), w') => png_loop exec dds_dir post c' w'
    | (Return (Returned c' k'), w') => (Return (Returned c' k'), w')
    | (Raise e, w') => (Raise e, w')
    end.
Proof.
  induction pre as [|p pre IH]; intros c w; [reflexivity|].
  rewrite <- app_comm_cons.
  destruct (exec (List.length (calls w)) (texconv_argv dds_dir p) (fs w))
    as [r root] eqn:E.
  rewrite !(png_loop_call _ _ _ _ _ _ _ E).
  destruct r as [rc err|e].
  - destruct (Z.eqb rc 0); apply IH.
  - destruct e; try apply IH. reflexivity.
Qed.

(** *** The stages on a listing that is not empty *)

Lemma stage1_on_listing svg_dir png_dir w r1 r2 :
  mkdir_p svg_dir (fs w) = inr r1 ->
  mkdir_p png_dir r1 = inr r2 ->
  glob_in svg_dir "*.svg" r2 <> [] ->
  convert_svgs_to_pngs exec svg_dir png_dir w
  = bind (svg_loop exec png_dir (glob_in svg_dir "*.svg" r2) 0 0)
         svg_epilogue (mkWorld r2 (stdout w) (calls w)).
Proof.
  intros H1 H2 Hne. unfold convert_svgs_to_pngs.
  rewrite (bind_return _ _ _ _ _ (mkdir_ok _ _ _ H1)).
  rewrite (bind_return _ _ _ _ _
             (mkdir_ok png_dir (mkWorld r1 (stdout w) (calls w)) r2 H2)).
  unfold bind at 1, glob. cbn [fs stdout calls].
  destruct (glob_in svg_dir "*.svg" r2); [congruence|reflexivity].
Qed.

Lemma stage2_on_listing png_dir dds_dir w r :
  mkdir_p dds_dir (fs w) = inr r ->
  glob_in png_dir "*.png" r <> [] ->
  convert_pngs_to_dds exec png_dir dds_dir w
  = bind (png_loop exec dds_dir (glob_in png_dir "*.png" r) 0)
         (fun x => ret (exit_value x))
         (printed (mkWorld r (stdout w) (calls w))
                  ("Converting "
                   +:+ str_nat (List.length (glob_in png_dir "*.png" r))
                   +:+ " PNG files to DDS...")).
Proof.
  intros H Hne. unfold convert_pngs_to_dds.
  rewrite (bind_return _ _ _ _ _ (mkdir_ok _ _ _ H)).
  unfold bind at 1, glob. cbn [fs stdout calls].
  destruct (glob_in png_dir "*.png" r); [congruence|reflexivity].
Qed.

(** *** Launch failures and tool errors *)

(** C5. In both converting stages, when the loop comes to a file and the
    program cannot be launched ([FileNotFoundError]), the stage prints
    its two lines and returns at once the number of conversions done so
    far: the failed call is the last one made, no later file is tried.
    When instead the program runs and exits with a non-zero status, the
    stage prints that file's error line with the captured standard
    error and goes on with the next file, both counters unchanged. *)
Theorem tool_failure_policy :
  (forall svg_dir png_dir w pre s post c k w3 root,
      stage1_reaches exec svg_dir png_dir w pre s post c k w3 ->
      exec (List.length (calls w3)) (magick_argv s (png_of png_dir s)) (fs w3)
      = (Raised FileNotFoundError, root) ->
      convert_svgs_to_pngs exec svg_dir png_dir w
      = (Return c,
         printed
           (printed (called w3 (magick_argv s (png_of png_dir s))
                            (Raised FileNotFoundError) root)
                    "  [ERR] magick not found in PATH!")
           "    Download from: https://imagemagick.org/script/download.php"))
  /\
  (forall svg_dir png_dir w pre s post c k w3 rc err root,
      stage1_reaches exec svg_dir png_dir w pre s post c k w3 ->
      exec (List.length (calls w3)) (magick_argv s (png_of png_dir s)) (fs w3)
      = (Completed rc err, root) ->
      rc <> 0%Z ->
      convert_svgs_to_pngs exec svg_dir png_dir w
      = bind (svg_loop exec png_dir post c k) svg_epilogue
             (printed (called w3 (magick_argv s (png_of png_dir s))
                              (Completed rc err) root)
                      ("  [ERR] " +:+ name s
                       +:+ " - ImageMagick error: " +:+ err)))
  /\
  (forall png_dir dds_dir w pre p post c w3 root,
      stage2_reaches exec png_dir dds_dir w pre p post c w3 ->
      exec (List.length (calls w3)) (texconv_argv dds_dir p) (fs w3)
      = (Raised FileNotFoundError, root) ->
      convert_pngs_to_dds exec png_dir dds_dir w
      = (Return c,
         printed
           (printed (called w3 (texconv_argv dds_dir p)
                            (Raised FileNotFoundError) root)
                    "  [ERR] texconv not found in PATH!")
           "    Download from: https://github.com/Microsoft/DirectXTex/releases"))
  /\
  (forall png_dir dds_dir w pre p post c w3 rc err root,
      stage2_reaches exec png_dir dds_dir w pre p post c w3 ->
      exec (List.length (calls w3)) (texconv_argv dds_dir p) (fs w3)
      = (Completed rc err, root) ->
      rc <> 0%Z ->
      convert_pngs_to_dds exec png_dir dds_dir w
      = bind (png_loop exec dds_dir post c) (fun x => ret (exit_value x))
             (printed (called w3 (texconv_argv dds_dir p)
                              (Completed rc err) root)
                      ("  [ERR] " +:+ name p
                       +:+ " - texconv error: " +:+ err))).
Proof.
  repeat split.
  - intros svg_dir png_dir w pre s post c k w3 root
           (r1 & r2 & H1 & H2 & Hg & Hpre & Hex) E.
    rewrite (stage1_on_listing _ _ _ _ _ H1 H2)
      by (rewrite Hg; now destruct pre).
    rewrite Hg. unfold bind. rewrite svg_loop_app, Hpre.
    now rewrite (svg_loop_call _ _ _ _ _ _ _ _ Hex E).
  - intros svg_dir png_dir w pre s post c k w3 rc err root
           (r1 & r2 & H1 & H2 & Hg & Hpre & Hex) E Hrc.
    rewrite (stage1_on_listing _ _ _ _ _ H1 H2)
      by (rewrite Hg; now destruct pre).
    rewrite Hg. unfold bind. rewrite svg_loop_app, Hpre.
    rewrite (svg_loop_call _ _ _ _ _ _ _ _ Hex E).
    apply Z.eqb_neq in Hrc. now rewrite Hrc.
  - intros png_dir dds_dir w pre p post c w3 root (r & H & Hg & Hpre) E.
    rewrite (stage2_on_listing _ _ _ _ H)
      by (rewrite Hg; now destruct pre).
    rewrite Hg. unfold bind. rewrite png_loop_app, Hpre.
    now rewrite (png_loop_call _ _ _ _ _ _ _ E).
  - intros png_dir dds_dir w pre p post c w3 rc err root
           (r & H & Hg & Hpre) E Hrc.
    rewrite (stage2_on_listing _ _ _ _ H)
      by (rewrite Hg; now destruct pre).
    rewrite Hg. unfold bind. rewrite png_loop_app, Hpre.
    rewrite (png_loop_call _ _ _ _ _ _ _ E).
    apply Z.eqb_neq in Hrc. now rewrite Hrc.
Qed.

(** *** The calls a loop makes *)

Lemma glob_in_child d pat root p :
  In p (glob_in d pat root) ->
  exists c, p = child d c /\ fnmatch pat c = true /\ In c (scandir d root).
Proof.
  unfold glob_in. intros H. apply in_map_iff in H.
  destruct H as [c [<- Hc]]. apply filter_In in Hc.
  exists c. tauto.
Qed.

Lemma glob_in_NoDup d pat root :
  NoDup (scandir d root) -> NoDup (glob_in d pat root).
Proof.
  intros H. unfold glob_in. apply NoDup_map_on.
  - intros x y _ _. apply child_inj.
  - now apply NoDup_filter.
Qed.

(** Whatever the program does, the raster loop ends by itself; it has
    called the program for the files of an initial part of its list, in
    order, once each, for the whole list unless a launch failed, and it
    has counted the calls that exited with status 0. *)
Lemma png_loop_trace dds_dir files : forall c w,
  exists x w' cs,
    png_loop exec dds_dir files c w = (Return x, w') /\
    calls w' = calls w ++ cs /\
    exit_value x = c + List.length (filter succeeded cs) /\
    (exists rest,
        map (texconv_argv dds_dir) files = map argv cs ++ rest) /\
    (existsb launch_failed cs = false ->
     map argv cs = map (texconv_argv dds_dir) files).
Proof.
  induction files as [|p rest IH]; intros c w.
  - exists (Fallthrough c 0), w, []. simpl.
    rewrite app_nil_r, Nat.add_0_r. repeat split; trivial. now exists [].
  - destruct (exec (List.length (calls w)) (texconv_argv dds_dir p) (fs w))
      as [r root] eqn:E.
    rewrite (png_loop_call _ _ _ _ _ _ _ E).
    set (cl := mkcall (texconv_argv dds_dir p) r).
    assert (Step : forall c1 line,
               c1 = c + (if succeeded cl then 1 else 0) ->
               launch_failed cl = false ->
               exists x w' cs,
                 png_loop exec dds_dir rest c1
                   (printed (called w (texconv_argv dds_dir p) r root) line)
                 = (Return x, w') /\
                 calls w' = calls w ++ cs /\
                 exit_value x = c + List.length (filter succeeded cs) /\
                 (exists rest0,
                     map (texconv_argv dds_dir) (p :: rest)
                     = map argv cs ++ rest0) /\
                 (existsb launch_failed cs = false ->
                  map argv cs = map (texconv_argv dds_dir) (p :: rest))).
    { intros c1 line Hc1 Hlf.
      destruct (IH c1 (printed (called w (texconv_argv dds_dir p) r root)
                               line))
        as (x & w' & cs & Hrun & Hcalls & Hval & [rest0 Hpre] & Hall).
      exists x, w', (cl :: cs). cbn [printed called calls] in Hcalls.
      rewrite <- app_assoc in Hcalls. simpl in Hcalls.
      repeat split.
      - exact Hrun.
      - exact Hcalls.
      - rewrite Hval, Hc1. simpl. destruct (succeeded cl); simpl; lia.
      - exists rest0. simpl. now rewrite Hpre.
      - simpl. rewrite Hlf. simpl. intros H. now rewrite (Hall H). }
    destruct r as [rc err|e].
    + destruct (Z.eqb rc 0) eqn:Erc.
      * apply Step; [|reflexivity]. unfold succeeded, cl. simpl.
        rewrite Erc. lia.
      * apply Step; [|reflexivity]. unfold succeeded, cl. simpl.
        rewrite Erc. lia.
    + destruct e;
        try (apply Step; [unfold succeeded, cl; simpl; lia|reflexivity]).
      eexists _, _, [cl]. repeat split.
      * simpl. now rewrite Nat.add_0_r.
      * now exists (map (texconv_argv dds_dir) rest).
      * simpl. discriminate.
Qed.

(** The same for the vector loop, which also passes over the sources
    whose raster exists: every call is for a listed source, and unless
    a launch failed every listed source is either called or counted as
    skipped. *)
Lemma svg_loop_trace png_dir files : forall c k w,
  exists x w' cs,
    svg_loop exec png_dir files c k w = (Return x, w') /\
    calls w' = calls w ++ cs /\
    exit_value x = c + List.length (filter succeeded cs) /\
    Forall (fun cl => exists s,
                In s files /\ argv cl = magick_argv s (png_of png_dir s)) cs /\
    (existsb launch_failed cs = false ->
     exists k', x = Fallthrough (exit_value x) k' /\
                k' + List.length cs = k + List.length files).
Proof.
  induction files as [|s rest IH]; intros c k w.
  - exists (Fallthrough c k), w, []. simpl.
    rewrite app_nil_r, !Nat.add_0_r. repeat split; trivial.
    intros _. exists k. split; [reflexivity|lia].
  - destruct (path_exists (png_of png_dir s) (fs w)) eqn:Ex.
    + rewrite (svg_loop_skip _ _ _ _ _ _ Ex).
      destruct (IH c (S k) w)
        as (x & w' & cs & Hrun & Hcalls & Hval & Hfor & Hall).
      exists x, w', cs. repeat split; trivial.
      * eapply Forall_impl; [|exact Hfor].
        intros cl (s0 & Hin & Ha). exists s0. simpl. auto.
      * intros H. destruct (Hall H) as (k' & Hx & Hk).
        exists k'. split; [exact Hx|]. simpl. lia.
    + destruct (exec (List.length (calls w))
                     (magick_argv s (png_of png_dir s)) (fs w))
        as [r root] eqn:E.
      rewrite (svg_loop_call _ _ _ _ _ _ _ _ Ex E).
      set (cl := mkcall (magick_argv s (png_of png_dir s)) r).
      assert (Step : forall c1 line,
                 c1 = c + (if succeeded cl then 1 else 0) ->
                 launch_failed cl = false ->
                 exists x w' cs,
                   svg_loop exec png_dir rest c1 k
                     (printed (called w (magick_argv s (png_of png_dir s))
                                      r root) line)
                   = (Return x, w') /\
                   calls w' = calls w ++ cs /\
                   exit_value x = c + List.length (filter succeeded cs) /\
                   Forall (fun cl => exists s0,
                               In s0 (s :: rest) /\
                               argv cl = magick_argv s0 (png_of png_dir s0))
                          cs /\
                   (existsb launch_failed cs = false ->
                    exists k', x = Fallthrough (exit_value x) k' /\
                               k' + List.length cs
                               = k + List.length (s :: rest))).
      { intros c1 line Hc1 Hlf.
        destruct (IH c1 k
                     (printed (called w (magick_argv s (png_of png_dir s))
                                      r root) line))
          as (x & w' & cs & Hrun & Hcalls & Hval & Hfor & Hall).
        exists x, w', (cl :: cs). cbn [printed called calls] in Hcalls.
        rewrite <- app_assoc in Hcalls. simpl in Hcalls.
        repeat split.
        - exact Hrun.
        - exact Hcalls.
        - rewrite Hval, Hc1. simpl. destruct (succeeded cl); simpl; lia.
        - constructor.
          + exists s. simpl. auto.
          + eapply Forall_impl; [|exact Hfor].
            intros cl0 (s0 & Hin & Ha). exists s0. simpl. auto.
        - simpl. rewrite Hlf. simpl. intros H.
          destruct (Hall H) as (k' & Hx & Hk).
          exists k'. split; [exact Hx|]. simpl. lia. }
      destruct r as [rc err|e].
      * destruct (Z.eqb rc 0) eqn:Erc.
        -- apply Step; [|reflexivity]. unfold succeeded, cl. simpl.
           rewrite Erc. lia.
        -- apply Step; [|reflexivity]. unfold succeeded, cl. simpl.
           rewrite Erc. lia.
      * destruct e;
          try (apply Step; [unfold succeeded, cl; simpl; lia|reflexivity]).
        eexists _, _, [cl]. repeat split.
        -- simpl. now rewrite Nat.add_0_r.
        -- constructor; [|constructor]. exists s. simpl. auto.
        -- simpl. discriminate.
Qed.

(** *** Stage 2 has no cache *)

Lemma texconv_argv_inj_on png_dir dds_dir pat root p q :
  In p (glob_in png_dir pat root) -> In q (glob_in png_dir pat root) ->
  texconv_argv dds_dir p = texconv_argv dds_dir q -> p = q.
Proof.
  intros Hp Hq H.
  destruct (glob_in_child _ _ _ _ Hp) as (c & -> & _).
  destruct (glob_in_child _ _ _ _ Hq) as (c' & -> & _).
  unfold texconv_argv in H. inversion H as [H'].
  now rewrite (str_child_inj _ _ _ H').
Qed.

(** A turn of the raster loop: its call is the first of those the loop
    logs, and either it could not be launched and is the only one, or it
    could and the loop went on with the rest. *)
Lemma png_loop_call_split dds_dir p rest c w r root x w' cs :
  exec (List.length (calls w)) (texconv_argv dds_dir p) (fs w) = (r, root) ->
  png_loop exec dds_dir (p :: rest) c w = (Return x, w') ->
  calls w' = calls w ++ cs ->
  exists cs',
    cs = mkcall (texconv_argv dds_dir p) r :: cs' /\
    ((r = Raised FileNotFoundError /\ cs' = []) \/
     (r <> Raised FileNotFoundError /\
      exists c1 line,
        png_loop exec dds_dir rest c1
                 (printed (called w (texconv_argv dds_dir p) r root) line)
        = (Return x, w') /\
        calls w'
        = calls (printed (called w (texconv_argv dds_dir p) r root) line)
          ++ cs')).
Proof.
  intros E Hrun Hcalls.
  rewrite (png_loop_call _ _ _ _ _ _ _ E) in Hrun.
  assert (Step : forall c1 line,
             r <> Raised FileNotFoundError ->
             png_loop exec dds_dir rest c1
                      (printed (called w (texconv_argv dds_dir p) r root)
                               line)
             = (Return x, w') ->
             exists cs',
               cs = mkcall (texconv_argv dds_dir p) r :: cs' /\
               ((r = Raised FileNotFoundError /\ cs' = []) \/
                (r <> Raised FileNotFoundError /\
                 exists c1 line,
                   png_loop exec dds_dir rest c1
                            (printed (called w (texconv_argv dds_dir p)
                                             r root) line)
                   = (Return x, w') /\
                   calls w'
                   = calls (printed (called w (texconv_argv dds_dir p)
                                            r root) line) ++ cs'))).
  { intros c1 line Hr Hrun1.
    destruct (png_loop_trace dds_dir rest c1
                (printed (called w (texconv_argv dds_dir p) r root) line))
      as (x1 & w1 & cs1 & Hrun1' & Hcalls1 & _).
    rewrite Hrun1 in Hrun1'. inversion Hrun1'; subst x1 w1.
    exists cs1. split.
    - pose proof Hcalls1 as Hc. cbn [printed called calls] in Hc.
      rewrite <- app_assoc, Hcalls in Hc. now apply app_inv_head in Hc.
    - right. split; [exact Hr|]. exists c1, line. split; assumption. }
  destruct r as [rc err|e].
  - destruct (Z.eqb rc 0); eapply Step; try exact Hrun; discriminate.
  - destruct e; try (eapply Step; [discriminate|exact Hrun]).
    inversion Hrun; subst x w'. cbn [printed called calls] in Hcalls.
    apply app_inv_head in Hcalls. subst cs. exists []. split; auto.
Qed.

(** A call that could not be launched is the last call of the loop. *)
Lemma png_loop_launch_failure_last dds_dir files : forall c w x w' cs,
  png_loop exec dds_dir files c w = (Return x, w') ->
  calls w' = calls w ++ cs ->
  forall cs1 cl cs2,
    cs = cs1 ++ cl :: cs2 -> launch_failed cl = true -> cs2 = [].
Proof.
  induction files as [|p rest IH]; intros c w x w' cs Hrun Hcalls
                                          cs1 cl cs2 Hcs Hlf.
  - simpl in Hrun. inversion Hrun; subst.
    rewrite <- (app_nil_r (calls w')) in Hcalls at 1.
    apply app_inv_head in Hcalls. destruct cs1; discriminate.
  - destruct (exec (List.length (calls w)) (texconv_argv dds_dir p) (fs w))
      as [r root] eqn:E.
    destruct (png_loop_call_split _ _ _ _ _ _ _ _ _ _ E Hrun Hcalls)
      as (cs' & Hcs' & [[Hr ->]|(Hr & c1 & line & Hrun1 & Hcalls1)]).
    + rewrite Hcs in Hcs'. destruct cs1 as [|c0 cs1].
      * now injection Hcs' as _ H.
      * injection Hcs' as _ H. destruct cs1; discriminate.
    + rewrite Hcs in Hcs'. destruct cs1 as [|c0 cs1].
      * injection Hcs' as Hcl _. subst cl. unfold launch_failed in Hlf.
        cbn [result] in Hlf. destruct r as [rc err|[]]; try discriminate.
        congruence.
      * injection Hcs' as _ H.
        apply (IH _ _ _ _ _ Hrun1 Hcalls1 cs1 cl cs2); [now symmetry|exact Hlf].
Qed.

Lemma existsb_launch_failed cs :
  existsb launch_failed cs = true ->
  exists cs1 cl cs2, cs = cs1 ++ cl :: cs2 /\ launch_failed cl = true.
Proof.
  intros H. apply existsb_exists in H. destruct H as (cl & Hin & Hlf).
  apply in_split in Hin. destruct Hin as (cs1 & cs2 & ->).
  now exists cs1, cl, cs2.
Qed.

(** C4, as the code has it.  Stage 2 looks at no compressed output
    before it calls the program: when its output directory can be made,
    the stage returns, and the command lines it has run are those of an
    initial part of its listing of raster files, in the listing's order,
    each with the overwrite flag [-y].  Unless a launch failed, they are
    the command lines of the whole listing: every listed raster file is
    then called for exactly once.  A call that could not be launched is
    the last call of the stage, and only after such a call is a listed
    file left out: the files listed after it are not called for at all.
    The returned count is the number of calls that exited with 0. *)
Theorem stage2_calls_each_raster_once
        (png_dir dds_dir : path) (w : World) (r : node) :
  mkdir_p dds_dir (fs w) = inr r ->
  exists n w' cs,
    convert_pngs_to_dds exec png_dir dds_dir w = (Return n, w') /\
    calls w' = calls w ++ cs /\
    n = List.length (filter succeeded cs) /\
    (exists rest,
        map (texconv_argv dds_dir) (glob_in png_dir "*.png" r)
        = map argv cs ++ rest /\
        (rest <> [] ->
         exists cs1 cl, cs = cs1 ++ [cl] /\ launch_failed cl = true) /\
        (NoDup (scandir png_dir r) ->
         forall a, In a rest -> ~ In a (map argv cs))) /\
    Forall (fun cl => In "-y" (argv cl)) cs /\
    (existsb launch_failed cs = false ->
     map argv cs = map (texconv_argv dds_dir) (glob_in png_dir "*.png" r) /\
     (NoDup (scandir png_dir r) ->
      forall p, In p (glob_in png_dir "*.png" r) ->
                count_occ (list_eq_dec string_dec) (map argv cs)
                          (texconv_argv dds_dir p) = 1)) /\
    (forall cs1 cl cs2,
        cs = cs1 ++ cl :: cs2 -> launch_failed cl = true -> cs2 = []).
Proof.
  intros Hm.
  assert (Main : exists n w' cs,
             convert_pngs_to_dds exec png_dir dds_dir w = (Return n, w') /\
             calls w' = calls w ++ cs /\
             n = List.length (filter succeeded cs) /\
             (exists rest,
                 map (texconv_argv dds_dir) (glob_in png_dir "*.png" r)
                 = map argv cs ++ rest) /\
             (existsb launch_failed cs = false ->
              map argv cs
              = map (texconv_argv dds_dir) (glob_in png_dir "*.png" r)) /\
             (forall cs1 cl cs2,
                 cs = cs1 ++ cl :: cs2 -> launch_failed cl = true ->
                 cs2 = [])).
  { destruct (glob_in png_dir "*.png" r) as [|p0 l0] eqn:Hg.
    - rewrite (stage2_on_empty_listing _ _ _ _ Hm Hg).
      eexists 0, _, []. cbn [calls]. rewrite app_nil_r.
      repeat split; trivial; [now exists []|].
      intros cs1 cl cs2 H. destruct cs1; discriminate.
    - rewrite (stage2_on_listing _ _ _ _ Hm) by (rewrite Hg; discriminate).
      rewrite Hg. unfold bind.
      match goal with
      | |- context [png_loop exec dds_dir ?l ?c ?w1] =>
          destruct (png_loop_trace dds_dir l c w1)
            as (x & w' & cs & Hrun & Hcalls & Hval & Hpre & Hall);
          pose proof (png_loop_launch_failure_last dds_dir l c w1 x w' cs
                        Hrun Hcalls) as Hlast
      end.
      rewrite Hrun. exists (exit_value x), w', cs.
      cbn [printed calls] in Hcalls. repeat split; trivial. }
  destruct Main
    as (n & w' & cs & Hrun & Hcalls & Hn & [rest Hpre] & Hall & Hlast).
  exists n, w', cs. repeat split; trivial.
  - exists rest. split; [exact Hpre|]. split.
    + intros Hrest.
      destruct (existsb launch_failed cs) eqn:Ex.
      * destruct (existsb_launch_failed _ Ex) as (cs1 & cl & cs2 & Hcs & Hlf).
        rewrite (Hlast _ _ _ Hcs Hlf) in Hcs. now exists cs1, cl.
      * exfalso. apply Hrest. rewrite (Hall eq_refl) in Hpre.
        rewrite <- (app_nil_r (map _ _)) in Hpre at 1.
        apply app_inv_head in Hpre. now symmetry.
    + intros Hnd a Ha Hin.
      assert (Hnd' : NoDup (map (texconv_argv dds_dir)
                                (glob_in png_dir "*.png" r))).
      { apply NoDup_map_on; [|now apply glob_in_NoDup].
        intros x y Hx Hy. now apply texconv_argv_inj_on with (1 := Hx). }
      rewrite Hpre in Hnd'. apply (NoDup_app_disjoint _ _ _ Hnd' Hin Ha).
  - apply Forall_forall. intros cl Hcl.
    assert (Hin : In (argv cl)
                     (map (texconv_argv dds_dir)
                          (glob_in png_dir "*.png" r))).
    { rewrite Hpre. apply in_or_app. left. now apply in_map. }
    apply in_map_iff in Hin. destruct Hin as (p & <- & _).
    unfold texconv_argv. simpl. tauto.
  - now apply Hall.
  - intros Hnd p Hp. rewrite (Hall H).
    apply NoDup_count_occ'.
    + apply NoDup_map_on; [|now apply glob_in_NoDup].
      intros x y Hx Hy. now apply texconv_argv_inj_on with (1 := Hx).
    + now apply in_map.
Qed.

(** *** Stage 1 keeps the rasters it finds *)

Lemma svg_loop_protects png_dir files p m :
  (forall s, In s files -> png_of png_dir s <> p ->
             leaves_alone exec (magick_argv s (png_of png_dir s)) p) ->
  forall c k w x w',
    lookup p (fs w) = Some m ->
    svg_loop exec png_dir files c k w = (Return x, w') ->
    lookup p (fs w') = Some m /\
    (exists cs,
        calls w' = calls w ++ cs /\
        Forall (fun cl => exists s,
                    In s files /\ png_of png_dir s <> p /\
                    argv cl = magick_argv s (png_of png_dir s)) cs) /\
    (forall c' k', x = Fallthrough c' k' ->
                   k <= k' /\
                   ((exists s, In s files /\ png_of png_dir s = p) -> k < k')).
Proof.
  induction files as [|s rest IH]; intros Hframe c k w x w' Hp Hrun.
  - simpl in Hrun. inversion Hrun; subst. split; [exact Hp|]. split.
    + exists []. now rewrite app_nil_r.
    + intros c' k' Hx. inversion Hx; subst. split; [lia|].
      intros (s & [] & _).
  - assert (IH' := IH (fun s0 Hin => Hframe s0 (or_intror Hin))).
    assert (Widen : forall cs,
               Forall (fun cl => exists s0,
                           In s0 rest /\ png_of png_dir s0 <> p /\
                           argv cl = magick_argv s0 (png_of png_dir s0)) cs ->
               Forall (fun cl => exists s0,
                           In s0 (s :: rest) /\ png_of png_dir s0 <> p /\
                           argv cl = magick_argv s0 (png_of png_dir s0)) cs).
    { intros cs. apply Forall_impl. intros cl (s0 & Hin & Hne & Ha).
      exists s0. simpl. auto. }
    destruct (path_exists (png_of png_dir s) (fs w)) eqn:Ex.
    + rewrite (svg_loop_skip _ _ _ _ _ _ Ex) in Hrun.
      destruct (IH' _ _ _ _ _ Hp Hrun) as (Hp' & (cs & Hc & Hfor) & Hk).
      split; [exact Hp'|]. split.
      * exists cs. split; [exact Hc|]. now apply Widen.
      * intros c' k' Hx. destruct (Hk _ _ Hx) as [Hle _]. split; lia.
    + assert (Hne : png_of png_dir s <> p).
      { intros Heq. unfold path_exists in Ex. rewrite Heq, Hp in Ex.
        discriminate. }
      destruct (exec (List.length (calls w))
                     (magick_argv s (png_of png_dir s)) (fs w))
        as [r root] eqn:E.
      assert (Hroot : lookup p root = Some m).
      { pose proof (Hframe s (or_introl eq_refl) Hne
                           (List.length (calls w)) (fs w)) as F.
        rewrite E in F. simpl in F. now rewrite F. }
      rewrite (svg_loop_call _ _ _ _ _ _ _ _ Ex E) in Hrun.
      set (cl := mkcall (magick_argv s (png_of png_dir s)) r) in *.
      assert (Step : forall c1 line,
                 svg_loop exec png_dir rest c1 k
                   (printed (called w (magick_argv s (png_of png_dir s))
                                    r root) line)
                 = (Return x, w') ->
                 lookup p (fs w') = Some m /\
                 (exists cs,
                     calls w' = calls w ++ cs /\
                     Forall (fun cl => exists s0,
                                 In s0 (s :: rest) /\
                                 png_of png_dir s0 <> p /\
                                 argv cl
                                 = magick_argv s0 (png_of png_dir s0)) cs) /\
                 (forall c' k', x = Fallthrough c' k' ->
                                k <= k' /\
                                ((exists s0, In s0 (s :: rest) /\
                                             png_of png_dir s0 = p) ->
                                 k < k'))).
      { intros c1 line Hrun1.
        pose proof (fun H => IH' _ _ _ _ _ H Hrun1) as K.
        destruct (K Hroot) as (Hp' & (cs & Hc & Hfor) & Hk).
        split; [exact Hp'|]. split.
        - exists (cl :: cs). cbn [printed called calls] in Hc.
          rewrite <- app_assoc in Hc. split; [exact Hc|].
          constructor; [|now apply Widen].
          exists s. simpl. auto.
        - intros c' k' Hx. destruct (Hk _ _ Hx) as [Hle Hlt].
          split; [exact Hle|]. intros (s0 & [<-|Hin] & Hs0).
          + contradiction.
          + apply Hlt. now exists s0. }
      destruct r as [rc err|e].
      * destruct (Z.eqb rc 0); eapply Step; exact Hrun.
      * destruct e; try (eapply Step; exact Hrun).
        inversion Hrun; subst. cbn [printed called fs calls].
        split; [exact Hroot|]. split.
        -- exists [cl]. split; [reflexivity|].
           constructor; [|constructor]. exists s. simpl. auto.
        -- intros c' k' Hx. discriminate.
Qed.

(** C3. Take a vector source of the listing whose raster file exists
    before stage 1 runs, and let the rasterizing program, when called
    for another raster, leave this one alone.  Then stage 1 (its
    directories made) returns; no call it makes has this raster as its
    output; the raster file is afterwards what it was; the returned
    count is the number of calls that exited with 0, so it counts newly
    made rasters only; and, the loop not being cut short by a launch
    failure, the source is counted in [skipped]: every listed source is
    either called for or skipped, [skipped] is positive and printed in
    the summary line. *)
Theorem stage1_skips_existing_rasters
        (svg_dir png_dir : path) (w : World) (r1 r2 : node)
        (s : path) (f : file) :
  mkdir_p svg_dir (fs w) = inr r1 ->
  mkdir_p png_dir r1 = inr r2 ->
  In s (glob_in svg_dir "*.svg" r2) ->
  lookup (png_of png_dir s) (fs w) = Some (File f) ->
  (forall s', In s' (glob_in svg_dir "*.svg" r2) ->
              png_of png_dir s' <> png_of png_dir s ->
              leaves_alone exec (magick_argv s' (png_of png_dir s'))
                           (png_of png_dir s)) ->
  exists n w' cs,
    convert_svgs_to_pngs exec svg_dir png_dir w = (Return n, w') /\
    calls w' = calls w ++ cs /\
    Forall (fun cl => forall s', argv cl <> magick_argv s' (png_of png_dir s))
           cs /\
    lookup (png_of png_dir s) (fs w') = Some (File f) /\
    n = List.length (filter succeeded cs) /\
    (existsb launch_failed cs = false ->
     exists k,
       0 < k /\
       k + List.length cs = List.length (glob_in svg_dir "*.svg" r2) /\
       In ("  Skipped " +:+ str_nat k +:+ " SVGs (PNGs already exist)")
          (stdout w')).
Proof.
  intros H1 H2 Hs Hf Hframe.
  assert (Hf2 : lookup (png_of png_dir s) r2 = Some (File f)).
  { apply (mkdir_p_file _ _ _ _ _ H2), (mkdir_p_file _ _ _ _ _ H1), Hf. }
  rewrite (stage1_on_listing _ _ _ _ _ H1 H2)
    by (intros E; rewrite E in Hs; exact Hs).
  unfold bind.
  destruct (svg_loop_trace png_dir (glob_in svg_dir "*.svg" r2) 0 0
                           (mkWorld r2 (stdout w) (calls w)))
    as (x & w1 & cs & Hrun & Hcalls & Hval & _ & Hall).
  rewrite Hrun.
  destruct (svg_loop_protects
              png_dir _ _ (File f) Hframe 0 0
              (mkWorld r2 (stdout w) (calls w)) x w1 Hf2 Hrun)
    as (Hkeep & (cs' & Hcalls' & Hfor) & Hk).
  assert (cs' = cs) by (rewrite Hcalls in Hcalls';
                        now apply app_inv_head in Hcalls').
  subst cs'. cbn [calls] in Hcalls. simpl in Hval.
  assert (Hnot : Forall (fun cl => forall s',
                             argv cl <> magick_argv s' (png_of png_dir s))
                        cs).
  { eapply Forall_impl; [|exact Hfor].
    intros cl (s0 & _ & Hne & Ha) s' Heq. rewrite Ha in Heq.
    assert (Hstr := f_equal (fun l => nth 4 l "") Heq).
    simpl in Hstr. apply Hne. unfold png_of in *. now rewrite (str_child_inj _ _ _ Hstr). }
  destruct x as [c' k'|c' k']; simpl in Hval.
  - destruct (Hk _ _ eq_refl) as [_ Hlt].
    assert (Hpos : 0 < k') by (apply Hlt; now exists s).
    unfold svg_epilogue, bind.
    apply Nat.ltb_lt in Hpos. rewrite Hpos. simpl.
    eexists c', _, cs. repeat split; trivial.
    intros Hlf. destruct (Hall Hlf) as (k0 & Hx & Hlen).
    inversion Hx; subst k0. exists k'. repeat split.
    + now apply Nat.ltb_lt.
    + exact Hlen.
    + apply in_or_app. right. simpl. auto.
  - simpl. exists c', w1, cs. repeat split; trivial.
    intros Hlf. destruct (Hall Hlf) as (k0 & Hx & _). discriminate.
Qed.

(** *** Running stage 1 again *)

Lemma svg_epilogue_world x w :
  exists w', svg_epilogue x w = (Return (exit_value x), w') /\
             fs w' = fs w /\ calls w' = calls w.
Proof.
  destruct x as [c k|c k]; simpl.
  - unfold bind, print, ret.
    destruct (Nat.ltb 0 k); eexists; repeat split.
  - unfold ret. eexists; repeat split.
Qed.

(** When every raster is there, the loop only counts. *)
Lemma svg_loop_all_exist png_dir files : forall c k w,
  (forall s, In s files -> path_exists (png_of png_dir s) (fs w) = true) ->
  svg_loop exec png_dir files c k w
  = (Return (Fallthrough c (k + List.length files)), w).
Proof.
  induction files as [|s rest IH]; intros c k w H.
  - simpl. now rewrite Nat.add_0_r.
  - rewrite svg_loop_skip by (apply H; simpl; auto).
    rewrite IH by (intros s0 Hs0; apply H; simpl; auto).
    simpl. now rewrite Nat.add_succ_r.
Qed.

(** A loop whose calls all exited with 0 leaves a raster for every
    source it went through. *)
Lemma svg_loop_converts png_dir srcs :
  writes_output exec png_dir srcs ->
  keeps_rasters exec png_dir srcs ->
  forall files, incl files srcs ->
  forall c k w x w' cs,
    svg_loop exec png_dir files c k w = (Return x, w') ->
    calls w' = calls w ++ cs ->
    forallb succeeded cs = true ->
    (forall s, In s srcs ->
               path_exists (png_of png_dir s) (fs w) = true ->
               path_exists (png_of png_dir s) (fs w') = true) /\
    (forall s, In s files -> path_exists (png_of png_dir s) (fs w') = true).
Proof.
  intros Hout Hkeep.
  induction files as [|s rest IH]; intros Hincl c k w x w' cs Hrun Hcalls Hok.
  - simpl in Hrun. inversion Hrun; subst. split; [auto|intros s []].
  - assert (Hs : In s srcs) by (apply Hincl; simpl; auto).
    assert (Hincl' : incl rest srcs)
      by (intros s0 Hs0; apply Hincl; simpl; auto).
    destruct (path_exists (png_of png_dir s) (fs w)) eqn:Ex.
    + rewrite (svg_loop_skip _ _ _ _ _ _ Ex) in Hrun.
      destruct (IH Hincl' _ _ _ _ _ _ Hrun Hcalls Hok) as [Hp Hr].
      split; [exact Hp|]. intros s0 [<-|Hs0]; [now apply Hp|now apply Hr].
    + destruct (exec (List.length (calls w))
                     (magick_argv s (png_of png_dir s)) (fs w))
        as [r root] eqn:E.
      rewrite (svg_loop_call _ _ _ _ _ _ _ _ Ex E) in Hrun.
      set (cl := mkcall (magick_argv s (png_of png_dir s)) r) in *.
      assert (Hroot : forall s0, In s0 srcs ->
                        path_exists (png_of png_dir s0) (fs w) = true ->
                        path_exists (png_of png_dir s0) root = true).
      { intros s0 Hs0 H0.
        pose proof (Hkeep s s0 (List.length (calls w)) (fs w) Hs Hs0 H0) as K.
        now rewrite E in K. }
      assert (Step : forall c1 line,
                 svg_loop exec png_dir rest c1 k
                   (printed (called w (magick_argv s (png_of png_dir s))
                                    r root) line)
                 = (Return x, w') ->
                 succeeded cl = true /\
                 (forall s0, In s0 srcs ->
                             path_exists (png_of png_dir s0) root = true ->
                             path_exists (png_of png_dir s0) (fs w') = true) /\
                 (forall s0, In s0 rest ->
                             path_exists (png_of png_dir s0) (fs w') = true)).
      { intros c1 line Hrun1.
        destruct (svg_loop_trace
                    png_dir rest c1 k
                    (printed (called w (magick_argv s (png_of png_dir s))
                                     r root) line))
          as (x1 & w1 & cs1 & Hrun1' & Hcalls1 & _).
        rewrite Hrun1 in Hrun1'. inversion Hrun1'; subst x1 w1.
        pose proof Hcalls1 as Hc. cbn [printed called calls] in Hc.
        rewrite <- app_assoc, Hcalls in Hc. apply app_inv_head in Hc.
        subst cs. simpl in Hok. apply andb_true_iff in Hok.
        destruct Hok as [Hcl Hok1]. split; [exact Hcl|].
        apply (IH Hincl' _ _ _ _ _ _ Hrun1 Hcalls1 Hok1). }
      destruct r as [rc err|e].
      * destruct (Z.eqb rc 0) eqn:Erc.
        -- destruct (Step _ _ Hrun) as (_ & Hp & Hr).
           assert (Hnew : path_exists (png_of png_dir s) root = true).
           { apply Z.eqb_eq in Erc. apply (Hout _ _ _ _ _ _ Hs E Erc). }
           split; [intros s0 Hs0 H0; now apply Hp, Hroot|].
           intros s0 [<-|Hs0]; [now apply Hp|now apply Hr].
        -- destruct (Step _ _ Hrun) as (Hcl & _).
           unfold succeeded, cl in Hcl. simpl in Hcl. congruence.
      * assert (Hbad : succeeded cl = false) by reflexivity.
        destruct e; try (destruct (Step _ _ Hrun) as (Hcl & _); congruence).
        inversion Hrun; subst x w'. cbn [printed called calls] in Hcalls.
        apply app_inv_head in Hcalls. subst cs.
        simpl in Hok. discriminate.
Qed.

(** C6. Run stage 1, and let every conversion of that run succeed: each
    call exited with status 0, having written its output, and no call
    removed a raster.  Run stage 1 again on the unchanged source
    directory (it lists the same sources, and the two directories can
    still be made).  The second run returns 0 and calls the program for
    no file. *)
Theorem stage1_second_run_converts_nothing
        (svg_dir png_dir : path) (w : World) (r1 r2 : node)
        (cs1 : list call) (r1' r2' : node) :
  let w1 := world_after (convert_svgs_to_pngs exec svg_dir png_dir) w in
  let w2 := world_after (convert_svgs_to_pngs exec svg_dir png_dir) w1 in
  mkdir_p svg_dir (fs w) = inr r1 ->
  mkdir_p png_dir r1 = inr r2 ->
  writes_output exec png_dir (glob_in svg_dir "*.svg" r2) ->
  keeps_rasters exec png_dir (glob_in svg_dir "*.svg" r2) ->
  calls w1 = calls w ++ cs1 ->
  forallb succeeded cs1 = true ->
  mkdir_p svg_dir (fs w1) = inr r1' ->
  mkdir_p png_dir r1' = inr r2' ->
  glob_in svg_dir "*.svg" r2' = glob_in svg_dir "*.svg" r2 ->
  convert_svgs_to_pngs exec svg_dir png_dir w1
  = (Return 0, w2) /\
  calls w2 = calls w1 /\
  fs w2 = r2'.
Proof.
  intros w1 w2 H1 H2 Hout Hkeep Hcs Hok H1' H2' Hsame. subst w2.
  destruct (glob_in svg_dir "*.svg" r2) as [|s0 l0] eqn:Hg.
  - pose proof (stage1_on_empty_listing _ _ _ _ _ H1' H2' Hsame) as Hrun.
    unfold world_after. rewrite Hrun. repeat split.
  - assert (Hall : forall s, In s (s0 :: l0) ->
                             path_exists (png_of png_dir s) (fs w1) = true).
    { subst w1. unfold world_after in *.
      rewrite (stage1_on_listing _ _ _ _ _ H1 H2) in *
        by (rewrite Hg; discriminate).
      rewrite Hg in *. unfold bind in *.
      destruct (svg_loop_trace png_dir (s0 :: l0) 0 0
                               (mkWorld r2 (stdout w) (calls w)))
        as (x & wl & cs & Hrun & Hcalls & _).
      rewrite Hrun in *.
      destruct (svg_epilogue_world x wl) as (we & He & Hfs & Hca).
      rewrite He in *. cbn [snd] in *. rewrite Hfs.
      rewrite Hca, Hcalls in Hcs. cbn [calls] in Hcs.
      apply app_inv_head in Hcs. subst cs1.
      rewrite <- Hg in Hout, Hkeep, Hrun |- *.
      apply (svg_loop_converts _ _ Hout Hkeep _ (incl_refl _)
                               _ _ _ _ _ _ Hrun Hcalls Hok). }
    assert (Hall2 : forall s, In s (s0 :: l0) ->
                              path_exists (png_of png_dir s) r2' = true).
    { intros s Hs. apply (mkdir_p_exists _ _ _ _ H2'),
                     (mkdir_p_exists _ _ _ _ H1'), Hall, Hs. }
    unfold world_after.
    rewrite (stage1_on_listing _ _ _ _ _ H1' H2')
      by (rewrite Hsame; discriminate).
    rewrite Hsame. unfold bind.
    rewrite (svg_loop_all_exist png_dir (s0 :: l0) 0 0
               (mkWorld r2' (stdout w1) (calls w1)) Hall2).
    simpl. repeat split.
Qed.

(** *** The deployment loop *)

Lemma child_dir_inj d d' c c' : child d c = child d' c' -> d = d' /\ c = c'.
Proof. unfold child. intros H. now apply app_inj_tail in H. Qed.

(** A listed source is not in the way of a destination. *)
Lemma source_off_destination dds_dir mod_dir c c' f root :
  mod_dir <> dds_dir ->
  lookup (child dds_dir c') root = Some (File f) ->
  is_dir mod_dir root = true ->
  is_prefix (child dds_dir c') (child mod_dir c) = false.
Proof.
  intros Hne Hf Hd.
  destruct (is_prefix (child dds_dir c') (child mod_dir c)) eqn:E;
    [|reflexivity].
  apply is_prefix_child in E. destruct E as [E|E].
  - apply child_dir_inj in E. destruct E as [E _]. congruence.
  - now rewrite (file_not_above_dir _ _ _ _ Hf Hd) in E.
Qed.

Lemma destinations_apart mod_dir c c' :
  c <> c' -> is_prefix (child mod_dir c') (child mod_dir c) = false.
Proof.
  intros Hne.
  destruct (is_prefix (child mod_dir c') (child mod_dir c)) eqn:E;
    [|reflexivity].
  apply is_prefix_child_child in E; [|reflexivity].
  apply child_inj in E. congruence.
Qed.

Lemma copy2_into dds_dir mod_dir c f root :
  mod_dir <> dds_dir ->
  lookup (child dds_dir c) root = Some (File f) ->
  is_dir (child mod_dir c) root = false ->
  copy2 (child dds_dir c) (child mod_dir (name (child dds_dir c))) root
  = write_file (child mod_dir c) f root.
Proof.
  intros Hne Hf Hd. unfold copy2. rewrite name_child, Hd, Hf.
  destruct (path_eqb (child dds_dir c) (child mod_dir c)) eqn:E;
    [|reflexivity].
  apply path_eqb_eq, child_dir_inj in E. destruct E as [E _]. congruence.
Qed.

(** The loop over the listed names: each file lands in the destination
    as it is in the source, nothing else changes, and every turn is
    counted. *)
Lemma copy_loop_spec dds_dir mod_dir :
  mod_dir <> dds_dir ->
  forall names copied w,
    is_dir mod_dir (fs w) = true ->
    Forall (fun c =>
              (exists f, lookup (child dds_dir c) (fs w) = Some (File f)) /\
              is_dir (child mod_dir c) (fs w) = false) names ->
    exists w',
      copy_loop mod_dir (map (child dds_dir) names) copied w
      = (Return (copied + List.length names), w') /\
      calls w' = calls w /\
      (forall c, In c names ->
                 lookup (child mod_dir c) (fs w')
                 = lookup (child dds_dir c) (fs w)) /\
      (forall q, (forall c, In c names ->
                            is_prefix q (child mod_dir c) = false) ->
                 lookup q (fs w') = lookup q (fs w)).
Proof.
  intros Hne. induction names as [|c rest IH]; intros copied w Hmod Hall.
  - exists w. simpl. rewrite Nat.add_0_r. repeat split; trivial.
    intros c [].
  - inversion Hall as [|? ? [[f Hf] Hd] Hrest]; subst.
    destruct (write_file_ok mod_dir c f _ Hmod Hd) as [root' Hw].
    assert (Hsrc : forall c', In c' rest ->
                     lookup (child dds_dir c') root'
                     = lookup (child dds_dir c') (fs w)).
    { intros c' Hc'. apply (write_file_frame _ _ _ _ _ Hw).
      rewrite Forall_forall in Hrest.
      destruct (Hrest _ Hc') as [[f' Hf'] _].
      apply (source_off_destination _ _ _ _ _ _ Hne Hf' Hmod). }
    assert (Hdst : lookup (child mod_dir c) root' = Some (File f))
      by apply (write_file_lookup _ _ _ _ Hw).
    assert (Hall' : Forall (fun c0 =>
                              (exists f0, lookup (child dds_dir c0) root'
                                          = Some (File f0)) /\
                              is_dir (child mod_dir c0) root' = false) rest).
    { apply Forall_forall. intros c' Hc'.
      rewrite Forall_forall in Hrest. destruct (Hrest _ Hc') as [Hf' Hd'].
      split; [now rewrite (Hsrc _ Hc')|].
      destruct (string_dec c c') as [<-|Hcc].
      - unfold is_dir. now rewrite Hdst.
      - unfold is_dir in *.
        now rewrite (write_file_frame _ _ _ _ _ Hw
                       (destinations_apart mod_dir _ _ Hcc)). }
    destruct (IH (S copied)
                 (printed (mkWorld root' (stdout w) (calls w))
                          ("  [OK] " +:+ name (child dds_dir c) +:+ " (DDS)"))
                 (write_file_dir_stays _ _ _ _ _ Hw Hmod) Hall')
      as (w' & Hrun & Hcalls & Hcopy & Hframe).
    exists w'. cbn [printed fs calls] in *. repeat split.
    + cbn [map copy_loop]. unfold bind at 1, shutil_copy2.
      rewrite (copy2_into _ _ _ _ _ Hne Hf Hd), Hw.
      unfold bind at 1, print. cbn [fs stdout calls].
      unfold printed in Hrun. cbn [fs stdout calls] in Hrun.
      rewrite Hrun. simpl. now rewrite Nat.add_succ_r.
    + exact Hcalls.
    + intros c0 Hc0. destruct (in_dec string_dec c0 rest) as [Hin|Hout].
      * rewrite (Hcopy _ Hin). now apply Hsrc.
      * destruct Hc0 as [<-|Hc0]; [|contradiction].
        rewrite Hframe, Hdst; [now rewrite Hf|].
        intros c' Hc'. apply destinations_apart. congruence.
    + intros q Hq. rewrite Hframe by (intros c0 Hc0; apply Hq; simpl; auto).
      apply (write_file_frame _ _ _ _ _ Hw). apply Hq. simpl. auto.
Qed.

(** Stage 3 on a filesystem that is ready for it. *)
Lemma stage3_spec png_dir dds_dir mod_dir w root :
  mkdir_p mod_dir (fs w) = inr root ->
  deployable dds_dir mod_dir root ->
  exists w',
    copy_to_mod_folder png_dir dds_dir mod_dir w
    = (Return (List.length (glob_in dds_dir "*.dds" root)), w') /\
    calls w' = calls w /\
    (forall c, In c (filter (fnmatch "*.dds") (scandir dds_dir root)) ->
               lookup (child mod_dir c) (fs w')
               = lookup (child dds_dir c) root) /\
    (forall q, (forall c, In c (filter (fnmatch "*.dds")
                                       (scandir dds_dir root)) ->
                          is_prefix q (child mod_dir c) = false) ->
               lookup q (fs w') = lookup q root).
Proof.
  intros Hm [Hne Hall]. unfold copy_to_mod_folder.
  rewrite (bind_return _ _ _ _ _ (mkdir_ok _ _ _ Hm)).
  unfold bind at 1, print. cbn [fs stdout calls].
  unfold bind at 1, glob. cbn [fs stdout calls].
  unfold glob_in in *.
  set (names := filter (fnmatch "*.dds") (scandir dds_dir root)) in *.
  assert (Hall' : Forall (fun c =>
                            (exists f, lookup (child dds_dir c) root
                                       = Some (File f)) /\
                            is_dir (child mod_dir c) root = false) names).
  { rewrite Forall_map in Hall. eapply Forall_impl; [|exact Hall].
    intros c. cbv beta. now rewrite name_child. }
  match goal with
  | |- context [copy_loop mod_dir _ 0 ?w1] =>
      destruct (copy_loop_spec _ _ Hne names 0 w1
                               (mkdir_p_is_dir _ _ _ Hm) Hall')
        as (w' & Hrun & Hcalls & Hcopy & Hframe)
  end.
  exists w'. rewrite length_map. repeat split; trivial.
Qed.

(** C2, as the code has it.  Stage 3 copies the entries of the
    compressed-output directory whose name matches [*.dds], and only
    those: when the destination can be made and the filesystem is ready
    for the copies, the stage returns the number of matching entries,
    each of them is a file of the destination afterwards, and a name
    that does not match gets nothing.  The raster directory plays no
    part (no stem is matched against it), and no program is run. *)
Theorem deployment_copies_dds_entries
        (png_dir dds_dir mod_dir : path) (w : World) (root : node) :
  mkdir_p mod_dir (fs w) = inr root ->
  deployable dds_dir mod_dir root ->
  exists w',
    copy_to_mod_folder png_dir dds_dir mod_dir w
    = (Return (List.length (filter (fnmatch "*.dds")
                                   (scandir dds_dir root))), w') /\
    (forall c, In c (scandir dds_dir root) -> fnmatch "*.dds" c = true ->
               exists f, lookup (child dds_dir c) root = Some (File f) /\
                         lookup (child mod_dir c) (fs w') = Some (File f)) /\
    (forall c, fnmatch "*.dds" c = false ->
               lookup (child mod_dir c) (fs w')
               = lookup (child mod_dir c) root) /\
    calls w' = calls w.
Proof.
  intros Hm Hdep.
  destruct (stage3_spec png_dir _ _ _ _ Hm Hdep)
    as (w' & Hrun & Hcalls & Hcopy & Hframe).
  exists w'. unfold glob_in in Hrun. rewrite length_map in Hrun.
  repeat split; trivial.
  - intros c Hc Hpat.
    assert (Hin : In c (filter (fnmatch "*.dds") (scandir dds_dir root)))
      by (apply filter_In; auto).
    destruct Hdep as [_ Hall]. rewrite Forall_forall in Hall.
    destruct (Hall (child dds_dir c)) as [[f Hf] _].
    { unfold glob_in. now apply in_map. }
    exists f. split; [exact Hf|]. now rewrite (Hcopy _ Hin).
  - intros c Hpat. apply Hframe. intros c' Hc'.
    apply filter_In in Hc'. destruct Hc' as [_ Hpat'].
    apply destinations_apart. congruence.
Qed.

(** C7. Every file stage 3 copies is afterwards in the destination with
    the bytes and the metadata (mode, modification time) of its source,
    whatever file had that name in the destination before; the source
    itself is left as it is. *)
Theorem deployed_copies_are_identical
        (png_dir dds_dir mod_dir : path) (w : World) (root : node) :
  mkdir_p mod_dir (fs w) = inr root ->
  deployable dds_dir mod_dir root ->
  exists n w',
    copy_to_mod_folder png_dir dds_dir mod_dir w = (Return n, w') /\
    forall c f,
      In c (scandir dds_dir root) -> fnmatch "*.dds" c = true ->
      lookup (child dds_dir c) root = Some (File f) ->
      lookup (child mod_dir c) (fs w') = Some (File f) /\
      lookup (child dds_dir c) (fs w') = Some (File f) /\
      (forall g, lookup (child mod_dir c) root = Some (File g) ->
                 lookup (child mod_dir c) (fs w') = Some (File f)).
Proof.
  intros Hm Hdep.
  destruct (stage3_spec png_dir _ _ _ _ Hm Hdep)
    as (w' & Hrun & Hcalls & Hcopy & Hframe).
  eexists _, w'. split; [exact Hrun|].
  intros c f Hc Hpat Hf.
  assert (Hin : In c (filter (fnmatch "*.dds") (scandir dds_dir root)))
    by (apply filter_In; auto).
  assert (Hdst : lookup (child mod_dir c) (fs w') = Some (File f))
    by (now rewrite (Hcopy _ Hin)).
  repeat split; trivial.
  rewrite Hframe; [exact Hf|]. intros c' _.
  destruct Hdep as [Hne _].
  apply (source_off_destination _ _ _ _ _ _ Hne Hf (mkdir_p_is_dir _ _ _ Hm)).
Qed.

(** *** Stage 3 and the raster directory *)

Lemma blind_ret p {A} (a : A) : blind_to p (ret a).
Proof. intros n' w. reflexivity. Qed.

Lemma blind_print p line : blind_to p (print line).
Proof. intros n' w. reflexivity. Qed.

Lemma blind_bind p {A B} (m : M A) (k : A -> M B) :
  blind_to p m ->
  (forall a, (exists w w', m w = (Return a, w')) -> blind_to p (k a)) ->
  blind_to p (bind m k).
Proof.
  intros Hm Hk n' w. unfold bind. rewrite Hm.
  destruct (m w) as [[a|e] w1] eqn:E; cbn [fst snd]; [|reflexivity].
  apply Hk. eauto.
Qed.

Lemma blind_mkdir p d : unrelated p d -> blind_to p (mkdir d).
Proof.
  intros Hu n' w. unfold mkdir, with_graft. cbn [fs stdout calls].
  rewrite (mkdir_p_graft _ _ _ _ Hu).
  destruct (mkdir_p d (fs w)); reflexivity.
Qed.

Lemma blind_glob p d pat : unrelated p d -> blind_to p (glob d pat).
Proof.
  intros Hu n' w. unfold glob, glob_in, scandir, with_graft.
  cbn [fs stdout calls fst snd]. now rewrite (lookup_graft _ _ _ _ Hu).
Qed.

Lemma blind_copy2 p src dst :
  unrelated p src -> unrelated p dst -> blind_to p (shutil_copy2 src dst).
Proof.
  intros Hs Hd n' w. unfold shutil_copy2, copy2, with_graft, is_dir,
                       path_exists.
  cbn [fs stdout calls].
  rewrite (lookup_graft _ _ _ _ Hs), (lookup_graft _ _ _ _ Hd).
  set (dst' := if match lookup dst (fs w) with
                  | Some (Dir _) => true
                  | _ => false
                  end then child dst (name src) else dst).
  assert (Hd' : unrelated p dst').
  { subst dst'. destruct (lookup dst (fs w)) as [[f|es]|]; trivial.
    now apply unrelated_child. }
  destruct (path_eqb src dst' &&
            match lookup src (fs w) with Some _ => true | None => false end);
    [reflexivity|].
  destruct (lookup src (fs w)) as [[f|es]|]; try reflexivity.
  rewrite (write_file_graft _ _ _ _ _ Hd').
  destruct (write_file dst' f (fs w)); reflexivity.
Qed.

Lemma blind_copy_loop p dds_dir mod_dir :
  unrelated p dds_dir -> unrelated p mod_dir ->
  forall names copied,
    blind_to p (copy_loop mod_dir (map (child dds_dir) names) copied).
Proof.
  intros Hd Hm. induction names as [|c rest IH]; intros copied;
    cbn [map copy_loop].
  - apply blind_ret.
  - apply blind_bind; [|intros _ _].
    + apply blind_copy2; now apply unrelated_child.
    + apply blind_bind; [apply blind_print|intros _ _; apply IH].
Qed.

(** C9. The raster directory handed to stage 3 makes no difference: for
    any two of them the stage gives the same result and leaves the same
    world (same destination contents, same returned count).  What it
    copies are entries of the compressed-output directory named
    [*.dds]; no name [*.png] receives a copy in the destination.  And
    the stage reads nothing of the raster directory: when that directory
    lies apart from the other two, whatever is put in its place, the stage
    returns the same, prints the same, and leaves what was put there. *)
Theorem deployment_ignores_raster_dir
        (png_dir png_dir' dds_dir mod_dir : path) (w : World) :
  copy_to_mod_folder png_dir dds_dir mod_dir w
  = copy_to_mod_folder png_dir' dds_dir mod_dir w
  /\
  (forall root,
      mkdir_p mod_dir (fs w) = inr root ->
      deployable dds_dir mod_dir root ->
      forall c, fnmatch "*.png" c = true ->
                lookup (child mod_dir c)
                       (fs (world_after
                              (copy_to_mod_folder png_dir dds_dir mod_dir) w))
                = lookup (child mod_dir c) root)
  /\
  (unrelated png_dir dds_dir -> unrelated png_dir mod_dir ->
   forall n',
     copy_to_mod_folder png_dir dds_dir mod_dir (with_graft png_dir n' w)
     = (fst (copy_to_mod_folder png_dir dds_dir mod_dir w),
        with_graft png_dir n'
                   (snd (copy_to_mod_folder png_dir dds_dir mod_dir w)))).
Proof.
  split; [reflexivity|]. split.
  - intros root Hm Hdep c Hpng.
    destruct (stage3_spec png_dir _ _ _ _ Hm Hdep)
      as (w' & Hrun & _ & _ & Hframe).
    unfold world_after. rewrite Hrun. apply Hframe.
    intros c' Hc'. apply filter_In in Hc'. destruct Hc' as [_ Hdds].
    apply destinations_apart. intros ->.
    apply dds_name_is_not_png in Hdds. congruence.
  - intros Hd Hm n'. revert n' w.
    change (blind_to png_dir (copy_to_mod_folder png_dir dds_dir mod_dir)).
    unfold copy_to_mod_folder.
    apply blind_bind; [now apply blind_mkdir|intros _ _].
    apply blind_bind; [apply blind_print|intros _ _].
    apply blind_bind; [now apply blind_glob|].
    intros files (w0 & w0' & Hg). unfold glob in Hg. inversion Hg; subst.
    unfold glob_in. now apply blind_copy_loop.
Qed.

(** *** What is printed does not steer the stages *)

Lemma oblivious_ret {A} (a : A) : oblivious (ret a).
Proof. intros w w' H. now split. Qed.

Lemma oblivious_print line : oblivious (print line).
Proof. intros w w' [Hf Hc]. unfold print, io_eq. simpl. auto. Qed.

Lemma oblivious_mkdir p : oblivious (mkdir p).
Proof.
  intros w w' [Hf Hc]. unfold mkdir, io_eq. rewrite Hf.
  destruct (mkdir_p p (fs w')); simpl; auto.
Qed.

Lemma oblivious_exists p : oblivious (exists_ p).
Proof. intros w w' [Hf Hc]. unfold exists_, io_eq. simpl. now rewrite Hf. Qed.

Lemma oblivious_glob d pat : oblivious (glob d pat).
Proof. intros w w' [Hf Hc]. unfold glob, io_eq. simpl. now rewrite Hf. Qed.

Lemma oblivious_run args : oblivious (subprocess_run exec args).
Proof.
  intros w w' [Hf Hc]. unfold subprocess_run, io_eq. rewrite Hf, Hc.
  destruct (exec _ args (fs w')). simpl. auto.
Qed.

Lemma oblivious_bind {A B} (m : M A) (k : A -> M B) :
  oblivious m -> (forall a, oblivious (k a)) -> oblivious (bind m k).
Proof.
  intros Hm Hk w w' H. unfold bind. destruct (Hm w w' H) as [Ho Hw].
  destruct (m w) as [[a|e] w1], (m w') as [[a'|e'] w1'];
    simpl in Ho, Hw; try discriminate.
  - inversion Ho; subst. now apply Hk.
  - inversion Ho; subst. now split.
Qed.

Lemma oblivious_svg_loop png_dir files :
  forall c k, oblivious (svg_loop exec png_dir files c k).
Proof.
  induction files as [|s rest IH]; intros c k; cbn [svg_loop].
  - apply oblivious_ret.
  - apply oblivious_bind; [apply oblivious_exists|].
    intros [|]; [apply IH|].
    apply oblivious_bind; [apply oblivious_run|].
    intros [rc err|e].
    + destruct (Z.eqb rc 0);
        (apply oblivious_bind; [apply oblivious_print|intros _; apply IH]).
    + destruct e;
        try (apply oblivious_bind; [apply oblivious_print|intros _; apply IH]).
      apply oblivious_bind; [apply oblivious_print|intros _].
      apply oblivious_bind; [apply oblivious_print|intros _].
      apply oblivious_ret.
Qed.

Lemma oblivious_png_loop dds_dir files :
  forall c, oblivious (png_loop exec dds_dir files c).
Proof.
  induction files as [|p rest IH]; intros c; cbn [png_loop].
  - apply oblivious_ret.
  - apply oblivious_bind; [apply oblivious_run|].
    intros [rc err|e].
    + destruct (Z.eqb rc 0);
        (apply oblivious_bind; [apply oblivious_print|intros _; apply IH]).
    + destruct e;
        try (apply oblivious_bind; [apply oblivious_print|intros _; apply IH]).
      apply oblivious_bind; [apply oblivious_print|intros _].
      apply oblivious_bind; [apply oblivious_print|intros _].
      apply oblivious_ret.
Qed.

Lemma oblivious_stage1 svg_dir png_dir :
  oblivious (convert_svgs_to_pngs exec svg_dir png_dir).
Proof.
  unfold convert_svgs_to_pngs.
  apply oblivious_bind; [apply oblivious_mkdir|intros _].
  apply oblivious_bind; [apply oblivious_mkdir|intros _].
  apply oblivious_bind; [apply oblivious_glob|intros [|s l]].
  - apply oblivious_bind; [apply oblivious_print|intros _].
    apply oblivious_ret.
  - apply oblivious_bind; [apply oblivious_svg_loop|].
    intros [c k|c k]; cbn [svg_epilogue]; [|apply oblivious_ret].
    apply oblivious_bind; [|intros _; apply oblivious_ret].
    destruct (Nat.ltb 0 k); [apply oblivious_print|apply oblivious_ret].
Qed.

Lemma oblivious_stage2 png_dir dds_dir :
  oblivious (convert_pngs_to_dds exec png_dir dds_dir).
Proof.
  unfold convert_pngs_to_dds.
  apply oblivious_bind; [apply oblivious_mkdir|intros _].
  apply oblivious_bind; [apply oblivious_glob|intros [|p l]].
  - apply oblivious_bind; [apply oblivious_print|intros _].
    apply oblivious_ret.
  - apply oblivious_bind; [apply oblivious_print|intros _].
    apply oblivious_bind; [apply oblivious_png_loop|intros x].
    apply oblivious_ret.
Qed.

(** *** The converting stages always come back *)



(** *** A missing raster directory *)

(** The vector loop removes no directory when the rasterizing program
    removes none. *)
Lemma svg_loop_keeps_dirs png_dir q files : forall c k w x w',
  (forall s, In s files ->
             keeps_directories exec (magick_argv s (png_of png_dir s))) ->
  svg_loop exec png_dir files c k w = (Return x, w') ->
  is_dir q (fs w) = true -> is_dir q (fs w') = true.
Proof.
  induction files as [|s rest IH]; intros c k w x w' Hk Hrun Hq.
  - simpl in Hrun. now inversion Hrun; subst.
  - assert (Hk' : forall s0, In s0 rest ->
                    keeps_directories exec
                      (magick_argv s0 (png_of png_dir s0)))
      by (intros s0 H0; apply Hk; now right).
    destruct (path_exists (png_of png_dir s) (fs w)) eqn:Ex.
    + rewrite (svg_loop_skip _ _ _ _ _ _ Ex) in Hrun.
      apply (IH _ _ _ _ _ Hk' Hrun Hq).
    + destruct (exec (List.length (calls w))
                     (magick_argv s (png_of png_dir s)) (fs w))
        as [r root] eqn:E.
      assert (Hroot : is_dir q root = true).
      { pose proof (Hk s (or_introl eq_refl) (List.length (calls w))
                       (fs w) q Hq) as K.
        now rewrite E in K. }
      rewrite (svg_loop_call _ _ _ _ _ _ _ _ Ex E) in Hrun.
      destruct r as [rc err|e].
      * destruct (Z.eqb rc 0); apply (IH _ _ _ _ _ Hk' Hrun); exact Hroot.
      * destruct e; try (apply (IH _ _ _ _ _ Hk' Hrun); exact Hroot).
        inversion Hrun; subst. exact Hroot.
Qed.

(** C10. Stage 2 never creates its raster input directory.  If that
    directory does not exist (and is not where the output directory is
    to be made, and the output directory can be made), the stage raises
    nothing, runs no program, prints "No PNG files found in <dir>" and
    returns 0, and the directory still does not exist afterwards; an
    existing empty raster directory gives the same return value and the
    same line.  Stage 1, started in the same filesystem, creates the
    raster directory and its source directory: when both can be made
    and the rasterizing program removes no directory, stage 1 returns
    and both directories exist afterwards. *)
Theorem missing_raster_dir_is_empty_input
        (png_dir dds_dir : path) (w : World) (root : node) :
  path_exists png_dir (fs w) = false ->
  is_prefix png_dir dds_dir = false ->
  mkdir_p dds_dir (fs w) = inr root ->
  convert_pngs_to_dds exec png_dir dds_dir w
  = (Return 0,
     mkWorld root
             (stdout w ++ ["No PNG files found in " +:+ str png_dir])
             (calls w))
  /\ path_exists png_dir root = false
  /\ (forall w0 root0,
         lookup png_dir (fs w0) = Some (Dir []) ->
         is_prefix png_dir dds_dir = false ->
         mkdir_p dds_dir (fs w0) = inr root0 ->
         convert_pngs_to_dds exec png_dir dds_dir w0
         = (Return 0,
            mkWorld root0
                    (stdout w0 ++ ["No PNG files found in " +:+ str png_dir])
                    (calls w0)))
  /\ (forall svg_dir r1 r2,
         mkdir_p svg_dir (fs w) = inr r1 ->
         mkdir_p png_dir r1 = inr r2 ->
         (forall s, In s (glob_in svg_dir "*.svg" r2) ->
                    keeps_directories exec
                      (magick_argv s (png_of png_dir s))) ->
         exists n w',
           convert_svgs_to_pngs exec svg_dir png_dir w = (Return n, w') /\
           is_dir svg_dir (fs w') = true /\
           is_dir png_dir (fs w') = true).
Proof.
  intros Hno Hpre Hm.
  assert (Hsame : lookup png_dir root = lookup png_dir (fs w))
    by (apply (mkdir_p_frame _ _ _ _ Hm Hpre)).
  assert (Hno' : path_exists png_dir root = false)
    by (unfold path_exists in *; now rewrite Hsame).
  split; [|split; [exact Hno'|split]].
  - apply stage2_on_empty_listing; [exact Hm|].
    apply glob_in_not_dir. unfold is_dir, path_exists in *.
    destruct (lookup png_dir root); [discriminate|reflexivity].
  - intros w0 root0 He Hp0 Hm0.
    apply stage2_on_empty_listing; [exact Hm0|].
    unfold glob_in, scandir.
    rewrite (mkdir_p_frame _ _ _ _ Hm0 Hp0), He. reflexivity.
  - intros svg_dir r1 r2 H1 H2 Hk.
    assert (Hs : is_dir svg_dir r2 = true)
      by apply (mkdir_p_dir_stays _ _ _ _ H2), (mkdir_p_is_dir _ _ _ H1).
    assert (Hp : is_dir png_dir r2 = true)
      by apply (mkdir_p_is_dir _ _ _ H2).
    destruct (glob_in svg_dir "*.svg" r2) as [|s0 l0] eqn:Hg.
    + rewrite (stage1_on_empty_listing _ _ _ _ _ H1 H2 Hg).
      eexists _, _. split; [reflexivity|]. split; assumption.
    + rewrite (stage1_on_listing _ _ _ _ _ H1 H2)
        by (rewrite Hg; discriminate).
      rewrite Hg. unfold bind.
      destruct (svg_loop_trace png_dir (s0 :: l0) 0 0
                               (mkWorld r2 (stdout w) (calls w)))
        as (x & wl & cs & Hrun & _).
      rewrite Hrun.
      destruct (svg_epilogue_world x wl) as (we & He & Hfs & _).
      rewrite He. exists (exit_value x), we. split; [reflexivity|].
      rewrite Hfs.
      split; apply (svg_loop_keeps_dirs _ _ _ _ _ _ _ _ Hk Hrun);
        assumption.
Qed.

(** *** The orchestrator *)

Lemma bind_print {B} line (k : unit -> M B) w :
  bind (print line) k w = k tt (printed w line).
Proof. reflexivity. Qed.


End Stages.

(** * Further properties of the pipeline *)

Section MoreStages.

Variable exec : nat -> list string -> node -> run_result * node.

(** ** Any other exception of a call *)

(** X1. In both converting stages, when [subprocess.run] raises anything
    other than [FileNotFoundError] for a file, the stage prints that
    file's error line with the text of the exception and goes on with the
    next file; neither counter changes. *)
Theorem other_exception_policy :
  (forall svg_dir png_dir w pre s post c k w3 e root,
      stage1_reaches exec svg_dir png_dir w pre s post c k w3 ->
      exec (List.length (calls w3)) (magick_argv s (png_of png_dir s)) (fs w3)
      = (Raised e, root) ->
      e <> FileNotFoundError ->
      convert_svgs_to_pngs exec svg_dir png_dir w
      = bind (svg_loop exec png_dir post c k) svg_epilogue
             (printed (called w3 (magick_argv s (png_of png_dir s))
                              (Raised e) root)
                      ("  [ERR] " +:+ name s +:+ " - Error: " +:+ str_exn e)))
  /\
  (forall png_dir dds_dir w pre p post c w3 e root,
      stage2_reaches exec png_dir dds_dir w pre p post c w3 ->
      exec (List.length (calls w3)) (texconv_argv dds_dir p) (fs w3)
      = (Raised e, root) ->
      e <> FileNotFoundError ->
      convert_pngs_to_dds exec png_dir dds_dir w
      = bind (png_loop exec dds_dir post c) (fun x => ret (exit_value x))
             (printed (called w3 (texconv_argv dds_dir p) (Raised e) root)
                      ("  [ERR] " +:+ name p +:+ " - Error: " +:+ str_exn e))).
Proof.
  split.
  - intros svg_dir png_dir w pre s post c k w3 e root
           (r1 & r2 & H1 & H2 & Hg & Hpre & Hex) E He.
    rewrite (stage1_on_listing _ _ _ _ _ _ H1 H2)
      by (rewrite Hg; now destruct pre).
    rewrite Hg. unfold bind. rewrite svg_loop_app, Hpre.
    rewrite (svg_loop_call _ _ _ _ _ _ _ _ _ Hex E).
    destruct e; try reflexivity. congruence.
  - intros png_dir dds_dir w pre p post c w3 e root
           (r & H & Hg & Hpre) E He.
    rewrite (stage2_on_listing _ _ _ _ _ H)
      by (rewrite Hg; now destruct pre).
    rewrite Hg. unfold bind. rewrite png_loop_app, Hpre.
    rewrite (png_loop_call _ _ _ _ _ _ _ _ E).
    destruct e; try reflexivity. congruence.
Qed.

(** ** What stage 1 calls for *)

(** A turn of the vector loop that makes a call: the call is the first of
    those the loop logs, and either it could not be launched and is the
    only one, or the loop went on with the rest. *)
Lemma svg_loop_call_split png_dir s rest c k w r root x w' cs :
  path_exists (png_of png_dir s) (fs w) = false ->
  exec (List.length (calls w)) (magick_argv s (png_of png_dir s)) (fs w)
  = (r, root) ->
  svg_loop exec png_dir (s :: rest) c k w = (Return x, w') ->
  calls w' = calls w ++ cs ->
  exists cs',
    cs = mkcall (magick_argv s (png_of png_dir s)) r :: cs' /\
    ((r = Raised FileNotFoundError /\ cs' = []) \/
     (exists c1 line,
         svg_loop exec png_dir rest c1 k
                  (printed (called w (magick_argv s (png_of png_dir s)) r root)
                           line)
         = (Return x, w') /\
         calls w'
         = calls (printed (called w (magick_argv s (png_of png_dir s)) r root)
                          line) ++ cs')).
Proof.
  intros Hex E Hrun Hcalls.
  rewrite (svg_loop_call _ _ _ _ _ _ _ _ _ Hex E) in Hrun.
  assert (Step : forall c1 line,
             svg_loop exec png_dir rest c1 k
                      (printed (called w (magick_argv s (png_of png_dir s))
                                       r root) line)
             = (Return x, w') ->
             exists cs',
               cs = mkcall (magick_argv s (png_of png_dir s)) r :: cs' /\
               ((r = Raised FileNotFoundError /\ cs' = []) \/
                (exists c1 line,
                    svg_loop exec png_dir rest c1 k
                             (printed (called w (magick_argv s
                                                   (png_of png_dir s)) r root)
                                      line)
                    = (Return x, w') /\
                    calls w'
                    = calls (printed (called w (magick_argv s
                                                  (png_of png_dir s)) r root)
                                     line) ++ cs'))).
  { intros c1 line Hrun1.
    destruct (svg_loop_trace exec png_dir rest c1 k
                (printed (called w (magick_argv s (png_of png_dir s)) r root)
                         line))
      as (x1 & w1 & cs1 & Hrun1' & Hcalls1 & _).
    rewrite Hrun1 in Hrun1'. inversion Hrun1'; subst x1 w1.
    exists cs1. split.
    - pose proof Hcalls1 as Hc. cbn [printed called calls] in Hc.
      rewrite <- app_assoc, Hcalls in Hc. now apply app_inv_head in Hc.
    - right. exists c1, line. split; assumption. }
  destruct r as [rc err|e].
  - destruct (Z.eqb rc 0); eapply Step; exact Hrun.
  - destruct e; try (eapply Step; exact Hrun).
    inversion Hrun; subst x w'. cbn [printed called calls] in Hcalls.
    apply app_inv_head in Hcalls. subst cs. exists []. split; auto.
Qed.

(** The sources the loop calls for are taken from its list, each no more
    often than the list has it. *)
Lemma svg_loop_selects png_dir files : forall c k w x w' cs,
  svg_loop exec png_dir files c k w = (Return x, w') ->
  calls w' = calls w ++ cs ->
  exists sel,
    map argv cs = map (fun s => magick_argv s (png_of png_dir s)) sel /\
    List.length sel <= List.length files /\
    (forall s, count_occ (list_eq_dec string_dec) sel s
               <= count_occ (list_eq_dec string_dec) files s).
Proof.
  induction files as [|s rest IH]; intros c k w x w' cs Hrun Hcalls.
  - simpl in Hrun. inversion Hrun; subst.
    rewrite <- (app_nil_r (calls w')) in Hcalls at 1.
    apply app_inv_head in Hcalls. subst cs. exists []. simpl. auto.
  - destruct (path_exists (png_of png_dir s) (fs w)) eqn:Ex.
    + rewrite (svg_loop_skip _ _ _ _ _ _ _ Ex) in Hrun.
      destruct (IH _ _ _ _ _ _ Hrun Hcalls) as (sel & Hm & Hl & Hc).
      exists sel. split; [exact Hm|]. split; [simpl; lia|].
      intros s0. specialize (Hc s0). simpl.
      destruct (list_eq_dec string_dec s s0); lia.
    + destruct (exec (List.length (calls w))
                     (magick_argv s (png_of png_dir s)) (fs w))
        as [r root] eqn:E.
      destruct (svg_loop_call_split _ _ _ _ _ _ _ _ _ _ _ Ex E Hrun Hcalls)
        as (cs' & -> & [[_ ->]|(c1 & line & Hrun1 & Hcalls1)]).
      * exists [s]. split; [reflexivity|]. split; [simpl; lia|].
        intros s0. simpl. destruct (list_eq_dec string_dec s s0); lia.
      * destruct (IH _ _ _ _ _ _ Hrun1 Hcalls1) as (sel & Hm & Hl & Hc).
        exists (s :: sel). split; [simpl; now rewrite Hm|].
        split; [simpl; lia|].
        intros s0. specialize (Hc s0). simpl.
        destruct (list_eq_dec string_dec s s0); lia.
Qed.

Lemma magick_argv_inj_on svg_dir png_dir pat root p q :
  In p (glob_in svg_dir pat root) -> In q (glob_in svg_dir pat root) ->
  magick_argv p (png_of png_dir p) = magick_argv q (png_of png_dir q) ->
  p = q.
Proof.
  intros Hp Hq H.
  destruct (glob_in_child _ _ _ _ Hp) as (c & -> & _).
  destruct (glob_in_child _ _ _ _ Hq) as (c' & -> & _).
  assert (Hstr := f_equal (fun l => nth 3 l "") H). simpl in Hstr.
  now rewrite (str_child_inj _ _ _ Hstr).
Qed.

(** X2. Whatever the rasterizing program does, stage 1 (its directories
    made) returns the number of its calls that exited with status 0.  It
    calls for listed sources only, never for more of them than it lists,
    and for none of them twice. *)
Theorem stage1_calls_each_source_at_most_once
        (svg_dir png_dir : path) (w : World) (r1 r2 : node) :
  mkdir_p svg_dir (fs w) = inr r1 ->
  mkdir_p png_dir r1 = inr r2 ->
  exists n w' cs sel,
    convert_svgs_to_pngs exec svg_dir png_dir w = (Return n, w') /\
    calls w' = calls w ++ cs /\
    n = List.length (filter succeeded cs) /\
    map argv cs = map (fun s => magick_argv s (png_of png_dir s)) sel /\
    incl sel (glob_in svg_dir "*.svg" r2) /\
    List.length cs <= List.length (glob_in svg_dir "*.svg" r2) /\
    (NoDup (scandir svg_dir r2) -> NoDup (map argv cs)).
Proof.
  intros H1 H2.
  destruct (glob_in svg_dir "*.svg" r2) as [|s0 l0] eqn:Hg.
  - rewrite (stage1_on_empty_listing _ _ _ _ _ _ H1 H2 Hg).
    eexists 0, _, [], []. cbn [calls]. rewrite app_nil_r.
    repeat split; trivial.
    + intros s [].
    + intros _. constructor.
  - rewrite (stage1_on_listing _ _ _ _ _ _ H1 H2)
      by (rewrite Hg; discriminate).
    unfold bind.
    destruct (svg_loop_trace exec png_dir (glob_in svg_dir "*.svg" r2) 0 0
                             (mkWorld r2 (stdout w) (calls w)))
      as (x & wl & cs & Hrun & Hcalls & Hval & _).
    rewrite Hrun.
    destruct (svg_epilogue_world x wl) as (we & He & _ & Hca).
    rewrite He.
    destruct (svg_loop_selects _ _ _ _ _ _ _ _ Hrun Hcalls)
      as (sel & Hm & Hl & Hc).
    assert (Hincl : incl sel (glob_in svg_dir "*.svg" r2)).
    { intros s Hs.
      apply (count_occ_In (list_eq_dec string_dec)) in Hs.
      apply (count_occ_In (list_eq_dec string_dec)).
      specialize (Hc s). lia. }
    exists (exit_value x), we, cs, sel. cbn [calls] in Hcalls.
    rewrite <- Hg. repeat split; trivial.
    + now rewrite Hca.
    + rewrite <- (length_map argv), Hm, length_map. exact Hl.
    + intros Hnd. rewrite Hm. apply NoDup_map_on.
      * intros p q Hp Hq. apply magick_argv_inj_on with (root := r2)
                            (svg_dir := svg_dir) (pat := "*.svg"); auto.
      * apply (NoDup_count_occ (list_eq_dec string_dec)). intros s.
        pose proof (glob_in_NoDup svg_dir "*.svg" r2 Hnd) as Hl'.
        rewrite (NoDup_count_occ (list_eq_dec string_dec)) in Hl'.
        specialize (Hc s). specialize (Hl' s). lia.
Qed.

(** ** The orchestrator runs the stages in sequence *)

Lemma oblivious_copy2 src dst : oblivious (shutil_copy2 src dst).
Proof.
  intros w w' [Hf Hc]. unfold shutil_copy2, io_eq. rewrite Hf.
  destruct (copy2 src dst (fs w')); simpl; auto.
Qed.

Lemma oblivious_copy_loop mod_dir files :
  forall c, oblivious (copy_loop mod_dir files c).
Proof.
  induction files as [|p rest IH]; intros c; cbn [copy_loop].
  - apply oblivious_ret.
  - apply oblivious_bind; [apply oblivious_copy2|intros _].
    apply oblivious_bind; [apply oblivious_print|intros _; apply IH].
Qed.

Lemma oblivious_stage3 png_dir dds_dir mod_dir :
  oblivious (copy_to_mod_folder png_dir dds_dir mod_dir).
Proof.
  unfold copy_to_mod_folder.
  apply oblivious_bind; [apply oblivious_mkdir|intros _].
  apply oblivious_bind; [apply oblivious_print|intros _].
  apply oblivious_bind; [apply oblivious_glob|intros files].
  apply oblivious_copy_loop.
Qed.

(** A statement that does not look at what has been printed, run after
    more has been printed. *)
Lemma oblivious_run_from {A} (m : M A) w wa :
  oblivious m -> io_eq wa w ->
  exists wb, m wa = (fst (m w), wb) /\ io_eq wb (snd (m w)).
Proof.
  intros Hm Hio. destruct (Hm wa w Hio) as [Ho Hw].
  exists (snd (m wa)). split; [|exact Hw].
  rewrite <- Ho. now destruct (m wa).
Qed.

Lemma io_eq_printed w w' line : io_eq w w' -> io_eq (printed w line) w'.
Proof. intros [Hf Hc]. split; assumption. Qed.

(** [main], one stage after the other. *)
Lemma main_unfold script_dir mod_textures_dir w :
  main exec script_dir mod_textures_dir w
  = match convert_svgs_to_pngs exec (child script_dir "svg")
                               (child script_dir "pngs")
            (printed
               (printed
                  (printed
                     (printed (printed w (repeat_char "=" 60))
                              "Icon DDS Converter & Deployer")
                     (repeat_char "=" 60))
                  (newline +:+ "[1/3] SVG -> PNG conversion"))
               (repeat_char "-" 40)) with
    | (Raise e, wa) => (Raise e, wa)
    | (Return svg_count, wa) =>
        match convert_pngs_to_dds exec (child script_dir "pngs")
                                  (child script_dir "dds")
                (printed (printed wa (newline +:+ "[2/3] PNG -> DDS conversion"))
                         (repeat_char "-" 40)) with
        | (Raise e, wb) => (Raise e, wb)
        | (Return dds_count, wb) =>
            match copy_to_mod_folder (child script_dir "pngs")
                                     (child script_dir "dds") mod_textures_dir
                    (printed (printed wb (newline
                                          +:+ "[3/3] Deploy to mod folder"))
                             (repeat_char "-" 40)) with
            | (Raise e, wc) => (Raise e, wc)
            | (Return copy_count, wc) =>
                (Return tt,
                 printed
                   (printed
                      (printed wc (newline +:+ repeat_char "=" 60))
                      ("Done! Converted " +:+ str_nat svg_count +:+ " SVGs, "
                       +:+ str_nat dds_count +:+ " DDS files, copied "
                       +:+ str_nat copy_count +:+ " total files."))
                   (repeat_char "=" 60))
            end
        end
    end.
Proof.
  unfold main. rewrite !bind_print. unfold bind at 1.
  destruct (convert_svgs_to_pngs _ _ _ _) as [[n1|e1] wa]; [|reflexivity].
  rewrite !bind_print. unfold bind at 1.
  destruct (convert_pngs_to_dds _ _ _ _) as [[n2|e2] wb]; [|reflexivity].
  rewrite !bind_print. unfold bind at 1.
  destruct (copy_to_mod_folder _ _ _ _) as [[n3|e3] wc]; reflexivity.
Qed.

(** X3. [main] is the three stages one after the other, each started in
    the filesystem and call log the one before left: it raises what the
    first stage to raise raises, skipping the later stages, and returns
    when all three return.  What [main] prints in between steers none of
    them, and [main] itself touches neither the filesystem nor the call
    log. *)
Theorem main_runs_the_stages_in_sequence
        (script_dir mod_textures_dir : path) (w : World) :
  let stage1 := convert_svgs_to_pngs exec (child script_dir "svg")
                                     (child script_dir "pngs") in
  let stage2 := convert_pngs_to_dds exec (child script_dir "pngs")
                                    (child script_dir "dds") in
  let stage3 := copy_to_mod_folder (child script_dir "pngs")
                                   (child script_dir "dds")
                                   mod_textures_dir in
  let w1 := world_after stage1 w in
  let w2 := world_after stage2 w1 in
  let w3 := world_after stage3 w2 in
  fst (main exec script_dir mod_textures_dir w)
  = match fst (stage1 w), fst (stage2 w1), fst (stage3 w2) with
    | Raise e, _, _ => Raise e
    | Return _, Raise e, _ => Raise e
    | Return _, Return _, Raise e => Raise e
    | Return _, Return _, Return _ => Return tt
    end
  /\
  io_eq (world_after (main exec script_dir mod_textures_dir) w)
        match fst (stage1 w), fst (stage2 w1) with
        | Raise _, _ => w1
        | Return _, Raise _ => w2
        | Return _, Return _ => w3
        end.
Proof.
  intros stage1 stage2 stage3 w1 w2 w3.
  unfold world_after at 1. rewrite main_unfold.
  fold stage1 stage2 stage3.
  match goal with
  | |- context [stage1 ?wa] =>
      destruct (oblivious_run_from stage1 w wa
                  (oblivious_stage1 exec _ _)
                  ltac:(repeat apply io_eq_printed; split; reflexivity))
        as (wa1 & -> & Hio1)
  end.
  fold (world_after stage1 w) in Hio1. fold w1 in Hio1.
  destruct (fst (stage1 w)) as [n1|e1]; [|split; [reflexivity|exact Hio1]].
  match goal with
  | |- context [stage2 ?wb] =>
      destruct (oblivious_run_from stage2 w1 wb
                  (oblivious_stage2 exec _ _)
                  ltac:(repeat apply io_eq_printed; exact Hio1))
        as (wb1 & -> & Hio2)
  end.
  fold (world_after stage2 w1) in Hio2. fold w2 in Hio2.
  destruct (fst (stage2 w1)) as [n2|e2]; [|split; [reflexivity|exact Hio2]].
  match goal with
  | |- context [stage3 ?wc] =>
      destruct (oblivious_run_from stage3 w2 wc
                  (oblivious_stage3 _ _ _)
                  ltac:(repeat apply io_eq_printed; exact Hio2))
        as (wc1 & -> & Hio3)
  end.
  fold (world_after stage3 w2) in Hio3. fold w3 in Hio3.
  destruct (fst (stage3 w2)) as [n3|e3]; split; try reflexivity.
  - cbn [snd]. repeat apply io_eq_printed. exact Hio3.
  - exact Hio3.
Qed.

(** X4. When the three stages return [n1], [n2] and [n3], the last three
    lines [main] prints are the closing banner with exactly these three
    numbers in the summary line. *)
Theorem main_reports_the_stage_counts
        (script_dir mod_textures_dir : path) (w : World) (n1 n2 n3 : nat) :
  let stage1 := convert_svgs_to_pngs exec (child script_dir "svg")
                                     (child script_dir "pngs") in
  let stage2 := convert_pngs_to_dds exec (child script_dir "pngs")
                                    (child script_dir "dds") in
  let stage3 := copy_to_mod_folder (child script_dir "pngs")
                                   (child script_dir "dds")
                                   mod_textures_dir in
  let w1 := world_after stage1 w in
  let w2 := world_after stage2 w1 in
  fst (stage1 w) = Return n1 ->
  fst (stage2 w1) = Return n2 ->
  fst (stage3 w2) = Return n3 ->
  exists out,
    stdout (world_after (main exec script_dir mod_textures_dir) w)
    = out ++ [newline +:+ repeat_char "=" 60;
              "Done! Converted " +:+ str_nat n1 +:+ " SVGs, "
              +:+ str_nat n2 +:+ " DDS files, copied "
              +:+ str_nat n3 +:+ " total files.";
              repeat_char "=" 60].
Proof.
  intros stage1 stage2 stage3 w1 w2 H1 H2 H3.
  unfold world_after at 1. rewrite main_unfold.
  fold stage1 stage2 stage3.
  match goal with
  | |- context [stage1 ?wa] =>
      destruct (oblivious_run_from stage1 w wa
                  (oblivious_stage1 exec _ _)
                  ltac:(repeat apply io_eq_printed; split; reflexivity))
        as (wa1 & -> & Hio1)
  end.
  fold (world_after stage1 w) in Hio1. fold w1 in Hio1. rewrite H1.
  match goal with
  | |- context [stage2 ?wb] =>
      destruct (oblivious_run_from stage2 w1 wb
                  (oblivious_stage2 exec _ _)
                  ltac:(repeat apply io_eq_printed; exact Hio1))
        as (wb1 & -> & Hio2)
  end.
  fold (world_after stage2 w1) in Hio2. fold w2 in Hio2. rewrite H2.
  match goal with
  | |- context [stage3 ?wc] =>
      destruct (oblivious_run_from stage3 w2 wc
                  (oblivious_stage3 _ _ _)
                  ltac:(repeat apply io_eq_printed; exact Hio2))
        as (wc1 & -> & Hio3)
  end.
  rewrite H3. cbn [snd printed stdout].
  exists (stdout wc1). now rewrite <- !app_assoc.
Qed.

(** ** Where the script deploys to *)

Lemma same_length_prefix (p q : path) :
  List.length p = List.length q -> is_prefix p q = true -> p = q.
Proof.
  intros L H. apply is_prefix_spec in H. destruct H as [r Hr].
  assert (Hl : List.length q = List.length (p ++ r)) by now rewrite Hr.
  rewrite length_app in Hl. destruct r; simpl in Hl; [|lia].
  now rewrite app_nil_r in Hr.
Qed.

(** X5. The destination the script computes when it is loaded.  With
    fewer than four directories above the script, [parents[3]] raises
    [IndexError] and nothing is printed or touched.  Otherwise the
    destination is [papyrus/mods/VR Editor/textures/VREditor] under the
    directory four levels up, and it is apart from every entry of the
    script's directory not named [VREditor], so from the three working
    directories [svg], [pngs] and [dds]: none of them is the destination,
    inside it or above it. *)
Theorem script_destination_is_apart (script_dir : path) (w : World) :
  match MOD_TEXTURES_DIR script_dir with
  | None =>
      List.length script_dir < 4 /\
      run_script exec script_dir w = (Raise IndexError, w)
  | Some m =>
      (exists project_root below,
          script_dir = project_root ++ below /\ List.length below = 4 /\
          m = project_root
              ++ ["papyrus"; "mods"; "VR Editor"; "textures"; "VREditor"]) /\
      run_script exec script_dir w = main exec script_dir m w /\
      forall c, c <> "VREditor" -> unrelated m (child script_dir c)
  end.
Proof.
  unfold run_script, MOD_TEXTURES_DIR, parents.
  destruct (Nat.ltb 3 (List.length script_dir)) eqn:E.
  - apply Nat.ltb_lt in E.
    set (root := firstn (List.length script_dir - 4) script_dir).
    assert (Hlen : List.length root = List.length script_dir - 4)
      by (unfold root; rewrite length_firstn; lia).
    split; [|split; [reflexivity|]].
    + exists root, (skipn (List.length script_dir - 4) script_dir).
      split; [symmetry; apply firstn_skipn|].
      split; [rewrite length_skipn; lia|reflexivity].
    + intros c Hc.
      assert (Hl : List.length
                     (root ++ ["papyrus"; "mods"; "VR Editor"; "textures";
                               "VREditor"])
                   = List.length (child script_dir c)).
      { unfold child. rewrite !length_app. simpl. lia. }
      assert (Hne : root ++ ["papyrus"; "mods"; "VR Editor"; "textures";
                             "VREditor"]
                    <> child script_dir c).
      { intros Heq. unfold child in Heq.
        change (root ++ ["papyrus"; "mods"; "VR Editor"; "textures";
                         "VREditor"])
          with (root ++ ["papyrus"; "mods"; "VR Editor"; "textures"]
                     ++ ["VREditor"]) in Heq.
        rewrite app_assoc in Heq. apply app_inj_tail in Heq.
        destruct Heq as [_ Heq]. congruence. }
      split.
      * destruct (is_prefix _ (child script_dir c)) eqn:P; [|reflexivity].
        now apply same_length_prefix in P.
      * destruct (is_prefix (child script_dir c) _) eqn:P; [|reflexivity].
        apply same_length_prefix in P; [congruence|now symmetry].
  - apply Nat.ltb_ge in E. split; [lia|reflexivity].
Qed.

(** ** When the deployment loop meets an entry it cannot copy *)

Lemma entry_listed c es : In c (map fst es) -> exists n, entry c es = Some n.
Proof.
  induction es as [|[c' n'] es IH]; simpl; [intros []|].
  intros [->|Hin].
  - rewrite String.eqb_refl. eauto.
  - destruct (String.eqb c c'); eauto.
Qed.

(** What [os.scandir] lists is there. *)
Lemma scandir_lookup d c root :
  In c (scandir d root) -> exists n, lookup (child d c) root = Some n.
Proof.
  unfold scandir, child. rewrite lookup_app.
  destruct (lookup d root) as [[f|es]|]; try (intros []).
  intros Hin. destruct (entry_listed _ _ Hin) as [n Hn].
  exists n. simpl. now rewrite Hn.
Qed.

(** One turn of the deployment loop. *)
Lemma copy_loop_step mod_dir p rest copied w :
  copy_loop mod_dir (p :: rest) copied w
  = match copy2 p (child mod_dir (name p)) (fs w) with
    | inl e => (Raise e, w)
    | inr root =>
        copy_loop mod_dir rest (S copied)
                  (printed (mkWorld root (stdout w) (calls w))
                           ("  [OK] " +:+ name p +:+ " (DDS)"))
    end.
Proof.
  cbn [copy_loop]. unfold bind at 1, shutil_copy2.
  destruct (copy2 p _ (fs w)); reflexivity.
Qed.

Lemma copy_loop_app mod_dir pre post : forall copied w,
  copy_loop mod_dir (pre ++ post) copied w
  = match copy_loop mod_dir pre copied w with
    | (Return copied', w') => copy_loop mod_dir post copied' w'
    | (Raise e, w') => (Raise e, w')
    end.
Proof.
  induction pre as [|p pre IH]; intros copied w; [reflexivity|].
  rewrite <- app_comm_cons, !copy_loop_step.
  destruct (copy2 p _ (fs w)); [reflexivity|apply IH].
Qed.

(** The lines of a deployment loop that runs through. *)
Lemma copy_loop_prints mod_dir files : forall copied w n w',
  copy_loop mod_dir files copied w = (Return n, w') ->
  stdout w'
  = stdout w ++ map (fun p => "  [OK] " +:+ name p +:+ " (DDS)") files.
Proof.
  induction files as [|p rest IH]; intros copied w n w' H.
  - inversion H; subst. simpl. now rewrite app_nil_r.
  - rewrite copy_loop_step in H.
    destruct (copy2 p _ (fs w)) as [e|root]; [discriminate|].
    rewrite (IH _ _ _ _ H). cbn [printed stdout map].
    now rewrite <- app_assoc.
Qed.

(** Copies add and replace files; no directory goes away. *)
Lemma copy_loop_dir_stays mod_dir q files : forall copied w n w',
  copy_loop mod_dir files copied w = (Return n, w') ->
  is_dir q (fs w) = true -> is_dir q (fs w') = true.
Proof.
  induction files as [|p rest IH]; intros copied w n w' H Hq.
  - now inversion H; subst.
  - rewrite copy_loop_step in H.
    destruct (copy2 p _ (fs w)) as [e|root] eqn:C; [discriminate|].
    apply (IH _ _ _ _ H). cbn [printed fs].
    unfold copy2 in C.
    destruct (_ && _); [discriminate|].
    destruct (lookup p (fs w)) as [[f|es]|]; try discriminate.
    apply (write_file_dir_stays _ _ _ _ _ C Hq).
Qed.

(** [copy2] on a directory of the source. *)
Lemma copy2_of_directory dds_dir mod_dir c root :
  mod_dir <> dds_dir ->
  is_dir (child dds_dir c) root = true ->
  copy2 (child dds_dir c) (child mod_dir (name (child dds_dir c))) root
  = inl (if path_eqb dds_dir (child mod_dir c)
         then SameFileError else IsADirectoryError).
Proof.
  intros Hne Hd. unfold copy2. rewrite name_child.
  assert (Hex : path_exists (child dds_dir c) root = true).
  { unfold path_exists. unfold is_dir in Hd.
    destruct (lookup (child dds_dir c) root); [reflexivity|discriminate]. }
  rewrite Hex, andb_true_r.
  destruct (path_eqb dds_dir (child mod_dir c)) eqn:E.
  - apply path_eqb_eq in E.
    assert (Hm : is_dir (child mod_dir c) root = true).
    { rewrite <- E. unfold is_dir, child in *. rewrite lookup_app in Hd.
      destruct (lookup dds_dir root) as [[f|es]|]; simpl in Hd;
        try discriminate; reflexivity. }
    rewrite Hm, <- E.
    replace (path_eqb (child dds_dir c) (child dds_dir c)) with true
      by (symmetry; now apply path_eqb_eq).
    reflexivity.
  - assert (Hn : path_eqb (child dds_dir c)
                          (if is_dir (child mod_dir c) root
                           then child (child mod_dir c) c
                           else child mod_dir c) = false).
    { destruct (path_eqb (child dds_dir c) _) eqn:P; [|reflexivity].
      apply path_eqb_eq in P.
      destruct (is_dir (child mod_dir c) root);
        apply child_dir_inj in P; destruct P as [P _].
      - subst dds_dir.
        replace (path_eqb (child mod_dir c) (child mod_dir c)) with true in E
          by (symmetry; now apply path_eqb_eq).
        discriminate.
      - congruence. }
    rewrite Hn. unfold is_dir in Hd.
    destruct (lookup (child dds_dir c) root) as [[f|es]|];
      try discriminate; reflexivity.
Qed.

(** X6. The deployment loop has no handler: when an entry named
    [*.dds] is a directory, [shutil.copy2] raises there and the stage
    ends with that exception, [IsADirectoryError] (or [SameFileError]
    when the source directory is itself the destination's entry of that
    name).  The files listed before it are deployed and reported, the
    directory and the entries after it are not, and no count comes
    back. *)
Theorem deployment_stops_at_a_directory
        (png_dir dds_dir mod_dir : path) (w : World) (root : node)
        (pre : list string) (c : string) (post : list string) :
  mkdir_p mod_dir (fs w) = inr root ->
  mod_dir <> dds_dir ->
  filter (fnmatch "*.dds") (scandir dds_dir root) = pre ++ c :: post ->
  Forall (fun c' =>
            (exists f, lookup (child dds_dir c') root = Some (File f)) /\
            is_dir (child mod_dir c') root = false) pre ->
  is_dir (child dds_dir c) root = true ->
  exists w',
    copy_to_mod_folder png_dir dds_dir mod_dir w
    = (Raise (if path_eqb dds_dir (child mod_dir c)
              then SameFileError else IsADirectoryError), w') /\
    stdout w'
    = stdout w
      ++ (newline +:+ "Copying files to mod folder: " +:+ str mod_dir)
      :: map (fun c' => "  [OK] " +:+ c' +:+ " (DDS)") pre /\
    calls w' = calls w /\
    (forall c', In c' pre ->
                lookup (child mod_dir c') (fs w')
                = lookup (child dds_dir c') root) /\
    (forall q, (forall c', In c' pre ->
                           is_prefix q (child mod_dir c') = false) ->
               lookup q (fs w') = lookup q root).
Proof.
  intros Hm Hne Hg Hpre Hdir. unfold copy_to_mod_folder.
  rewrite (bind_return _ _ _ _ _ (mkdir_ok _ _ _ Hm)).
  unfold bind at 1, print. cbn [fs stdout calls].
  unfold bind at 1, glob. cbn [fs stdout calls].
  unfold glob_in. rewrite Hg, map_app. cbn [map].
  rewrite copy_loop_app.
  match goal with
  | |- context [copy_loop mod_dir _ 0 ?w1] =>
      destruct (copy_loop_spec _ _ Hne pre 0 w1
                               (mkdir_p_is_dir _ _ _ Hm) Hpre)
        as (w' & Hrun & Hcalls & Hcopy & Hframe)
  end.
  rewrite Hrun. cbn [fs stdout calls] in *.
  exists w'. rewrite copy_loop_step.
  rewrite (copy2_of_directory _ _ _ _ Hne
             (copy_loop_dir_stays _ _ _ _ _ _ _ Hrun Hdir)).
  repeat split; trivial.
  rewrite (copy_loop_prints _ _ _ _ _ _ Hrun). cbn [stdout].
  rewrite <- app_assoc, map_map. cbn [app]. do 2 f_equal.
  apply map_ext. intros a. now rewrite name_child.
Qed.

(** X7. Deploying into the compressed-output directory itself never
    copies anything: at the first listed entry [shutil.copy2] raises
    [SameFileError] for a file ([IsADirectoryError] for a directory), the
    stage ends with it after the one line that names the destination, and
    the filesystem is as [mkdir] left it. *)
Theorem deploying_into_the_source_directory_fails
        (png_dir dds_dir : path) (w : World) (root : node)
        (c : string) (rest : list string) :
  mkdir_p dds_dir (fs w) = inr root ->
  filter (fnmatch "*.dds") (scandir dds_dir root) = c :: rest ->
  copy_to_mod_folder png_dir dds_dir dds_dir w
  = (Raise (if is_dir (child dds_dir c) root
            then IsADirectoryError else SameFileError),
     printed (mkWorld root (stdout w) (calls w))
             (newline +:+ "Copying files to mod folder: " +:+ str dds_dir)).
Proof.
  intros Hm Hg. unfold copy_to_mod_folder.
  rewrite (bind_return _ _ _ _ _ (mkdir_ok _ _ _ Hm)).
  unfold bind at 1, print. cbn [fs stdout calls].
  unfold bind at 1, glob. cbn [fs stdout calls].
  unfold glob_in. rewrite Hg. cbn [map].
  rewrite copy_loop_step. cbn [fs]. unfold copy2.
  rewrite name_child.
  assert (Hin : In c (scandir dds_dir root)).
  { assert (H : In c (filter (fnmatch "*.dds") (scandir dds_dir root)))
      by (rewrite Hg; now left).
    now apply filter_In in H. }
  destruct (scandir_lookup _ _ _ Hin) as [n Hn].
  unfold is_dir, path_exists. rewrite Hn.
  destruct n as [f|es].
  - replace (path_eqb (child dds_dir c) (child dds_dir c)) with true
      by (symmetry; now apply path_eqb_eq).
    reflexivity.
  - replace (path_eqb (child dds_dir c) (child (child dds_dir c) c))
      with false.
    + reflexivity.
    + symmetry. destruct (path_eqb _ _) eqn:P; [|reflexivity].
      apply path_eqb_eq in P.
      assert (L := f_equal (@List.length string) P).
      unfold child in L. rewrite !length_app in L. simpl in L. lia.
Qed.

End MoreStages.

(** * The raster a source is given *)

Lemma string_length_app (s t : string) :
  String.length (s +:+ t) = String.length s + String.length t.
Proof. induction s as [|c s IH]; simpl; [reflexivity|now rewrite IH]. Qed.

Lemma append_inv_tail (t s s' : string) : s +:+ t = s' +:+ t -> s = s'.
Proof.
  revert s'. induction s as [|c s IH]; intros [|c' s'] H.
  - reflexivity.
  - apply (f_equal String.length) in H. simpl in H.
    rewrite string_length_app in H. lia.
  - apply (f_equal String.length) in H. simpl in H.
    rewrite string_length_app in H. lia.
  - simpl in H. inversion H. f_equal. now apply IH.
Qed.

Lemma string_app_assoc (a b c : string) : (a +:+ b) +:+ c = a +:+ b +:+ c.
Proof. induction a as [|x a IH]; simpl; [reflexivity|now rewrite IH]. Qed.

Lemma fnmatch_literal_svg nm : fnmatch ".svg" nm = true -> nm = ".svg".
Proof. intros H. literal_match H nm. Qed.

(** The names [*.svg] lets through are those that end in [.svg]. *)
Lemma svg_name_suffix nm :
  fnmatch "*.svg" nm = true -> exists s, nm = s +:+ ".svg".
Proof.
  induction nm as [|ch nm IH]; intros H; [discriminate|].
  rewrite fnmatch_star_step in H. apply orb_true_iff in H.
  destruct H as [H|H].
  - apply fnmatch_literal_svg in H. exists "". exact H.
  - destruct (IH H) as [s ->]. now exists (String ch s).
Qed.

(** The last dot of [s.svg] is the one of the extension. *)
Lemma rfind_dot_svg s : forall i,
  rfind_dot (s +:+ ".svg") i = Some (i + String.length s).
Proof.
  induction s as [|c s IH]; intros i.
  - simpl. now rewrite Nat.add_0_r.
  - cbn [String.append rfind_dot]. rewrite IH. simpl. f_equal. lia.
Qed.

Lemma substring_prefix s t : substring 0 (String.length s) (s +:+ t) = s.
Proof.
  induction s as [|c s IH]; simpl; [now destruct t|now rewrite IH].
Qed.

(** [Path.stem] of a name that ends in [.svg]: the extension goes, unless
    nothing would be left. *)
Lemma stem_svg s :
  stem (s +:+ ".svg") = if String.eqb s "" then ".svg" else s.
Proof.
  unfold stem. rewrite rfind_dot_svg, string_length_app, Nat.add_0_l.
  destruct s as [|c s]; [reflexivity|].
  assert (H1 : Nat.ltb 0 (String.length (String c s)) = true)
    by (apply Nat.ltb_lt; simpl; lia).
  assert (H2 : Nat.ltb (String.length (String c s))
                       (String.length (String c s) + String.length ".svg" - 1)
               = true)
    by (apply Nat.ltb_lt; simpl; lia).
  rewrite H1, H2. cbn [andb String.eqb]. apply substring_prefix.
Qed.

(** X8. The raster of a listed source [s.svg] is [s.png] in the raster
    directory, and [.svg.png] for the source named just [.svg].  Two listed
    sources get two different rasters, with one exception: [.svg] and
    [.svg.svg] share [.svg.png]. *)
Theorem rasters_of_listed_sources
        (svg_dir png_dir : path) (root : node) (p q : path) :
  In p (glob_in svg_dir "*.svg" root) ->
  In q (glob_in svg_dir "*.svg" root) ->
  (exists s,
      p = child svg_dir (s +:+ ".svg") /\
      png_of png_dir p
      = child png_dir (if String.eqb s "" then ".svg.png" else s +:+ ".png"))
  /\
  (png_of png_dir p = png_of png_dir q ->
   p = q \/
   (name p = ".svg" /\ name q = ".svg.svg") \/
   (name p = ".svg.svg" /\ name q = ".svg")).
Proof.
  intros Hp Hq.
  assert (Hform : forall x, In x (glob_in svg_dir "*.svg" root) ->
            exists s, x = child svg_dir (s +:+ ".svg") /\
                      stem (name x)
                      = if String.eqb s "" then ".svg" else s).
  { intros x Hx. unfold glob_in in Hx. apply in_map_iff in Hx.
    destruct Hx as (nm & <- & Hnm). apply filter_In in Hnm.
    destruct Hnm as [_ Hnm]. destruct (svg_name_suffix _ Hnm) as [s ->].
    exists s. split; [reflexivity|]. rewrite name_child. apply stem_svg. }
  destruct (Hform p Hp) as (s & Ep & Sp).
  destruct (Hform q Hq) as (t & Eq & Sq).
  split.
  - exists s. split; [exact Ep|]. unfold png_of. rewrite Sp.
    now destruct (String.eqb s "").
  - unfold png_of. rewrite Sp, Sq. intros H. apply child_inj in H.
    apply append_inv_tail in H. rewrite Ep, Eq, !name_child.
    destruct (String.eqb s "") eqn:Es, (String.eqb t "") eqn:Et.
    + apply String.eqb_eq in Es, Et. subst. now left.
    + apply String.eqb_eq in Es. subst. right. left. now split.
    + apply String.eqb_eq in Et. subst. right. right. now split.
    + subst. now left.
Qed.

(** * The recolouring script *)

(** ** Finding and replacing *)

Lemma startswith_refl_app (p r : string) : startswith p (p +:+ r) = true.
Proof.
  induction p as [|a p IH]; simpl; [reflexivity|].
  now rewrite Ascii.eqb_refl.
Qed.

Lemma startswith_decompose (p : string) : forall s,
  startswith p s = true -> exists r, s = p +:+ r.
Proof.
  induction p as [|a p IH]; intros s H; [now exists s|].
  destruct s as [|b s]; [discriminate|]. simpl in H.
  apply andb_true_iff in H. destruct H as [Hab H].
  apply Ascii.eqb_eq in Hab. subst b.
  destruct (IH _ H) as [r ->]. now exists r.
Qed.

Lemma startswith_length (p : string) : forall s,
  startswith p s = true -> String.length p <= String.length s.
Proof.
  intros s H. destruct (startswith_decompose _ _ H) as [r ->].
  rewrite string_length_app. lia.
Qed.

(** Against a text that begins with a string of its own length, a
    pattern matches when it is that string. *)
Lemma startswith_same_length (p : string) : forall t x,
  String.length p = String.length t ->
  startswith p (t +:+ x) = String.eqb p t.
Proof.
  induction p as [|a p IH]; intros [|b t] x L; try discriminate;
    [reflexivity|].
  simpl. destruct (Ascii.eqb a b); [|reflexivity].
  apply IH. now inversion L.
Qed.

Lemma contains_tail p c s : contains p s = true -> contains p (String c s) = true.
Proof. intros H. cbn [contains]. rewrite H. apply orb_true_r. Qed.

Lemma contains_cons p c s :
  contains p (String c s) = startswith p (String c s) || contains p s.
Proof. reflexivity. Qed.

(** The characters of an occurrence that has been replaced are passed
    over. *)
Lemma replace_from_skip old new a : forall x,
  replace_from old new (String.length a) (a +:+ x) = replace_from old new 0 x.
Proof.
  induction a as [|c a IH]; intros x; [reflexivity|].
  simpl. apply IH.
Qed.

(** Where [old] begins the text, [new] begins the result. *)
Lemma replace_from_match c b new x :
  replace_from (String c b) new 0 (String c b +:+ x)
  = new +:+ replace_from (String c b) new 0 x.
Proof.
  change (String c b +:+ x) with (String c (b +:+ x)).
  cbn [replace_from].
  change (String c (b +:+ x)) with (String c b +:+ x).
  rewrite startswith_refl_app. cbn [String.length].
  rewrite Nat.sub_succ, Nat.sub_0_r. now rewrite replace_from_skip.
Qed.

(** Where [old] does not begin the text, the first character stays. *)
Lemma replace_from_other old new c s :
  startswith old (String c s) = false ->
  replace_from old new 0 (String c s)
  = String c (replace_from old new 0 s).
Proof. intros H. cbn [replace_from]. now rewrite H. Qed.

(** A text without [old] is left as it is. *)
Lemma replace_from_absent old new : forall s,
  contains old s = false -> replace_from old new 0 s = s.
Proof.
  induction s as [|c s IH]; intros H; [reflexivity|].
  rewrite contains_cons in H. apply orb_false_iff in H.
  destruct H as [H1 H2].
  rewrite (replace_from_other _ _ _ _ H1). now rewrite IH.
Qed.

(** Replacing by a string of the same length keeps the length. *)
Lemma replace_from_length old new :
  old <> "" -> String.length old = String.length new ->
  forall s k, k <= String.length s ->
              String.length (replace_from old new k s) + k = String.length s.
Proof.
  intros Hne Hlen. induction s as [|c s IH]; intros k Hk.
  - simpl in *. lia.
  - destruct k as [|k]; cbn [replace_from].
    + destruct (startswith old (String c s)) eqn:E.
      * apply startswith_length in E. cbn [String.length] in E.
        assert (Ho : 0 < String.length old)
          by (destruct old; [congruence|simpl; lia]).
        rewrite string_length_app. cbn [String.length].
        specialize (IH (String.length old - 1) ltac:(lia)). lia.
      * cbn [String.length]. specialize (IH 0 ltac:(lia)). lia.
    + cbn [String.length] in *. specialize (IH k ltac:(lia)). lia.
Qed.

(** ** Colours

    A colour is a [#] and a body without [#].  Nothing of what follows
    needs the bodies to be hexadecimal digits. *)

Lemma hashfree_cons c s :
  hashfree (String c s) = true ->
  Ascii.eqb "#" c = false /\ hashfree s = true.
Proof.
  cbn [hashfree]. intros H. apply andb_true_iff in H.
  destruct H as [H1 H2].
  split; [|exact H2]. apply negb_true_iff in H1.
  rewrite Ascii.eqb_sym. exact H1.
Qed.

Section Colour.

(** The bodies of the colour looked for and of the colour written. *)
Variables bo bn : string.
Hypothesis Hbo : hashfree bo = true.
Hypothesis Hbn : hashfree bn = true.
Hypothesis Hlen : String.length bo = String.length bn.

(** A colour begins at a [#] only. *)
Lemma colour_starts_with_hash b c s :
  startswith (String "#" b) (String c s) = true -> c = "#"%char.
Proof.
  cbn [startswith]. intros H. apply andb_true_iff in H.
  destruct H as [H _].
  apply Ascii.eqb_eq in H. now subst.
Qed.

(** A text without [#] passes through a replacement. *)
Lemma replace_passes_body b : forall x,
  hashfree b = true ->
  replace_from (String "#" bo) (String "#" bn) 0 (b +:+ x)
  = b +:+ replace_from (String "#" bo) (String "#" bn) 0 x.
Proof.
  induction b as [|c b IH]; intros x H; [reflexivity|].
  apply hashfree_cons in H. destruct H as [Hc H].
  change (String c b +:+ x) with (String c (b +:+ x)).
  rewrite replace_from_other.
  - now rewrite IH.
  - cbn [startswith]. now rewrite Hc.
Qed.

(** So does another colour of the same length. *)
Lemma replace_passes_colour b x :
  hashfree b = true -> String.length b = String.length bo -> b <> bo ->
  replace_from (String "#" bo) (String "#" bn) 0 (String "#" b +:+ x)
  = String "#" b +:+ replace_from (String "#" bo) (String "#" bn) 0 x.
Proof.
  intros H L Hne.
  change (String "#" b +:+ x) with (String "#" (b +:+ x)).
  rewrite replace_from_other.
  - now rewrite replace_passes_body.
  - change (String "#" (b +:+ x)) with (String "#" b +:+ x).
    rewrite startswith_same_length by (cbn [String.length]; now rewrite L).
    apply String.eqb_neq. congruence.
Qed.

(** What begins the result without a [#] in it begins the text, and the
    other way round. *)
Lemma replace_keeps_body_start q : forall s,
  hashfree q = true ->
  startswith q (replace_from (String "#" bo) (String "#" bn) 0 s)
  = startswith q s.
Proof.
  induction q as [|x q IH]; intros s H; [reflexivity|].
  apply hashfree_cons in H. destruct H as [Hx H].
  destruct s as [|c s]; [reflexivity|].
  destruct (startswith (String "#" bo) (String c s)) eqn:E.
  - pose proof (colour_starts_with_hash _ _ _ E) as ->.
    cbn [replace_from]. rewrite E. cbn [String.append startswith].
    rewrite Ascii.eqb_sym, Hx. reflexivity.
  - rewrite (replace_from_other _ _ _ _ E). cbn [startswith].
    now rewrite IH.
Qed.

(** A colour is not found in what follows the [#] of another. *)
Lemma contains_past_body bq b : forall x,
  hashfree b = true ->
  contains (String "#" bq) (b +:+ x) = contains (String "#" bq) x.
Proof.
  induction b as [|c b IH]; intros x H; [reflexivity|].
  apply hashfree_cons in H. destruct H as [Hc H].
  change (String c b +:+ x) with (String c (b +:+ x)).
  rewrite contains_cons, IH by exact H.
  cbn [startswith]. now rewrite Hc.
Qed.

(** A colour found after the replacement is the colour written, or was
    in the text before and is not the colour looked for. *)
Lemma contains_after_replace bq :
  hashfree bq = true -> String.length bq = String.length bn ->
  forall s k,
    contains (String "#" bq)
             (replace_from (String "#" bo) (String "#" bn) k s) = true ->
    bq = bn \/ (bq <> bo /\ contains (String "#" bq) s = true).
Proof.
  intros Hq Lq. induction s as [|c s IH]; intros k H; [discriminate|].
  destruct k as [|k]; cbn [replace_from] in H.
  - destruct (startswith (String "#" bo) (String c s)) eqn:E.
    + change (String "#" bn +:+ ?X) with (String "#" (bn +:+ X)) in H.
      rewrite contains_cons in H. apply orb_true_iff in H.
      destruct H as [H|H].
      * left.
        change (String "#" (bn +:+ ?X)) with (String "#" bn +:+ X) in H.
        rewrite startswith_same_length in H
          by (cbn [String.length]; now rewrite Lq).
        apply String.eqb_eq in H. now inversion H.
      * rewrite contains_past_body in H by exact Hbn.
        destruct (IH _ H) as [->|[Hne Hc]]; [now left|right].
        split; [exact Hne|now apply contains_tail].
    + rewrite contains_cons in H. apply orb_true_iff in H.
      destruct H as [H|H].
      * right.
        assert (Hs : startswith (String "#" bq) (String c s) = true).
        { cbn [startswith] in H |- *. apply andb_true_iff in H.
          destruct H as [H1 H2].
          rewrite H1. rewrite replace_keeps_body_start in H2 by exact Hq.
          exact H2. }
        split; [|rewrite contains_cons, Hs; reflexivity].
        intros ->. congruence.
      * destruct (IH _ H) as [->|[Hne Hc]]; [now left|right].
        split; [exact Hne|now apply contains_tail].
  - destruct (IH _ H) as [->|[Hne Hc]]; [now left|right].
    split; [exact Hne|now apply contains_tail].
Qed.

End Colour.

(** ** Two colours, one after the other *)

Section TwoColours.

Variables bo1 bn1 bo2 bn2 : string.
Hypothesis Hbo1 : hashfree bo1 = true.
Hypothesis Hbn1 : hashfree bn1 = true.
Hypothesis Hbo2 : hashfree bo2 = true.
Hypothesis Hbn2 : hashfree bn2 = true.
Hypothesis Hlen1 : String.length bn1 = String.length bo2.
Hypothesis Hlen2 : String.length bo1 = String.length bo2.
Hypothesis Hnew : bn1 <> bo2.
Hypothesis Hold : bo1 <> bo2.

(** The first replacement writes its colour, and the second leaves it. *)
Lemma both_on_first r :
  replace_from (String "#" bo2) (String "#" bn2) 0
    (replace_from (String "#" bo1) (String "#" bn1) 0 (String "#" bo1 +:+ r))
  = String "#" bn1
    +:+ replace_from (String "#" bo2) (String "#" bn2) 0
          (replace_from (String "#" bo1) (String "#" bn1) 0 r).
Proof.
  rewrite replace_from_match.
  now rewrite (replace_passes_colour bo2 bn2) by assumption.
Qed.

(** The first replacement leaves the colour of the second, which
    replaces it. *)
Lemma both_on_second r :
  replace_from (String "#" bo2) (String "#" bn2) 0
    (replace_from (String "#" bo1) (String "#" bn1) 0 (String "#" bo2 +:+ r))
  = String "#" bn2
    +:+ replace_from (String "#" bo2) (String "#" bn2) 0
          (replace_from (String "#" bo1) (String "#" bn1) 0 r).
Proof.
  rewrite (replace_passes_colour bo1 bn1) by (auto; congruence).
  now rewrite replace_from_match.
Qed.

(** Where neither colour begins, both leave the first character. *)
Lemma both_on_other c r :
  startswith (String "#" bo1) (String c r) = false ->
  startswith (String "#" bo2) (String c r) = false ->
  replace_from (String "#" bo2) (String "#" bn2) 0
    (replace_from (String "#" bo1) (String "#" bn1) 0 (String c r))
  = String c
      (replace_from (String "#" bo2) (String "#" bn2) 0
         (replace_from (String "#" bo1) (String "#" bn1) 0 r)).
Proof.
  intros H1 H2. rewrite (replace_from_other _ _ _ _ H1).
  apply replace_from_other.
  cbn [startswith] in H2 |- *.
  rewrite (replace_keeps_body_start bo1 bn1) by assumption.
  exact H2.
Qed.

End TwoColours.

(** A function on texts that goes through the text from the left,
    writes [n1] for [o1] and [n2] for [o2] and keeps every other
    character, is determined by that. *)
Lemma scanner_unique (o1 n1 o2 n2 : string) (f g : string -> string) :
  o1 <> "" -> o2 <> "" ->
  f "" = "" -> g "" = "" ->
  (forall r, f (o1 +:+ r) = n1 +:+ f r) ->
  (forall r, g (o1 +:+ r) = n1 +:+ g r) ->
  (forall r, f (o2 +:+ r) = n2 +:+ f r) ->
  (forall r, g (o2 +:+ r) = n2 +:+ g r) ->
  (forall c r, startswith o1 (String c r) = false ->
               startswith o2 (String c r) = false ->
               f (String c r) = String c (f r)) ->
  (forall c r, startswith o1 (String c r) = false ->
               startswith o2 (String c r) = false ->
               g (String c r) = String c (g r)) ->
  forall s, f s = g s.
Proof.
  intros Ho1 Ho2 F0 G0 F1 G1 F2 G2 F3 G3 s.
  remember (String.length s) as m eqn:Hm. revert s Hm.
  induction m as [m IH] using lt_wf_ind. intros s Hm.
  destruct s as [|c s]; [now rewrite F0, G0|].
  destruct (startswith o1 (String c s)) eqn:E1.
  - destruct (startswith_decompose _ _ E1) as [r Hr]. rewrite Hr, F1, G1.
    f_equal. apply (IH (String.length r)); [|reflexivity].
    subst m. rewrite Hr, string_length_app.
    destruct o1; [congruence|simpl; lia].
  - destruct (startswith o2 (String c s)) eqn:E2.
    + destruct (startswith_decompose _ _ E2) as [r Hr]. rewrite Hr, F2, G2.
      f_equal. apply (IH (String.length r)); [|reflexivity].
      subst m. rewrite Hr, string_length_app.
      destruct o2; [congruence|simpl; lia].
    + rewrite (F3 _ _ E1 E2), (G3 _ _ E1 E2). f_equal.
      apply (IH (String.length s)); [|reflexivity].
      subst m. simpl. lia.
Qed.

(** ** The two replacements of the script *)

Lemma recolor_text_clears (content : string) :
  contains "#3d3a5c" (recolor_text content) = false /\
  contains "#c87a9d" (recolor_text content) = false.
Proof.
  unfold recolor_text, str_replace. split.
  - destruct (contains "#3d3a5c" _) eqn:E; [|reflexivity].
    apply (contains_after_replace "c87a9d" "da619b" eq_refl "3d3a5c"
                                  eq_refl eq_refl) in E.
    destruct E as [E|[_ E]]; [discriminate|].
    apply (contains_after_replace "3d3a5c" "2e2b54" eq_refl "3d3a5c"
                                  eq_refl eq_refl) in E.
    destruct E as [E|[E _]]; [discriminate|congruence].
  - destruct (contains "#c87a9d" _) eqn:E; [|reflexivity].
    apply (contains_after_replace "c87a9d" "da619b" eq_refl "c87a9d"
                                  eq_refl eq_refl) in E.
    destruct E as [E|[E _]]; [discriminate|congruence].
Qed.

Lemma recolor_text_keeps (content : string) :
  contains "#3d3a5c" content = false ->
  contains "#c87a9d" content = false ->
  recolor_text content = content.
Proof.
  intros H1 H2. unfold recolor_text, str_replace.
  rewrite (replace_from_absent _ _ _ H1).
  apply (replace_from_absent _ _ _ H2).
Qed.

Lemma recolor_text_twice (content : string) :
  recolor_text (recolor_text content) = recolor_text content.
Proof.
  destruct (recolor_text_clears content) as [H1 H2].
  now apply recolor_text_keeps.
Qed.

(** X9. After the two replacements neither of the two colours the script
    looks for is left in the text, whatever the text was, and the text
    has the length it had. *)
Theorem recolor_text_leaves_no_old_colour (content : string) :
  contains "#3d3a5c" (recolor_text content) = false /\
  contains "#c87a9d" (recolor_text content) = false /\
  String.length (recolor_text content) = String.length content.
Proof.
  destruct (recolor_text_clears content) as [H1 H2].
  repeat split; trivial.
  unfold recolor_text, str_replace.
  pose proof (replace_from_length "#3d3a5c" "#2e2b54"
                ltac:(discriminate) eq_refl content 0 ltac:(lia)) as L1.
  pose proof (replace_from_length "#c87a9d" "#da619b"
                ltac:(discriminate) eq_refl
                (replace_from "#3d3a5c" "#2e2b54" 0 content) 0
                ltac:(lia)) as L2.
  lia.
Qed.

(** X10. The texts the two replacements leave as they are, are the
    texts with neither of the two colours; so a text that has been
    recoloured is left as it is by recolouring it again. *)
Theorem recolor_text_fixed_points (content : string) :
  (recolor_text content = content <->
   contains "#3d3a5c" content = false /\ contains "#c87a9d" content = false)
  /\ recolor_text (recolor_text content) = recolor_text content.
Proof.
  split; [split|].
  - intros H. rewrite <- H. apply recolor_text_clears.
  - intros [H1 H2]. now apply recolor_text_keeps.
  - apply recolor_text_twice.
Qed.

(** X11. The two replacements together are one pass through the text
    from the left: where [#3d3a5c] begins, [#2e2b54] is written, where
    [#c87a9d] begins, [#da619b] is written, and every other character is
    kept.  The second replacement never undoes or redoes what the first
    has written. *)
Theorem recolor_text_is_one_pass :
  recolor_text "" = ""
  /\ (forall r, recolor_text ("#3d3a5c" +:+ r) = "#2e2b54" +:+ recolor_text r)
  /\ (forall r, recolor_text ("#c87a9d" +:+ r) = "#da619b" +:+ recolor_text r)
  /\ (forall c r,
         startswith "#3d3a5c" (String c r) = false ->
         startswith "#c87a9d" (String c r) = false ->
         recolor_text (String c r) = String c (recolor_text r)).
Proof.
  unfold recolor_text, str_replace.
  split; [reflexivity|]. split; [|split].
  - intros r.
    apply (both_on_first "3d3a5c" "2e2b54" "c87a9d" "da619b");
      try reflexivity; discriminate.
  - intros r.
    apply (both_on_second "3d3a5c" "2e2b54" "c87a9d" "da619b");
      try reflexivity; discriminate.
  - intros c r.
    apply (both_on_other "3d3a5c" "2e2b54" "c87a9d" "da619b");
      reflexivity.
Qed.

(** X12. The order of the two replacements does not matter: with the two
    assignments to [content] exchanged, every text comes out the same. *)
Theorem recolor_text_order_is_immaterial (content : string) :
  str_replace "#3d3a5c" "#2e2b54" (str_replace "#c87a9d" "#da619b" content)
  = recolor_text content.
Proof.
  unfold recolor_text, str_replace.
  apply (scanner_unique
           "#3d3a5c" "#2e2b54" "#c87a9d" "#da619b"
           (fun t => replace_from "#3d3a5c" "#2e2b54" 0
                       (replace_from "#c87a9d" "#da619b" 0 t))
           (fun t => replace_from "#c87a9d" "#da619b" 0
                       (replace_from "#3d3a5c" "#2e2b54" 0 t)));
    cbv beta.
  - discriminate.
  - discriminate.
  - reflexivity.
  - reflexivity.
  - intros r.
    apply (both_on_second "c87a9d" "da619b" "3d3a5c" "2e2b54");
      try reflexivity; discriminate.
  - intros r.
    apply (both_on_first "3d3a5c" "2e2b54" "c87a9d" "da619b");
      try reflexivity; discriminate.
  - intros r.
    apply (both_on_first "c87a9d" "da619b" "3d3a5c" "2e2b54");
      try reflexivity; discriminate.
  - intros r.
    apply (both_on_second "3d3a5c" "2e2b54" "c87a9d" "da619b");
      try reflexivity; discriminate.
  - intros c r H1 H2.
    apply (both_on_other "c87a9d" "da619b" "3d3a5c" "2e2b54");
      try reflexivity; assumption.
  - intros c r.
    apply (both_on_other "3d3a5c" "2e2b54" "c87a9d" "da619b");
      reflexivity.
Qed.

(** ** Reading and writing files *)

Lemma read_file_lookup p : forall n f,
  read_file p n = inr f <-> lookup p n = Some (File f).
Proof.
  induction p as [|c p IH]; intros [g|es] f; simpl.
  - split; intros H; inversion H; reflexivity.
  - split; discriminate.
  - split; discriminate.
  - destruct (entry c es) as [m|]; [apply IH|split; discriminate].
Qed.

Lemma read_file_dir p : forall n es,
  lookup p n = Some (Dir es) -> read_file p n = inl IsADirectoryError.
Proof.
  induction p as [|c p IH]; intros [g|es'] es H; simpl in *;
    try discriminate; [reflexivity|].
  destruct (entry c es') as [m|]; [now apply (IH _ es)|discriminate].
Qed.

(** A file that is there can be written over. *)
Lemma write_file_over p f : forall n g,
  lookup p n = Some (File g) -> exists n', write_file p f n = inr n'.
Proof.
  induction p as [|c p IH]; intros [h|es] g H; simpl in *;
    try discriminate; [eauto|].
  destruct (entry c es) as [m|]; [|discriminate].
  destruct (IH _ _ H) as [m' ->]. eauto.
Qed.

Lemma map_fst_set_entry c m' es m :
  entry c es = Some m -> map fst (set_entry c m' es) = map fst es.
Proof.
  induction es as [|[c' n'] es IH]; simpl; [discriminate|].
  destruct (String.eqb c c') eqn:E; simpl.
  - apply String.eqb_eq in E. now subst.
  - intros H. now rewrite IH.
Qed.

(** Writing over a file changes no directory listing. *)
Lemma write_file_scandir p f : forall n n' g d,
  write_file p f n = inr n' -> lookup p n = Some (File g) ->
  scandir d n' = scandir d n.
Proof.
  unfold scandir.
  induction p as [|c p IH]; intros [h|es] n' g d W H; simpl in *;
    try discriminate.
  - inversion W; subst. destruct d; reflexivity.
  - destruct (entry c es) as [m|] eqn:E; [|discriminate].
    destruct (write_file p f m) as [e|m'] eqn:W'; [discriminate|].
    inversion W; subst n'. destruct d as [|x d]; simpl.
    + now rewrite (map_fst_set_entry _ _ _ _ E).
    + destruct (String.eqb x c) eqn:Exc.
      * apply String.eqb_eq in Exc. subst x.
        rewrite entry_set_entry_eq, E. apply (IH _ _ _ _ W' H).
      * apply String.eqb_neq in Exc.
        rewrite entry_set_entry_ne by congruence. reflexivity.
Qed.

(** ** The files the script lists *)

Lemma highlight_files_form base root p :
  In p (highlight_files base root) ->
  exists c, fnmatch "*_highlight.svg" c = true /\
            (p = child base c \/ p = child (child base "svg") c).
Proof.
  unfold highlight_files, glob1. intros H. apply in_app_or in H.
  destruct H as [H|H]; apply in_map_iff in H; destruct H as (c & <- & Hc);
    apply filter_In in Hc; destruct Hc as [_ Hc]; exists c; auto.
Qed.

Lemma highlight_files_NoDup base root :
  NoDup (scandir base root) -> NoDup (scandir (child base "svg") root) ->
  NoDup (highlight_files base root).
Proof.
  intros H1 H2. unfold highlight_files, glob1. apply NoDup_app.
  - apply NoDup_map_on; [intros x y _ _; apply child_inj|].
    now repeat apply NoDup_filter.
  - apply NoDup_map_on; [intros x y _ _; apply child_inj|].
    now repeat apply NoDup_filter.
  - intros p Hp Hq. apply in_map_iff in Hp, Hq.
    destruct Hp as (c & <- & _), Hq as (c' & Heq & _).
    apply (f_equal (@List.length string)) in Heq. unfold child in Heq.
    rewrite !length_app in Heq. simpl in Heq. lia.
Qed.

(** No listed file lies above another. *)
Lemma highlight_files_apart base root p q :
  In p (highlight_files base root) -> In q (highlight_files base root) ->
  p <> q -> is_prefix q p = false.
Proof.
  intros Hp Hq Hne.
  destruct (is_prefix q p) eqn:E; [exfalso|reflexivity].
  apply is_prefix_spec in E. destruct E as [r Hr].
  destruct (highlight_files_form _ _ _ Hp) as (c & _ & Hpc).
  destruct (highlight_files_form _ _ _ Hq) as (c' & Hm & Hqc).
  assert (L := f_equal (@List.length string) Hr).
  destruct Hpc as [-> | ->], Hqc as [-> | ->]; unfold child in *;
    rewrite ?length_app in L; simpl in L.
  - destruct r; simpl in L; [|lia]. rewrite app_nil_r in Hr. congruence.
  - lia.
  - destruct r as [|x [|y r]]; simpl in L; try lia.
    rewrite <- !app_assoc in Hr. apply app_inv_head in Hr.
    inversion Hr; subst. discriminate.
  - destruct r; simpl in L; [|lia]. rewrite app_nil_r in Hr. congruence.
Qed.

(** ** The loop over the listed files *)

Section RecolorRuns.

Variable decode : list Byte.byte -> exn + string.
Variable encode : string -> list Byte.byte.
Variable clock : nat -> Z.
Variable new_mode : N.

(** One turn of the loop. *)
Lemma recolor_loop_step f rest k w :
  recolor_loop decode encode clock new_mode (f :: rest) k w
  = match read_file f (fs w) with
    | inl e => (Raise e, w)
    | inr fl =>
        match decode (content fl) with
        | inl e => (Raise e, w)
        | inr text =>
            match write_file f (mkfile (encode (recolor_text text))
                                       (st_mode fl) (clock k)) (fs w) with
            | inl e => (Raise e, w)
            | inr root =>
                recolor_loop decode encode clock new_mode rest (S k)
                  (printed (mkWorld root (stdout w) (calls w))
                           (updated_line f))
            end
        end
    end.
Proof.
  cbn [recolor_loop]. unfold bind at 1, read_text.
  destruct (read_file f (fs w)) as [e|fl] eqn:R; [reflexivity|].
  destruct (decode (content fl)) as [e|text]; [reflexivity|].
  unfold bind at 1, write_text. rewrite R.
  destruct (write_file f _ (fs w)) as [e|root]; reflexivity.
Qed.

Lemma recolor_loop_app pre post : forall k w,
  recolor_loop decode encode clock new_mode (pre ++ post) k w
  = match recolor_loop decode encode clock new_mode pre k w with
    | (Return _, w') =>
        recolor_loop decode encode clock new_mode post
                     (k + List.length pre) w'
    | (Raise e, w') => (Raise e, w')
    end.
Proof.
  induction pre as [|f pre IH]; intros k w.
  - simpl. now rewrite Nat.add_0_r.
  - rewrite <- app_comm_cons, !recolor_loop_step.
    destruct (read_file f (fs w)) as [e|fl]; [reflexivity|].
    destruct (decode (content fl)) as [e|text]; [reflexivity|].
    destruct (write_file f _ (fs w)) as [e|root]; [reflexivity|].
    rewrite IH. cbn [List.length]. now rewrite Nat.add_succ_r.
Qed.

(** The loop on files it can read, none of them above another: every
    one of them is rewritten with its text recoloured and keeps its
    permission bits, one line is printed for each, and nothing else
    changes. *)
Lemma recolor_loop_spec : forall files k w,
  NoDup files ->
  (forall p q, In p files -> In q files -> p <> q ->
               is_prefix q p = false) ->
  Forall (readable decode (fs w)) files ->
  exists w',
    recolor_loop decode encode clock new_mode files k w = (Return tt, w') /\
    calls w' = calls w /\
    stdout w' = stdout w ++ map updated_line files /\
    (forall i p fl text,
        nth_error files i = Some p ->
        lookup p (fs w) = Some (File fl) ->
        decode (content fl) = inr text ->
        lookup p (fs w')
        = Some (File (mkfile (encode (recolor_text text))
                             (st_mode fl) (clock (k + i))))) /\
    (forall q, (forall p, In p files -> is_prefix q p = false) ->
               lookup q (fs w') = lookup q (fs w)) /\
    (forall d, scandir d (fs w') = scandir d (fs w)).
Proof.
  induction files as [|f rest IH]; intros k w Hnd Hapart Hall.
  - exists w. simpl. rewrite app_nil_r. repeat split; trivial.
    intros [|i] p fl text H; discriminate.
  - inversion Hnd as [|? ? Hnotin Hnd']; subst.
    inversion Hall as [|? ? (fl & text & Hf & Hdec) Hrest]; subst.
    destruct (write_file_over f (mkfile (encode (recolor_text text))
                                        (st_mode fl) (clock k)) _ _ Hf)
      as [root W].
    assert (Hother : forall p, In p rest ->
                               lookup p root = lookup p (fs w)).
    { intros p Hp. apply (write_file_frame _ _ _ _ _ W).
      apply Hapart; simpl; auto. intros ->. contradiction. }
    assert (Hall' : Forall (readable decode root) rest).
    { rewrite Forall_forall in Hrest |- *. intros p Hp.
      destruct (Hrest _ Hp) as (fl' & text' & Hf' & Hdec').
      exists fl', text'. split; [|exact Hdec'].
      now rewrite (Hother _ Hp). }
    destruct (IH (S k)
                 (printed (mkWorld root (stdout w) (calls w))
                          (updated_line f))
                 Hnd'
                 (fun p q Hp Hq => Hapart p q (or_intror Hp) (or_intror Hq))
                 Hall')
      as (w' & Hrun & Hcalls & Hout & Hnew & Hframe & Hscan).
    cbn [printed fs stdout calls] in *.
    exists w'. repeat split.
    + rewrite recolor_loop_step.
      apply read_file_lookup in Hf. rewrite Hf, Hdec, W. exact Hrun.
    + exact Hcalls.
    + rewrite Hout. cbn [map]. now rewrite <- app_assoc.
    + intros [|i] p fl0 text0 Hi Hp Hd.
      * inversion Hi; subst p. rewrite Hf in Hp. inversion Hp; subst fl0.
        rewrite Hdec in Hd. inversion Hd; subst text0.
        rewrite Nat.add_0_r, Hframe.
        -- apply (write_file_lookup _ _ _ _ W).
        -- intros p Hp'. apply Hapart; simpl; auto.
           intros ->. contradiction.
      * cbn [nth_error] in Hi. rewrite Nat.add_succ_r.
        apply (Hnew i p fl0 text0 Hi); [|exact Hd].
        rewrite Hother; [exact Hp|]. apply (nth_error_In _ _ Hi).
    + intros q Hq. rewrite Hframe by (intros p Hp; apply Hq; simpl; auto).
      apply (write_file_frame _ _ _ _ _ W). apply Hq. simpl. auto.
    + intros d. rewrite Hscan. apply (write_file_scandir _ _ _ _ _ _ W Hf).
Qed.

(** The script, from its listing on. *)
Lemma recolor_highlights_unfold base w :
  recolor_highlights decode encode clock new_mode base w
  = match recolor_loop decode encode clock new_mode
                       (highlight_files base (fs w)) 0
                       (printed w
                          ("Found "
                           +:+ str_nat (List.length
                                          (highlight_files base (fs w)))
                           +:+ " highlight files")) with
    | (Return _, w') => (Return tt, printed w' "Done!")
    | (Raise e, w') => (Raise e, w')
    end.
Proof.
  unfold recolor_highlights, highlight_files.
  unfold bind at 1, glob_glob. unfold bind at 1. cbn [fs].
  rewrite bind_print. unfold bind at 1.
  destruct (recolor_loop _ _ _ _ _ _ _) as [[[]|e] w']; reflexivity.
Qed.

(** A run on listed files that can all be read. *)
Lemma recolor_run_spec base w :
  NoDup (scandir base (fs w)) ->
  NoDup (scandir (child base "svg") (fs w)) ->
  Forall (readable decode (fs w)) (highlight_files base (fs w)) ->
  exists w',
    recolor_highlights decode encode clock new_mode base w
    = (Return tt, w') /\
    calls w' = calls w /\
    stdout w'
    = stdout w
      ++ ("Found " +:+ str_nat (List.length (highlight_files base (fs w)))
          +:+ " highlight files")
      :: map updated_line (highlight_files base (fs w)) ++ ["Done!"] /\
    (forall k p fl text,
        nth_error (highlight_files base (fs w)) k = Some p ->
        lookup p (fs w) = Some (File fl) ->
        decode (content fl) = inr text ->
        lookup p (fs w')
        = Some (File (mkfile (encode (recolor_text text))
                             (st_mode fl) (clock k)))) /\
    (forall q, (forall p, In p (highlight_files base (fs w)) ->
                          is_prefix q p = false) ->
               lookup q (fs w') = lookup q (fs w)) /\
    (forall d, scandir d (fs w') = scandir d (fs w)).
Proof.
  intros N1 N2 Hall. rewrite recolor_highlights_unfold.
  match goal with
  | |- context [recolor_loop _ _ _ _ ?l 0 ?w0] =>
      destruct (recolor_loop_spec l 0 w0
                  (highlight_files_NoDup _ _ N1 N2)
                  (highlight_files_apart base (fs w))
                  Hall)
        as (w' & Hrun & Hcalls & Hout & Hnew & Hframe & Hscan)
  end.
  rewrite Hrun. cbn [printed fs stdout calls] in *.
  exists (printed w' "Done!"). cbn [printed fs stdout calls].
  repeat split; trivial.
  rewrite Hout, <- !app_assoc. reflexivity.
Qed.

(** X13. A run of the script from a directory whose path has no wildcard
    character, when every listed entry is a file that can be read as
    text: the script ends normally, having printed the count, one line
    for each listed file in the order of the listing, and [Done!].  The
    [k]-th listed file then holds its text with the two colours replaced,
    with the permission bits it had; every other file is as it was, no
    directory listing has changed, and no program was run. *)
Theorem recolor_rewrites_every_listed_file (base : path) (w : World) :
  has_magic (str base) = false ->
  NoDup (scandir base (fs w)) ->
  NoDup (scandir (child base "svg") (fs w)) ->
  Forall (readable decode (fs w)) (highlight_files base (fs w)) ->
  exists w',
    recolor_highlights decode encode clock new_mode base w
    = (Return tt, w') /\
    calls w' = calls w /\
    stdout w'
    = stdout w
      ++ ("Found " +:+ str_nat (List.length (highlight_files base (fs w)))
          +:+ " highlight files")
      :: map updated_line (highlight_files base (fs w)) ++ ["Done!"] /\
    (forall k p fl text,
        nth_error (highlight_files base (fs w)) k = Some p ->
        lookup p (fs w) = Some (File fl) ->
        decode (content fl) = inr text ->
        lookup p (fs w')
        = Some (File (mkfile (encode (recolor_text text))
                             (st_mode fl) (clock k)))) /\
    (forall q g, lookup q (fs w) = Some (File g) ->
                 ~ In q (highlight_files base (fs w)) ->
                 lookup q (fs w') = Some (File g)) /\
    (forall d, scandir d (fs w') = scandir d (fs w)).
Proof.
  intros _ N1 N2 Hall.
  destruct (recolor_run_spec base w N1 N2 Hall)
    as (w' & Hrun & Hcalls & Hout & Hnew & Hframe & Hscan).
  exists w'. repeat split; trivial.
  intros q g Hq Hno. rewrite Hframe; [exact Hq|].
  intros p Hp. destruct (is_prefix q p) eqn:E; [exfalso|reflexivity].
  apply is_prefix_spec in E. destruct E as [r ->].
  rewrite Forall_forall in Hall.
  destruct (Hall _ Hp) as (fl & text & Hf & _).
  destruct r as [|x r].
  - rewrite app_nil_r in Hp. contradiction.
  - rewrite (lookup_below_file _ (x :: r) _ _ Hq) in Hf; discriminate.
Qed.

(** X14. The loop has no handler.  When a listed entry cannot be read
    as text (it is a directory, or its bytes are no UTF-8 text), the
    script ends there with the exception ([IsADirectoryError], or the
    one decoding raises): the files listed before it are rewritten and
    reported, the entry itself and those listed after it are as they
    were, and [Done!] is not printed. *)
Theorem recolor_stops_at_first_unreadable_file
        (base : path) (w : World)
        (pre : list path) (f : path) (post : list path) (e : exn) :
  has_magic (str base) = false ->
  NoDup (scandir base (fs w)) ->
  NoDup (scandir (child base "svg") (fs w)) ->
  highlight_files base (fs w) = pre ++ f :: post ->
  Forall (readable decode (fs w)) pre ->
  ((exists es, lookup f (fs w) = Some (Dir es)) /\ e = IsADirectoryError)
  \/ (exists fl, lookup f (fs w) = Some (File fl) /\
                 decode (content fl) = inl e) ->
  exists w',
    recolor_highlights decode encode clock new_mode base w = (Raise e, w') /\
    stdout w'
    = stdout w
      ++ ("Found " +:+ str_nat (List.length (pre ++ f :: post))
          +:+ " highlight files")
      :: map updated_line pre /\
    (forall k p fl text,
        nth_error pre k = Some p ->
        lookup p (fs w) = Some (File fl) ->
        decode (content fl) = inr text ->
        lookup p (fs w')
        = Some (File (mkfile (encode (recolor_text text))
                             (st_mode fl) (clock k)))) /\
    (forall q, In q (f :: post) -> lookup q (fs w') = lookup q (fs w)).
Proof.
  intros _ N1 N2 Hl Hpre Hbad.
  pose proof (highlight_files_NoDup _ _ N1 N2) as Hnd.
  pose proof (highlight_files_apart base (fs w)) as Hapart.
  rewrite recolor_highlights_unfold. rewrite Hl in *.
  rewrite recolor_loop_app.
  match goal with
  | |- context [recolor_loop _ _ _ _ pre 0 ?w0] =>
      destruct (recolor_loop_spec pre 0 w0
                  (NoDup_app_remove_r _ _ Hnd)
                  (fun p q Hp Hq =>
                     Hapart p q (in_or_app _ _ _ (or_introl Hp))
                            (in_or_app _ _ _ (or_introl Hq)))
                  Hpre)
        as (w' & Hrun & Hcalls & Hout & Hnew & Hframe & Hscan)
  end.
  rewrite Hrun. cbn [printed fs stdout calls] in *.
  assert (Hrest : forall q, In q (f :: post) ->
                            lookup q (fs w') = lookup q (fs w)).
  { intros q Hq. apply Hframe. intros p Hp. apply Hapart.
    - apply in_or_app. now left.
    - apply in_or_app. now right.
    - intros ->. apply (NoDup_app_disjoint _ _ _ Hnd Hp Hq). }
  exists w'. rewrite recolor_loop_step.
  assert (Hread : match read_file f (fs w') with
                  | inl e' => e' = e
                  | inr fl => decode (content fl) = inl e
                  end).
  { destruct Hbad as [[[es Hd] ->]|(fl & Hf & Hdec)].
    - rewrite <- (Hrest f (or_introl eq_refl)) in Hd.
      now rewrite (read_file_dir _ _ _ Hd).
    - rewrite <- (Hrest f (or_introl eq_refl)) in Hf.
      apply read_file_lookup in Hf. now rewrite Hf. }
  repeat split; trivial.
  - destruct (read_file f (fs w')) as [e'|fl]; [now subst|].
    now rewrite Hread.
  - rewrite Hout. now rewrite <- app_assoc.
Qed.

(** X15. Running the script a second time changes the content of no
    file.  When the first run went through and the texts it wrote are
    read back as they were written, the second run goes through as well,
    lists the same files, and leaves every file with the bytes and the
    permission bits the first run left it with. *)
Theorem recolor_second_run_changes_no_content (base : path) (w : World) :
  let run := recolor_highlights decode encode clock new_mode base in
  let w1 := world_after run w in
  let w2 := world_after run w1 in
  has_magic (str base) = false ->
  NoDup (scandir base (fs w)) ->
  NoDup (scandir (child base "svg") (fs w)) ->
  Forall (readable decode (fs w)) (highlight_files base (fs w)) ->
  (forall p fl text,
      In p (highlight_files base (fs w)) ->
      lookup p (fs w) = Some (File fl) ->
      decode (content fl) = inr text ->
      decode (encode (recolor_text text)) = inr (recolor_text text)) ->
  fst (run w1) = Return tt /\
  highlight_files base (fs w1) = highlight_files base (fs w) /\
  (forall q f1, lookup q (fs w1) = Some (File f1) ->
                exists f2, lookup q (fs w2) = Some (File f2) /\
                           content f2 = content f1 /\
                           st_mode f2 = st_mode f1).
Proof.
  intros run w1 w2 _ N1 N2 Hall Hlaw.
  destruct (recolor_run_spec base w N1 N2 Hall)
    as (wa & Hrun & _ & _ & Hnew & _ & Hscan).
  assert (Ew1 : w1 = wa) by (unfold w1, world_after, run; now rewrite Hrun).
  clearbody w1. subst wa.
  assert (Hsame : highlight_files base (fs w1) = highlight_files base (fs w))
    by (unfold highlight_files, glob1; now rewrite !Hscan).
  assert (Hall1 : forall p, In p (highlight_files base (fs w)) ->
            exists fl text k,
              lookup p (fs w) = Some (File fl) /\
              decode (content fl) = inr text /\
              nth_error (highlight_files base (fs w)) k = Some p /\
              lookup p (fs w1)
              = Some (File (mkfile (encode (recolor_text text))
                                   (st_mode fl) (clock k)))).
  { intros p Hp. rewrite Forall_forall in Hall.
    destruct (Hall _ Hp) as (fl & text & Hf & Hdec).
    destruct (In_nth_error _ _ Hp) as [k Hk].
    exists fl, text, k. repeat split; trivial.
    apply (Hnew k p fl text Hk Hf Hdec). }
  assert (Hread1 : Forall (readable decode (fs w1))
                          (highlight_files base (fs w1))).
  { rewrite Hsame. apply Forall_forall. intros p Hp.
    destruct (Hall1 _ Hp) as (fl & text & k & Hf & Hdec & _ & Hf1).
    eexists _, _. split; [exact Hf1|]. cbn [content].
    apply (Hlaw p fl text Hp Hf Hdec). }
  destruct (recolor_run_spec base w1
              ltac:(now rewrite Hscan) ltac:(now rewrite Hscan) Hread1)
    as (wb & Hrun2 & _ & _ & Hnew2 & Hframe2 & _).
  assert (Ew2 : w2 = wb) by (unfold w2, world_after, run; now rewrite Hrun2).
  clearbody w2. subst wb.
  split; [unfold run; now rewrite Hrun2|]. split; [exact Hsame|].
  intros q f1 Hq.
  destruct (in_dec (list_eq_dec string_dec) q (highlight_files base (fs w)))
    as [Hin|Hout].
  - destruct (Hall1 _ Hin) as (fl & text & k & Hf & Hdec & Hk & Hf1).
    rewrite Hf1 in Hq. inversion Hq; subst f1.
    rewrite <- Hsame in Hk.
    eexists. split.
    + apply (Hnew2 k q _ (recolor_text text) Hk Hf1). cbn [content].
      apply (Hlaw q fl text Hin Hf Hdec).
    + cbn [content st_mode]. now rewrite recolor_text_twice.
  - exists f1. split; [|split; reflexivity].
    rewrite Hframe2; [exact Hq|].
    intros p Hp. rewrite Hsame in Hp.
    destruct (is_prefix q p) eqn:E; [exfalso|reflexivity].
    apply is_prefix_spec in E. destruct E as [r ->].
    destruct (Hall1 _ Hp) as (fl & text & k & _ & _ & _ & Hf1).
    destruct r as [|x r].
    + rewrite app_nil_r in Hp. contradiction.
    + rewrite (lookup_below_file _ (x :: r) _ _ Hq) in Hf1; discriminate.
Qed.

End RecolorRuns.

(** * What is never touched *)

(** Writing a file leaves every other file as it is. *)
Lemma write_file_keeps_files p f : forall n n' q g,
  write_file p f n = inr n' -> lookup q n = Some (File g) -> q <> p ->
  lookup q n' = Some (File g).
Proof.
  induction p as [|c p IH]; intros [h|es] n' q g W Hq Hne; simpl in W;
    try discriminate.
  - destruct q; [congruence|discriminate].
  - destruct q as [|x q]; [discriminate|]. simpl in Hq |- *.
    destruct (String.eqb x c) eqn:Exc.
    + apply String.eqb_eq in Exc. subst x.
      destruct (entry c es) as [m|] eqn:E; [|discriminate].
      destruct (write_file p f m) as [e|m'] eqn:W'; [discriminate|].
      inversion W; subst n'. simpl. rewrite entry_set_entry_eq.
      apply (IH _ _ _ _ W' Hq). congruence.
    + apply String.eqb_neq in Exc.
      assert (K : forall m, entry x (set_entry c m es) = entry x es)
        by (intros; apply entry_set_entry_ne; congruence).
      destruct (entry c es) as [m|] eqn:E.
      * destruct (write_file p f m) as [e|m'] eqn:W'; [discriminate|].
        inversion W; subst n'. simpl. now rewrite K.
      * destruct p; [|discriminate]. inversion W; subst n'. simpl.
        now rewrite K.
Qed.









Section RecolorKeeps.

Variable decode : list Byte.byte -> exn + string.
Variable encode : string -> list Byte.byte.
Variable clock : nat -> Z.
Variable new_mode : N.

Lemma recolor_loop_rewrites_only files : forall k w,
  rewrites_only files w
    (snd (recolor_loop decode encode clock new_mode files k w)).
Proof.
  induction files as [|f rest IH]; intros k w.
  - repeat split; auto. intros q g Hq. exists g. auto.
  - rewrite recolor_loop_step.
    assert (Same : rewrites_only (f :: rest) w w)
      by (repeat split; auto; intros q g Hq; exists g; auto).
    destruct (read_file f (fs w)) as [e|fl] eqn:R; [exact Same|].
    destruct (decode (content fl)) as [e|text]; [exact Same|].
    destruct (write_file f _ (fs w)) as [e|root] eqn:W; [exact Same|].
    apply read_file_lookup in R.
    destruct (IH (S k) (printed (mkWorld root (stdout w) (calls w))
                                (updated_line f)))
      as (C & S & F).
    cbn [printed fs calls] in *. repeat split.
    + exact C.
    + intros d. rewrite S. apply (write_file_scandir _ _ _ _ _ _ W R).
    + intros q g Hq.
      destruct (list_eq_dec string_dec q f) as [->|Hne].
      * rewrite R in Hq. inversion Hq; subst g.
        destruct (F f _ (write_file_lookup _ _ _ _ W))
          as (g' & Hg' & Hmode & _).
        exists g'. split; [exact Hg'|]. split; [exact Hmode|].
        intros Hno. exfalso. apply Hno. now left.
      * destruct (F q g (write_file_keeps_files _ _ _ _ _ _ W Hq Hne))
          as (g' & Hg' & Hmode & Hsame).
        exists g'. split; [exact Hg'|]. split; [exact Hmode|].
        intros Hno. apply Hsame. intros Hin. apply Hno. now right.
Qed.

(** X17. However a run of the recolouring script ends, it has run no
    program, no directory listing has changed (no file is made, removed
    or renamed), every file has the permission bits it had, and every
    file that is not listed is exactly as it was. *)
Theorem recolor_touches_listed_files_only (base : path) (w : World) :
  has_magic (str base) = false ->
  let w' := world_after
              (recolor_highlights decode encode clock new_mode base) w in
  calls w' = calls w /\
  (forall d, scandir d (fs w') = scandir d (fs w)) /\
  (forall q g, lookup q (fs w) = Some (File g) ->
               exists g', lookup q (fs w') = Some (File g') /\
                          st_mode g' = st_mode g /\
                          (~ In q (highlight_files base (fs w)) -> g' = g)).
Proof.
  intros _ w'. unfold w', world_after.
  rewrite recolor_highlights_unfold.
  match goal with
  | |- context [recolor_loop _ _ _ _ ?l 0 ?w0] =>
      pose proof (recolor_loop_rewrites_only l 0 w0) as H;
      destruct (recolor_loop decode encode clock new_mode l 0 w0)
        as [[[]|e] w1]
  end; exact H.
Qed.

End RecolorKeeps.

(** * The sample installation at work *)

Section Examples.

Import Sample.

(** Checks [deployable] on a given tree. *)
Ltac ready_to_deploy :=
  split; [discriminate|]; vm_compute;
  repeat (constructor; [split; [eexists; reflexivity|reflexivity]|]);
  constructor.

(** What [sim_exec] does when asked to rasterize the two sample sources. *)
Lemma sim_rasterizes_a k root :
  sim_exec k (magick_argv a_svg (png_of png_dir a_svg)) root
  = match write_file a_png
                     (mkfile (bytes_of ("PNG of " +:+ str a_svg)) 420 200)
                     root with
    | inr root' => (Completed 0 "", root')
    | inl e => (Completed 1 (str_exn e), root)
    end.
Proof.
  let a := eval vm_compute in (magick_argv a_svg (png_of png_dir a_svg)) in
  change (magick_argv a_svg (png_of png_dir a_svg)) with a.
  reflexivity.
Qed.

Lemma sim_rasterizes_b k root :
  sim_exec k (magick_argv b_svg (png_of png_dir b_svg)) root
  = match write_file b_png
                     (mkfile (bytes_of ("PNG of " +:+ str b_svg)) 420 200)
                     root with
    | inr root' => (Completed 0 "", root')
    | inl e => (Completed 1 (str_exn e), root)
    end.
Proof.
  let a := eval vm_compute in (magick_argv b_svg (png_of png_dir b_svg)) in
  change (magick_argv b_svg (png_of png_dir b_svg)) with a.
  reflexivity.
Qed.

Lemma sim_leaves_a_png_alone :
  leaves_alone sim_exec (magick_argv b_svg (png_of png_dir b_svg)) a_png.
Proof.
  intros k root. rewrite sim_rasterizes_b.
  destruct (write_file b_png _ root) as [e|root'] eqn:E; cbn [snd];
    [reflexivity|].
  apply (write_file_frame _ _ _ _ _ E). reflexivity.
Qed.

Lemma sim_writes_output : writes_output sim_exec png_dir [a_svg; b_svg].
Proof.
  intros s k root rc err root' [<-|[<-|[]]] E Hrc.
  - rewrite sim_rasterizes_a in E.
    destruct (write_file a_png _ root) as [e|r] eqn:W; inversion E; subst;
      [discriminate|].
    unfold path_exists. change (png_of png_dir a_svg) with a_png.
    now rewrite (write_file_lookup _ _ _ _ W).
  - rewrite sim_rasterizes_b in E.
    destruct (write_file b_png _ root) as [e|r] eqn:W; inversion E; subst;
      [discriminate|].
    unfold path_exists. change (png_of png_dir b_svg) with b_png.
    now rewrite (write_file_lookup _ _ _ _ W).
Qed.

Lemma sim_keeps_rasters : keeps_rasters sim_exec png_dir [a_svg; b_svg].
Proof.
  assert (K : forall p q f root,
             (p = a_png \/ p = b_png) -> (q = a_png \/ q = b_png) ->
             path_exists q root = true ->
             path_exists q
               (snd match write_file p f root with
                    | inr root' => (Completed 0 "", root')
                    | inl e => (Completed 1 (str_exn e), root)
                    end) = true).
  { intros p q f root Hp Hq Hex.
    destruct (write_file p f root) as [e|r] eqn:W; cbn [snd]; [exact Hex|].
    unfold path_exists in *.
    destruct (list_eq_dec string_dec q p) as [->|Hne].
    - now rewrite (write_file_lookup _ _ _ _ W).
    - rewrite (write_file_frame _ _ _ _ _ W); [exact Hex|].
      destruct Hp as [->| ->], Hq as [->| ->]; try reflexivity; congruence. }
  intros s s' k root [<-|[<-|[]]] Hs' Hex.
  - rewrite sim_rasterizes_a. apply K; auto.
    destruct Hs' as [<-|[<-|[]]]; auto.
  - rewrite sim_rasterizes_b. apply K; auto.
    destruct Hs' as [<-|[<-|[]]]; auto.
Qed.



(** C2, counterexample.  The text file beside the texture is a file of the
    compressed-output directory, and it is not copied: the stage returns
    1 and the destination holds the texture only. *)
Lemma deployment_leaves_other_files :
  let r := copy_to_mod_folder png_dir dds_dir mod_dir
             (mkWorld (install_with icons_compressed []) [] []) in
  fst r = Return 1
  /\ lookup (child dds_dir "notes.txt") (fs (snd r)) = Some (File notes)
  /\ lookup (child mod_dir "notes.txt") (fs (snd r)) = None
  /\ scandir mod_dir (fs (snd r)) = ["a.dds"].
Proof. vm_compute. repeat split. Qed.

(** C2, witness. *)
Lemma deployment_copies_dds_entries_witness :
  exists w',
    copy_to_mod_folder png_dir dds_dir mod_dir
      (mkWorld (install_with icons_compressed []) [] [])
    = (Return 1, w')
    /\ lookup (child mod_dir "a.dds") (fs w') = Some (File dds_a).
Proof.
  destruct (deployment_copies_dds_entries
              png_dir dds_dir mod_dir
              (mkWorld (install_with icons_compressed []) [] [])
              (install_with icons_compressed []))
    as (w' & Hrun & Hcopy & _).
  - reflexivity.
  - ready_to_deploy.
  - exists w'. split; [exact Hrun|].
    destruct (Hcopy "a.dds") as (f & Hf & Hd).
    + vm_compute. auto.
    + reflexivity.
    + vm_compute in Hf. inversion Hf; subst. exact Hd.
Defined.

(** C3, witness: [a.png] is there before the run; stage 1 rasterizes
    [b.svg] only and [a.png] stays as it was. *)
Lemma stage1_skips_existing_rasters_witness :
  exists n w',
    convert_svgs_to_pngs sim_exec svg_dir png_dir (world icons_fresh)
    = (Return n, w')
    /\ lookup a_png (fs w') = Some (File png_a)
    /\ Forall (fun cl => argv cl <> magick_argv a_svg a_png) (calls w').
Proof.
  destruct (stage1_skips_existing_rasters
              sim_exec svg_dir png_dir (world icons_fresh)
              (install icons_fresh) (install icons_fresh) a_svg png_a)
    as (n & w' & cs & Hrun & Hcalls & Hnot & Hkeep & _).
  - reflexivity.
  - reflexivity.
  - vm_compute. auto.
  - reflexivity.
  - intros s' Hin Hne. vm_compute in Hin.
    destruct Hin as [<-|[<-|[]]].
    + exfalso. now apply Hne.
    + exact sim_leaves_a_png_alone.
  - exists n, w'. split; [exact Hrun|]. split; [exact Hkeep|].
    rewrite Hcalls. cbn [world calls app].
    eapply Forall_impl; [|exact Hnot]. intros cl H. apply H.
Defined.

(** C4, counterexample.  With the compression program not installed,
    stage 2 lists two raster files and calls for the first only: the
    second is never called for. *)
Lemma stage2_stops_at_first_launch_failure :
  let w' := world_after (convert_pngs_to_dds missing_exec png_dir dds_dir)
                        (world icons_rasters) in
  glob_in png_dir "*.png" (fs w') = [a_png; b_png]
  /\ map argv (calls w') = [texconv_argv dds_dir a_png]
  /\ count_occ (list_eq_dec string_dec) (map argv (calls w'))
               (texconv_argv dds_dir b_png) = 0.
Proof. vm_compute. repeat split. Qed.

(** C4, witness: with the program at work, each of the two raster files
    is called for once, in the order of the listing, although [a.dds] is
    there already; with the program not installed, the call for [a.png]
    is the only one and the command line of [b.png] is never run. *)
Lemma stage2_calls_each_raster_once_witness :
  (exists n w',
      convert_pngs_to_dds sim_exec png_dir dds_dir (world icons_recompress)
      = (Return n, w')
      /\ path_exists (child dds_dir "a.dds") (fs (world icons_recompress))
         = true
      /\ map argv (calls w')
         = [texconv_argv dds_dir a_png; texconv_argv dds_dir b_png])
  /\
  (exists w',
      convert_pngs_to_dds missing_exec png_dir dds_dir (world icons_rasters)
      = (Return 0, w')
      /\ calls w'
         = [mkcall (texconv_argv dds_dir a_png) (Raised FileNotFoundError)]
      /\ ~ In (texconv_argv dds_dir b_png) (map argv (calls w'))).
Proof.
  split.
  - destruct (stage2_calls_each_raster_once
                sim_exec png_dir dds_dir (world icons_recompress)
                (install icons_recompress))
      as (n & w' & cs & Hrun & Hcalls & _ & _ & _ & Hfull & _).
    + reflexivity.
    + exists n, w'. split; [exact Hrun|]. split; [reflexivity|].
      cbn [world calls app] in Hcalls. rewrite Hcalls.
      apply Hfull. rewrite <- Hcalls.
      pose proof Hrun as E. vm_compute in E. inversion E; subst. reflexivity.
  - destruct (stage2_calls_each_raster_once
                missing_exec png_dir dds_dir (world icons_rasters)
                (install (icons_rasters ++ [("dds", Dir [])])))
      as (n & w' & cs & Hrun & Hcalls & Hn & (rest & Hpre & _ & Hnot) & _
          & _ & Hlast).
    + reflexivity.
    + cbn [world calls app] in Hcalls.
      assert (Hcs : cs = [mkcall (texconv_argv dds_dir a_png)
                                 (Raised FileNotFoundError)]).
      { destruct cs as [|cl cs].
        - pose proof Hrun as E. vm_compute in E. inversion E; subst.
          discriminate.
        - assert (Hcl : cl = mkcall (texconv_argv dds_dir a_png)
                                    (Raised FileNotFoundError)).
          { pose proof Hrun as E. vm_compute in E. inversion E; subst.
            vm_compute in Hcalls. now inversion Hcalls. }
          subst cl. now rewrite (Hlast [] _ cs eq_refl eq_refl). }
      rewrite Hcs in *. exists w'. split; [|split].
      * rewrite Hrun, Hn. reflexivity.
      * exact Hcalls.
      * rewrite Hcalls. apply Hnot.
        -- vm_compute. repeat constructor; simpl; intuition discriminate.
        -- vm_compute in Hpre. inversion Hpre. now left.
Defined.

(** C5, witness.  Two sources without raster, two rasters to compress.
    With the program not installed, each stage makes one call, prints its
    two lines and returns 0: the second file is not tried.  With a
    program that exits with status 1 on its first call, each stage logs
    the error of the first file and goes on to convert the second. *)
Lemma tool_failure_policy_witness :
  convert_svgs_to_pngs missing_exec svg_dir png_dir (world icons_vectors)
  = (Return 0,
     mkWorld (install (icons_vectors ++ [("pngs", Dir [])]))
             ["  [ERR] magick not found in PATH!";
              "    Download from: https://imagemagick.org/script/download.php"]
             [mkcall (magick_argv a_svg a_png) (Raised FileNotFoundError)])
  /\
  (let w' := world_after (convert_svgs_to_pngs flaky_exec svg_dir png_dir)
                         (world icons_vectors) in
   fst (convert_svgs_to_pngs flaky_exec svg_dir png_dir (world icons_vectors))
   = Return 1
   /\ stdout w' = ["  [ERR] a.svg - ImageMagick error: no decode delegate";
                   "  [OK] b.svg -> b.png"]
   /\ map argv (calls w') = [magick_argv a_svg a_png; magick_argv b_svg b_png]
   /\ path_exists a_png (fs w') = false
   /\ path_exists b_png (fs w') = true)
  /\
  convert_pngs_to_dds missing_exec png_dir dds_dir (world icons_rasters)
  = (Return 0,
     mkWorld (install (icons_rasters ++ [("dds", Dir [])]))
             ["Converting 2 PNG files to DDS...";
              "  [ERR] texconv not found in PATH!";
              "    Download from: https://github.com/Microsoft/DirectXTex/releases"]
             [mkcall (texconv_argv dds_dir a_png) (Raised FileNotFoundError)])
  /\
  (let w' := world_after (convert_pngs_to_dds flaky_exec png_dir dds_dir)
                         (world icons_rasters) in
   fst (convert_pngs_to_dds flaky_exec png_dir dds_dir (world icons_rasters))
   = Return 1
   /\ stdout w' = ["Converting 2 PNG files to DDS...";
                   "  [ERR] a.png - texconv error: no decode delegate";
                   "  [OK] b.png -> b.dds"]
   /\ map argv (calls w')
      = [texconv_argv dds_dir a_png; texconv_argv dds_dir b_png]
   /\ path_exists (child dds_dir "a.dds") (fs w') = false
   /\ path_exists (child dds_dir "b.dds") (fs w') = true).
Proof.
  assert (R1 : forall ex,
             stage1_reaches ex svg_dir png_dir (world icons_vectors)
               [] a_svg [b_svg] 0 0
               (mkWorld (install (icons_vectors ++ [("pngs", Dir [])]))
                        [] [])).
  { intros ex.
    exists (install icons_vectors),
           (install (icons_vectors ++ [("pngs", Dir [])])).
    repeat split; vm_compute; reflexivity. }
  assert (R2 : forall ex,
             stage2_reaches ex png_dir dds_dir (world icons_rasters)
               [] a_png [b_png] 0
               (mkWorld (install (icons_rasters ++ [("dds", Dir [])]))
                        ["Converting 2 PNG files to DDS..."] [])).
  { intros ex. exists (install (icons_rasters ++ [("dds", Dir [])])).
    repeat split; vm_compute; reflexivity. }
  split; [|split; [|split]].
  - apply (proj1 (tool_failure_policy missing_exec)
                 svg_dir png_dir (world icons_vectors) [] a_svg [b_svg] 0 0
                 _ (install (icons_vectors ++ [("pngs", Dir [])]))
                 (R1 missing_exec)).
    reflexivity.
  - pose proof (proj1 (proj2 (tool_failure_policy flaky_exec))
                      svg_dir png_dir (world icons_vectors)
                      [] a_svg [b_svg] 0 0 _ 1%Z "no decode delegate"
                      (install (icons_vectors ++ [("pngs", Dir [])]))
                      (R1 flaky_exec) eq_refl ltac:(discriminate)) as E.
    intros w'. unfold w', world_after. rewrite E.
    vm_compute. repeat split.
  - apply (proj1 (proj2 (proj2 (tool_failure_policy missing_exec)))
                 png_dir dds_dir (world icons_rasters) [] a_png [b_png] 0
                 _ (install (icons_rasters ++ [("dds", Dir [])]))
                 (R2 missing_exec)).
    reflexivity.
  - pose proof (proj2 (proj2 (proj2 (tool_failure_policy flaky_exec)))
                      png_dir dds_dir (world icons_rasters)
                      [] a_png [b_png] 0 _ 1%Z "no decode delegate"
                      (install (icons_rasters ++ [("dds", Dir [])]))
                      (R2 flaky_exec) eq_refl ltac:(discriminate)) as E.
    intros w'. unfold w', world_after. rewrite E.
    vm_compute. repeat split.
Defined.

(** C6, witness: after a first run that rasterized [b.svg], a second run
    returns 0 and makes no call. *)
Lemma stage1_second_run_converts_nothing_witness :
  let w1 := world_after (convert_svgs_to_pngs sim_exec svg_dir png_dir)
                        (world icons_fresh) in
  let w2 := world_after (convert_svgs_to_pngs sim_exec svg_dir png_dir) w1 in
  convert_svgs_to_pngs sim_exec svg_dir png_dir w1 = (Return 0, w2)
  /\ calls w2 = calls w1
  /\ List.length (calls w1) = 1.
Proof.
  intros w1 w2.
  destruct (stage1_second_run_converts_nothing
              sim_exec svg_dir png_dir (world icons_fresh)
              (install icons_fresh) (install icons_fresh)
              (calls w1) (fs w1) (fs w1))
    as (Hrun & Hcalls & _).
  - reflexivity.
  - reflexivity.
  - exact sim_writes_output.
  - exact sim_keeps_rasters.
  - reflexivity.
  - vm_compute. reflexivity.
  - vm_compute. reflexivity.
  - vm_compute. reflexivity.
  - vm_compute. reflexivity.
  - repeat split; assumption || reflexivity.
Defined.

(** C7, witness: a stale texture in the destination is replaced by the
    bytes and the metadata of the source. *)
Lemma deployed_copies_are_identical_witness :
  exists n w',
    copy_to_mod_folder png_dir dds_dir mod_dir
      (mkWorld (install_with icons_compressed [("a.dds", File dds_old)]) [] [])
    = (Return n, w')
    /\ lookup (child mod_dir "a.dds") (fs w') = Some (File dds_a)
    /\ lookup (child dds_dir "a.dds") (fs w') = Some (File dds_a).
Proof.
  destruct (deployed_copies_are_identical
              png_dir dds_dir mod_dir
              (mkWorld (install_with icons_compressed
                                     [("a.dds", File dds_old)]) [] [])
              (install_with icons_compressed [("a.dds", File dds_old)]))
    as (n & w' & Hrun & Hsame).
  - reflexivity.
  - ready_to_deploy.
  - exists n, w'. split; [exact Hrun|].
    destruct (Hsame "a.dds" dds_a) as (Hd & Hs & _).
    + vm_compute. auto.
    + reflexivity.
    + reflexivity.
    + split; assumption.
Defined.

(** C8, witness: an installation with no icons at all. *)
Lemma empty_input_returns_zero_witness :
  convert_svgs_to_pngs sim_exec svg_dir png_dir (world [])
  = (Return 0,
     mkWorld (install [("svg", Dir []); ("pngs", Dir [])])
             ["No SVG files found"] [])
  /\
  convert_pngs_to_dds sim_exec png_dir dds_dir
                      (world [("pngs", Dir [])])
  = (Return 0,
     mkWorld (install [("pngs", Dir []); ("dds", Dir [])])
             ["No PNG files found in /repo/skse/vreditor/assets/icons/pngs"]
             []).
Proof.
  split.
  - apply (proj1 (empty_input_returns_zero sim_exec svg_dir png_dir dds_dir
                                           (world []))
                 (install [("svg", Dir [])])
                 (install [("svg", Dir []); ("pngs", Dir [])]));
      reflexivity.
  - apply (proj1 (proj2 (empty_input_returns_zero
                           sim_exec svg_dir png_dir dds_dir
                           (world [("pngs", Dir [])])))
                 (install [("pngs", Dir []); ("dds", Dir [])]));
      reflexivity.
Defined.

(** C9, witness: two different raster directories, one result; and with
    the raster directory replaced by a plain file, the same count. *)
Lemma deployment_ignores_raster_dir_witness :
  copy_to_mod_folder png_dir dds_dir mod_dir
    (mkWorld (install_with icons_both []) [] [])
  = copy_to_mod_folder svg_dir dds_dir mod_dir
      (mkWorld (install_with icons_both []) [] [])
  /\
  fst (copy_to_mod_folder png_dir dds_dir mod_dir
         (with_graft png_dir (File notes)
                     (mkWorld (install_with icons_both []) [] [])))
  = Return 1.
Proof.
  destruct (deployment_ignores_raster_dir
              png_dir svg_dir dds_dir mod_dir
              (mkWorld (install_with icons_both []) [] []))
    as (Hsame & _ & Hblind).
  split; [exact Hsame|].
  rewrite Hblind; [reflexivity| |]; split; reflexivity.
Defined.

(** What [sim_exec] does when asked to rasterize removes no
    directory. *)
Lemma sim_keeps_directories s :
  In s [a_svg; b_svg] ->
  keeps_directories sim_exec (magick_argv s (png_of png_dir s)).
Proof.
  intros [<-|[<-|[]]] k root q Hq.
  - rewrite sim_rasterizes_a.
    destruct (write_file a_png _ root) as [e|root'] eqn:W; cbn [snd];
      [exact Hq|apply (write_file_dir_stays _ _ _ _ _ W Hq)].
  - rewrite sim_rasterizes_b.
    destruct (write_file b_png _ root) as [e|root'] eqn:W; cbn [snd];
      [exact Hq|apply (write_file_dir_stays _ _ _ _ _ W Hq)].
Qed.

(** C10, witness: two sources and no raster directory.  Stage 2 returns
    0 and does not make the raster directory; stage 1, run in the same
    filesystem, makes it and puts the two rasters into it. *)
Lemma missing_raster_dir_is_empty_input_witness :
  convert_pngs_to_dds sim_exec png_dir dds_dir (world icons_vectors)
  = (Return 0,
     mkWorld (install (icons_vectors ++ [("dds", Dir [])]))
             ["No PNG files found in /repo/skse/vreditor/assets/icons/pngs"]
             [])
  /\ path_exists png_dir (install (icons_vectors ++ [("dds", Dir [])]))
     = false
  /\ (exists w',
         convert_svgs_to_pngs sim_exec svg_dir png_dir (world icons_vectors)
         = (Return 2, w') /\
         is_dir svg_dir (fs w') = true /\
         is_dir png_dir (fs w') = true /\
         scandir png_dir (fs w') = ["a.png"; "b.png"]).
Proof.
  destruct (missing_raster_dir_is_empty_input
              sim_exec png_dir dds_dir (world icons_vectors)
              (install (icons_vectors ++ [("dds", Dir [])])))
    as (Hrun & Hno & _ & Hstage1); try reflexivity.
  split; [exact Hrun|]. split; [exact Hno|].
  destruct (Hstage1 svg_dir (install icons_vectors)
                    (install (icons_vectors ++ [("pngs", Dir [])])))
    as (n & w' & Hrun1 & Hs & Hp); try reflexivity.
  - intros s Hin. apply sim_keeps_directories. exact Hin.
  - assert (Hn : n = 2).
    { pose proof (f_equal fst Hrun1) as F. vm_compute in F.
      now inversion F. }
    subst n. exists w'. split; [exact Hrun1|].
    split; [exact Hs|]. split; [exact Hp|].
    replace w' with (snd (convert_svgs_to_pngs sim_exec svg_dir png_dir
                                               (world icons_vectors)))
      by (now rewrite Hrun1).
    vm_compute. reflexivity.
Defined.

(** X1, at work: the system refuses the first call of each stage.  The
    stage prints the error line of the first file and goes on to convert
    the second. *)
Lemma other_exception_policy_witness :
  (let w' := world_after (convert_svgs_to_pngs denied_exec svg_dir png_dir)
                         (world icons_vectors) in
   fst (convert_svgs_to_pngs denied_exec svg_dir png_dir
                             (world icons_vectors))
   = Return 1
   /\ stdout w' = ["  [ERR] a.svg - Error: [WinError 5] Access is denied";
                   "  [OK] b.svg -> b.png"]
   /\ map argv (calls w') = [magick_argv a_svg a_png; magick_argv b_svg b_png]
   /\ path_exists b_png (fs w') = true)
  /\
  (let w' := world_after (convert_pngs_to_dds denied_exec png_dir dds_dir)
                         (world icons_rasters) in
   fst (convert_pngs_to_dds denied_exec png_dir dds_dir (world icons_rasters))
   = Return 1
   /\ stdout w' = ["Converting 2 PNG files to DDS...";
                   "  [ERR] a.png - Error: [WinError 5] Access is denied";
                   "  [OK] b.png -> b.dds"]
   /\ map argv (calls w')
      = [texconv_argv dds_dir a_png; texconv_argv dds_dir b_png]
   /\ path_exists (child dds_dir "b.dds") (fs w') = true).
Proof.
  split.
  - pose proof (proj1 (other_exception_policy denied_exec)
                      svg_dir png_dir (world icons_vectors)
                      [] a_svg [b_svg] 0 0
                      (mkWorld (install (icons_vectors ++ [("pngs", Dir [])]))
                               [] [])
                      (OtherException "[WinError 5] Access is denied")
                      (install (icons_vectors ++ [("pngs", Dir [])]))) as E.
    intros w'. unfold w', world_after. rewrite E.
    + vm_compute. repeat split.
    + exists (install icons_vectors),
             (install (icons_vectors ++ [("pngs", Dir [])])).
      repeat split; vm_compute; reflexivity.
    + reflexivity.
    + discriminate.
  - pose proof (proj2 (other_exception_policy denied_exec)
                      png_dir dds_dir (world icons_rasters)
                      [] a_png [b_png] 0
                      (mkWorld (install (icons_rasters ++ [("dds", Dir [])]))
                               ["Converting 2 PNG files to DDS..."] [])
                      (OtherException "[WinError 5] Access is denied")
                      (install (icons_rasters ++ [("dds", Dir [])]))) as E.
    intros w'. unfold w', world_after. rewrite E.
    + vm_compute. repeat split.
    + exists (install (icons_rasters ++ [("dds", Dir [])])).
      repeat split; vm_compute; reflexivity.
    + reflexivity.
    + discriminate.
Defined.

(** X2, at work: the sample with one raster missing. *)
Lemma stage1_calls_each_source_at_most_once_witness :
  exists n w' cs sel,
    convert_svgs_to_pngs sim_exec svg_dir png_dir (world icons_fresh)
    = (Return n, w') /\
    calls w' = calls (world icons_fresh) ++ cs /\
    n = List.length (filter succeeded cs) /\
    map argv cs = map (fun s => magick_argv s (png_of png_dir s)) sel /\
    incl sel (glob_in svg_dir "*.svg" (install icons_fresh)) /\
    List.length cs
    <= List.length (glob_in svg_dir "*.svg" (install icons_fresh)) /\
    (NoDup (scandir svg_dir (install icons_fresh)) -> NoDup (map argv cs)).
Proof.
  apply (stage1_calls_each_source_at_most_once
           sim_exec svg_dir png_dir (world icons_fresh)
           (install icons_fresh) (install icons_fresh));
    vm_compute; reflexivity.
Defined.

(** X4, at work: one source rasterized, two rasters compressed, two
    textures deployed. *)
Lemma main_reports_the_stage_counts_witness :
  exists out,
    stdout (world_after (main sim_exec script_dir mod_dir)
                        (world icons_fresh))
    = out ++ [newline +:+ repeat_char "=" 60;
              "Done! Converted 1 SVGs, 2 DDS files, copied 2 total files.";
              repeat_char "=" 60].
Proof.
  apply (main_reports_the_stage_counts
           sim_exec script_dir mod_dir (world icons_fresh) 1 2 2);
    vm_compute; reflexivity.
Defined.

(** X6, at work: [a.dds] is deployed, the directory [odd.dds] ends the
    stage, [b.dds] is never copied. *)
Lemma deployment_stops_at_a_directory_witness :
  exists w',
    copy_to_mod_folder png_dir dds_dir mod_dir (world icons_mixed)
    = (Raise IsADirectoryError, w') /\
    lookup (child mod_dir "a.dds") (fs w') = Some (File dds_a) /\
    lookup (child mod_dir "b.dds") (fs w') = None.
Proof.
  destruct (deployment_stops_at_a_directory
              png_dir dds_dir mod_dir (world icons_mixed)
              (install_with icons_mixed []) ["a.dds"] "odd.dds" ["b.dds"])
    as (w' & Hrun & _ & _ & Hcopy & Hframe).
  - vm_compute. reflexivity.
  - discriminate.
  - vm_compute. reflexivity.
  - constructor; [|constructor].
    split; [eexists; vm_compute; reflexivity|vm_compute; reflexivity].
  - vm_compute. reflexivity.
  - exists w'. split; [exact Hrun|]. split.
    + rewrite (Hcopy "a.dds"); [reflexivity|now left].
    + rewrite Hframe; [reflexivity|].
      intros c' [<-|[]]. reflexivity.
Defined.

(** X7, at work: the sample's textures, deployed onto themselves. *)
Lemma deploying_into_the_source_directory_fails_witness :
  copy_to_mod_folder png_dir dds_dir dds_dir (world icons_compressed)
  = (Raise SameFileError,
     printed (world icons_compressed)
             (newline +:+ "Copying files to mod folder: " +:+ str dds_dir)).
Proof.
  apply (deploying_into_the_source_directory_fails
           png_dir dds_dir (world icons_compressed)
           (install icons_compressed) "a.dds" []);
    vm_compute; reflexivity.
Defined.

(** X8, at work: the two sample sources and their rasters. *)
Lemma rasters_of_listed_sources_witness :
  (exists s,
      a_svg = child svg_dir (s +:+ ".svg") /\
      png_of png_dir a_svg
      = child png_dir (if String.eqb s "" then ".svg.png" else s +:+ ".png"))
  /\
  (png_of png_dir a_svg = png_of png_dir b_svg ->
   a_svg = b_svg \/
   (name a_svg = ".svg" /\ name b_svg = ".svg.svg") \/
   (name a_svg = ".svg.svg" /\ name b_svg = ".svg")).
Proof.
  apply (rasters_of_listed_sources svg_dir png_dir (install icons_fresh)
                                   a_svg b_svg);
    vm_compute; auto.
Defined.

(** The sample highlight icons have the shape the runs ask for. *)
Ltac distinct_names :=
  vm_compute; repeat (constructor; [simpl; intuition discriminate|]);
  constructor.

Ltac each_listed Hp :=
  vm_compute in Hp;
  repeat (destruct Hp as [Hp|Hp]; [subst|]); [..|contradiction].

(** X13, at work: the two highlight icons are recoloured; the hidden
    file and the icon that is no highlight are left alone. *)
Lemma recolor_rewrites_every_listed_file_witness :
  exists w',
    Highlights.run (world Highlights.icons) = (Return tt, w') /\
    stdout w' = ["Found 2 highlight files";
                 "  Updated: bell_highlight.svg";
                 "  Updated: star_highlight.svg";
                 "Done!"] /\
    lookup (child Highlights.base "bell_highlight.svg") (fs w')
    = Some (File (mkfile (Highlights.encode
                            "<path fill='#2e2b54' stroke='#da619b'/>")
                         384 1000)) /\
    lookup (child Highlights.base ".old_highlight.svg") (fs w')
    = Some (File Highlights.plain).
Proof.
  destruct (recolor_rewrites_every_listed_file
              Highlights.decode Highlights.encode Highlights.clock 420
              Highlights.base (world Highlights.icons))
    as (w' & Hrun & _ & Hout & Hnew & Hkeep & _).
  - vm_compute. reflexivity.
  - distinct_names.
  - distinct_names.
  - apply Forall_forall. intros p Hp. each_listed Hp;
      eexists _, _; split; vm_compute; reflexivity.
  - exists w'. split; [exact Hrun|]. split; [exact Hout|]. split.
    + apply (Hnew 0 _ Highlights.bell
                  "<path fill='#3d3a5c' stroke='#c87a9d'/>");
        vm_compute; reflexivity.
    + apply Hkeep; [vm_compute; reflexivity|].
      intros Hp. each_listed Hp; discriminate.
Defined.

(** X14, at work: the second of three highlight icons is no text; the
    first is rewritten, the third is not reached. *)
Lemma recolor_stops_at_first_unreadable_file_witness :
  exists w',
    recolor_highlights Highlights.decode Highlights.encode Highlights.clock
                       420 Highlights.base (world Highlights.icons_torn)
    = (Raise Highlights.invalid, w') /\
    stdout w' = ["Found 3 highlight files";
                 "  Updated: bell_highlight.svg"] /\
    lookup (child Highlights.base "zzz_highlight.svg") (fs w')
    = Some (File Highlights.plain).
Proof.
  destruct (recolor_stops_at_first_unreadable_file
              Highlights.decode Highlights.encode Highlights.clock 420
              Highlights.base (world Highlights.icons_torn)
              [child Highlights.base "bell_highlight.svg"]
              (child Highlights.base "torn_highlight.svg")
              [child Highlights.base "zzz_highlight.svg"]
              Highlights.invalid)
    as (w' & Hrun & Hout & _ & Hrest).
  - vm_compute. reflexivity.
  - distinct_names.
  - distinct_names.
  - vm_compute. reflexivity.
  - constructor; [|constructor].
    eexists _, _; split; vm_compute; reflexivity.
  - right. exists Highlights.torn. split; vm_compute; reflexivity.
  - exists w'. split; [exact Hrun|]. split; [exact Hout|].
    rewrite Hrest; [vm_compute; reflexivity|]. simpl. auto.
Defined.

(** X15, at work: the sample icons, recoloured twice. *)
Lemma recolor_second_run_changes_no_content_witness :
  let w1 := world_after Highlights.run (world Highlights.icons) in
  let w2 := world_after Highlights.run w1 in
  fst (Highlights.run w1) = Return tt /\
  highlight_files Highlights.base (fs w1)
  = highlight_files Highlights.base (fs (world Highlights.icons)) /\
  (forall q f1, lookup q (fs w1) = Some (File f1) ->
                exists f2, lookup q (fs w2) = Some (File f2) /\
                           content f2 = content f1 /\
                           st_mode f2 = st_mode f1).
Proof.
  apply (recolor_second_run_changes_no_content
           Highlights.decode Highlights.encode Highlights.clock 420
           Highlights.base (world Highlights.icons)).
  - vm_compute. reflexivity.
  - distinct_names.
  - distinct_names.
  - apply Forall_forall. intros p Hp. each_listed Hp;
      eexists _, _; split; vm_compute; reflexivity.
  - intros p fl text Hp Hf Hd. each_listed Hp;
      vm_compute in Hf; inversion Hf; subst fl;
      vm_compute in Hd; inversion Hd; subst text;
      vm_compute; reflexivity.
Defined.

(** X17, at work: the run that ends at the icon that is no text. *)
Lemma recolor_touches_listed_files_only_witness :
  let w' := world_after
              (recolor_highlights Highlights.decode Highlights.encode
                                  Highlights.clock 420 Highlights.base)
              (world Highlights.icons_torn) in
  calls w' = calls (world Highlights.icons_torn) /\
  (forall d, scandir d (fs w')
             = scandir d (fs (world Highlights.icons_torn))) /\
  (forall q g,
      lookup q (fs (world Highlights.icons_torn)) = Some (File g) ->
      exists g', lookup q (fs w') = Some (File g') /\
                 st_mode g' = st_mode g /\
                 (~ In q (highlight_files
                            Highlights.base
                            (fs (world Highlights.icons_torn))) ->
                  g' = g)).
Proof.
  apply (recolor_touches_listed_files_only
           Highlights.decode Highlights.encode Highlights.clock 420
           Highlights.base (world Highlights.icons_torn)).
  vm_compute. reflexivity.
Defined.

End Examples.
